(** * Alarm-Clock: a shallow embedding of [clock.py]

    The program is a single Python module.  Its functions are embedded
    here as Rocq functions over a model of the Python values they
    handle:

    - a Python [str] is a list of Unicode code points;
    - the value returned by [json.load] is a [pyval];
    - code that mutates the module globals [RINGING] and
      [STOPPED_THIS_MINUTE], or that can raise, runs in a small
      state-and-exception monad which also records the lock operations
      and the accesses to the shared globals, in program order;
    - what the interpreter and the operating system decide (the Unicode
      tables behind [str.upper], [str.strip] and [int], the [os.path]
      flavour, the wall clock, the files that exist, the audio backend)
      is an interface or an explicit input. *)

From Stdlib Require Import List NArith ZArith Lia Bool String Ascii.
From Stdlib Require Import Sorted Permutation.
Import ListNotations.

Set Implicit Arguments.
Set Warnings "-register-all".

(** ** Python strings *)

Module PyStr.

(** A [str] is a sequence of code points. *)
Definition pystr := list N.

(** [lit "PM"] is the Python literal ["PM"]. *)
Definition lit (s : string) : pystr :=
  List.map N_of_ascii (list_ascii_of_string s).

Fixpoint str_eqb (a b : pystr) : bool :=
  match a, b with
  | [], [] => true
  | x :: a', y :: b' => N.eqb x y && str_eqb a' b'
  | _, _ => false
  end.

Fixpoint startswith (s p : pystr) : bool :=
  match p, s with
  | [], _ => true
  | y :: p', x :: s' => N.eqb x y && startswith s' p'
  | _ :: _, [] => false
  end.

Definition endswith (s p : pystr) : bool := startswith (rev s) (rev p).

(** Truth value of a [str]: non-empty. *)
Definition str_truthy (s : pystr) : bool :=
  match s with [] => false | _ :: _ => true end.

(** *** Decimal formatting: [f"{h:02d}"] *)

Definition digit_char (d : N) : N := 48 + d.

Fixpoint uint_chars (d : Decimal.uint) : pystr :=
  match d with
  | Decimal.Nil => []
  | Decimal.D0 r => 48%N :: uint_chars r
  | Decimal.D1 r => 49%N :: uint_chars r
  | Decimal.D2 r => 50%N :: uint_chars r
  | Decimal.D3 r => 51%N :: uint_chars r
  | Decimal.D4 r => 52%N :: uint_chars r
  | Decimal.D5 r => 53%N :: uint_chars r
  | Decimal.D6 r => 54%N :: uint_chars r
  | Decimal.D7 r => 55%N :: uint_chars r
  | Decimal.D8 r => 56%N :: uint_chars r
  | Decimal.D9 r => 57%N :: uint_chars r
  end.

(** [str(n)] for a natural number. *)
Definition str_of_N (n : N) : pystr := uint_chars (N.to_uint n).

(** [format(z, "02d")]: the sign, then the digits zero-padded so that
    the whole field is at least two characters wide. *)
Definition fmt02 (z : Z) : pystr :=
  let ds := str_of_N (Z.abs_N z) in
  if (z <? 0)%Z then
    45%N :: (repeat 48%N (1 - List.length ds) ++ ds)
  else
    repeat 48%N (2 - List.length ds) ++ ds.

(** Value of a string of ASCII decimal digits, [None] when some
    character is not a digit. *)
Definition digit_val (c : N) : option N :=
  if (48 <=? c)%N && (c <=? 57)%N then Some (c - 48)%N else None.

Fixpoint digits_val_from (acc : N) (s : pystr) : option N :=
  match s with
  | [] => Some acc
  | c :: s' =>
      match digit_val c with
      | Some d => digits_val_from (10 * acc + d)%N s'
      | None => None
      end
  end.

Definition digits_val (s : pystr) : option N :=
  match s with
  | [] => None
  | _ => digits_val_from 0%N s
  end.

End PyStr.
Import PyStr.

(** ** The interpreter's built-ins

    [str.upper], [str.strip] and [int] consult the Unicode database;
    [float] and [repr] need IEEE arithmetic.  They are an interface of
    the embedding; [ascii_runtime] below is the instance used to run the
    model on concrete inputs. *)

Class PyRuntime := {
  (** [s.upper()] *)
  str_upper : pystr -> pystr;
  (** [s.strip()] *)
  str_strip : pystr -> pystr;
  (** [int(s)]; [None] stands for the [ValueError] it raises *)
  py_int : pystr -> option Z;
  (** truth value of [float(s)] for the text [s] of a JSON number *)
  float_truthy : pystr -> bool;
  (** [repr(float(s))] *)
  float_repr : pystr -> pystr
}.

Module AsciiRuntime.

Definition upper_char (c : N) : N :=
  if (97 <=? c)%N && (c <=? 122)%N then (c - 32)%N else c.

Definition upper (s : pystr) : pystr := List.map upper_char s.

(** The code points for which [str.isspace] holds. *)
Definition isspace (c : N) : bool :=
  ((9 <=? c) && (c <=? 13) || (28 <=? c) && (c <=? 32)
   || (c =? 133) || (c =? 160) || (c =? 5760)
   || (8192 <=? c) && (c <=? 8202)
   || (c =? 8232) || (c =? 8233) || (c =? 8239) || (c =? 8287)
   || (c =? 12288))%N.

Fixpoint lstrip (s : pystr) : pystr :=
  match s with
  | c :: s' => if isspace c then lstrip s' else s
  | [] => []
  end.

Definition strip (s : pystr) : pystr := rev (lstrip (rev (lstrip s))).

(** The white space [int] skips around an ASCII literal. *)
Definition c_isspace (c : N) : bool :=
  ((9 <=? c) && (c <=? 13) || (c =? 32))%N.

Fixpoint c_lstrip (s : pystr) : pystr :=
  match s with
  | c :: s' => if c_isspace c then c_lstrip s' else s
  | [] => []
  end.

(** Digits of a base-10 literal: single underscores are allowed between
    digits only.  [prev_digit] tells whether the previous character was
    a digit. *)
Fixpoint int_digits (acc : N) (prev_digit : bool) (s : pystr) : option N :=
  match s with
  | [] => if prev_digit then Some acc else None
  | c :: s' =>
      if (c =? 95)%N then
        if prev_digit then int_digits acc false s' else None
      else
        match digit_val c with
        | Some d => int_digits (10 * acc + d)%N true s'
        | None => None
        end
  end.

Definition int (s : pystr) : option Z :=
  let body := rev (c_lstrip (rev (c_lstrip s))) in
  match body with
  | 45%N :: ds => option_map (fun n => Z.opp (Z.of_N n)) (int_digits 0 false ds)
  | 43%N :: ds => option_map Z.of_N (int_digits 0 false ds)
  | ds => option_map Z.of_N (int_digits 0 false ds)
  end.

(** A JSON number text denotes zero iff its mantissa digits are all
    zero (underflow of a non-zero literal is not represented). *)
Fixpoint mantissa_nonzero (s : pystr) : bool :=
  match s with
  | [] => false
  | c :: s' =>
      if (c =? 101)%N || (c =? 69)%N then false
      else if (49 <=? c)%N && (c <=? 57)%N then true
      else if (c =? 78)%N || (c =? 73)%N then true
      else mantissa_nonzero s'
  end.

End AsciiRuntime.

(** The built-ins restricted to what they do on ASCII text. *)
Definition ascii_runtime : PyRuntime := {|
  str_upper := AsciiRuntime.upper;
  str_strip := AsciiRuntime.strip;
  py_int := AsciiRuntime.int;
  float_truthy := AsciiRuntime.mantissa_nonzero;
  float_repr := fun s => s
|}.

(** ** [normalize_time] *)

Section NormalizeTime.
Context {RT : PyRuntime}.

(** [try: h = int(s) except Exception: h = d] *)
Definition int_or (d : Z) (s : pystr) : Z :=
  match py_int s with
  | Some z => z
  | None => d
  end.

Definition normalize_time (hour_str min_str ampm_str : pystr)
  : pystr * pystr * pystr * pystr :=
  let h := int_or 7 hour_str in
  let m := int_or 0 min_str in
  let h := Z.max 1 (Z.min 12 h) in
  let m := Z.max 0 (Z.min 59 m) in
  let ampm :=
    if negb (str_eqb (str_upper (str_strip ampm_str)) (lit "PM"))
    then lit "AM" else lit "PM" in
  (fmt02 h, fmt02 m, ampm, fmt02 h ++ lit ":" ++ fmt02 m ++ lit " " ++ ampm).

End NormalizeTime.

(** ** Python values

    What [json.load] can return: [None], [bool], [int], [float], [str],
    [list] and [dict] with [str] keys.  A [float] is carried as the text
    of the JSON number it was read from; a [dict] keeps its insertion
    order and has no duplicate keys. *)

Inductive pyval :=
| PyNone
| PyBool (b : bool)
| PyInt (z : Z)
| PyFloat (text : pystr)
| PyStr (s : pystr)
| PyList (l : list pyval)
| PyDict (d : list (pystr * pyval)).

Module Dict.

Definition t := list (pystr * pyval).

(** [d.get(k)], [None] of [option] when the key is absent. *)
Fixpoint lookup (d : t) (k : pystr) : option pyval :=
  match d with
  | [] => None
  | (k', v) :: d' => if str_eqb k' k then Some v else lookup d' k
  end.

(** [d[k] = v]: an existing key keeps its position. *)
Fixpoint set (d : t) (k : pystr) (v : pyval) : t :=
  match d with
  | [] => [(k, v)]
  | (k', v') :: d' =>
      if str_eqb k' k then (k', v) :: d' else (k', v') :: set d' k v
  end.

(** [dict(pairs)] *)
Definition of_pairs (pairs : list (pystr * pyval)) : t :=
  fold_left (fun d kv => set d (fst kv) (snd kv)) pairs [].

End Dict.

Section Truth.
Context {RT : PyRuntime}.

(** [bool(v)] *)
Definition py_truthy (v : pyval) : bool :=
  match v with
  | PyNone => false
  | PyBool b => b
  | PyInt z => negb (z =? 0)%Z
  | PyFloat t => float_truthy t
  | PyStr s => str_truthy s
  | PyList l => match l with [] => false | _ => true end
  | PyDict d => match d with [] => false | _ => true end
  end.

(** [v == s] for a [str] [s]: only an equal [str] compares equal. *)
Definition py_eq_str (v : pyval) (s : pystr) : bool :=
  match v with
  | PyStr s' => str_eqb s' s
  | _ => false
  end.

End Truth.

(** ** The [json] module: [dump(obj, f, indent=2)] and [load] *)

Module Json.

(** *** Encoding *)

Definition hex_char (d : N) : N :=
  if (d <? 10)%N then (48 + d)%N else (87 + d)%N.

(** ['\\u{0:04x}'.format(n)] for [n < 0x10000] *)
Definition u_escape (n : N) : pystr :=
  [92; 117; hex_char (n / 4096 mod 16); hex_char (n / 256 mod 16);
   hex_char (n / 16 mod 16); hex_char (n mod 16)]%N.

(** The replacement [encode_basestring_ascii] makes for one character. *)
Definition escape_char (c : N) : pystr :=
  if (c =? 92)%N then [92; 92]%N
  else if (c =? 34)%N then [92; 34]%N
  else if (32 <=? c)%N && (c <=? 126)%N then [c]
  else if (c =? 8)%N then [92; 98]%N
  else if (c =? 12)%N then [92; 102]%N
  else if (c =? 10)%N then [92; 110]%N
  else if (c =? 13)%N then [92; 114]%N
  else if (c =? 9)%N then [92; 116]%N
  else if (c <? 65536)%N then u_escape c
  else
    let n := (c - 65536)%N in
    let s1 := N.lor 55296 (N.land (N.shiftr n 10) 1023) in
    let s2 := N.lor 56320 (N.land n 1023) in
    u_escape s1 ++ u_escape s2.

Definition encode_basestring_ascii (s : pystr) : pystr :=
  34%N :: flat_map escape_char s ++ [34%N].

(** [int.__repr__] *)
Definition int_repr (z : Z) : pystr :=
  if (z <? 0)%Z then 45%N :: str_of_N (Z.abs_N z) else str_of_N (Z.abs_N z).

(** ['\n' + ' ' * (2 * level)] *)
Definition newline_indent (level : nat) : pystr :=
  10%N :: repeat 32%N (2 * level).

(** [separator.join(items)] *)
Fixpoint join (sep : pystr) (items : list pystr) : pystr :=
  match items with
  | [] => []
  | [x] => x
  | x :: rest => x ++ sep ++ join sep rest
  end.

Section Encode.
Context {RT : PyRuntime}.

(** The text of a float: [NaN], [Infinity] and [-Infinity] are written
    by name, any other value by [float.__repr__]. *)
Definition floatstr (t : pystr) : pystr :=
  if str_eqb t (lit "NaN") || str_eqb t (lit "Infinity")
     || str_eqb t (lit "-Infinity")
  then t else float_repr t.

(** [_iterencode(o, level)] of an encoder made with [indent=2], its
    chunks concatenated. *)
Fixpoint iterencode (level : nat) (o : pyval) : pystr :=
  match o with
  | PyStr s => encode_basestring_ascii s
  | PyNone => lit "null"
  | PyBool true => lit "true"
  | PyBool false => lit "false"
  | PyInt z => int_repr z
  | PyFloat t => floatstr t
  | PyList l =>
      match l with
      | [] => lit "[]"
      | _ =>
          lit "[" ++ newline_indent (S level)
          ++ join (44%N :: newline_indent (S level))
               (List.map (iterencode (S level)) l)
          ++ newline_indent level ++ lit "]"
      end
  | PyDict d =>
      match d with
      | [] => lit "{}"
      | _ =>
          lit "{" ++ newline_indent (S level)
          ++ join (44%N :: newline_indent (S level))
               (List.map (fun kv =>
                            encode_basestring_ascii (fst kv) ++ lit ": "
                            ++ iterencode (S level) (snd kv)) d)
          ++ newline_indent level ++ lit "}"
      end
  end.

(** [json.dumps(obj, indent=2)] *)
Definition dumps (obj : pyval) : pystr := iterencode 0 obj.

End Encode.

(** *** Decoding *)

Definition is_ws (c : N) : bool :=
  ((c =? 32) || (c =? 9) || (c =? 10) || (c =? 13))%N.

Fixpoint skip_ws (s : pystr) : pystr :=
  match s with
  | c :: s' => if is_ws c then skip_ws s' else s
  | [] => []
  end.

Definition hex_val (c : N) : option N :=
  if (48 <=? c)%N && (c <=? 57)%N then Some (c - 48)%N
  else if (97 <=? c)%N && (c <=? 102)%N then Some (c - 87)%N
  else if (65 <=? c)%N && (c <=? 70)%N then Some (c - 55)%N
  else None.

(** The four hexadecimal digits of a [\uXXXX] escape. *)
Definition hex4 (a b c d : N) : option N :=
  match hex_val a, hex_val b, hex_val c, hex_val d with
  | Some x, Some y, Some z, Some w => Some (4096 * x + 256 * y + 16 * z + w)%N
  | _, _, _, _ => None
  end.

Definition is_high_surrogate (c : N) : bool := ((55296 <=? c) && (c <=? 56319))%N.
Definition is_low_surrogate (c : N) : bool := ((56320 <=? c) && (c <=? 57343))%N.

(** The character a one-letter escape stands for. *)
Definition backslash (e : N) : option N :=
  if (e =? 34)%N then Some 34%N
  else if (e =? 92)%N then Some 92%N
  else if (e =? 47)%N then Some 47%N
  else if (e =? 98)%N then Some 8%N
  else if (e =? 102)%N then Some 12%N
  else if (e =? 110)%N then Some 10%N
  else if (e =? 114)%N then Some 13%N
  else if (e =? 116)%N then Some 9%N
  else None.

Definition push (c : N) (r : option (pystr * pystr)) : option (pystr * pystr) :=
  match r with
  | Some (str, tl) => Some (c :: str, tl)
  | None => None
  end.

(** [scanstring(s, end, strict=True)]: [s] starts just after the opening
    quote; the result is the string and the text after the closing
    quote.  [None] stands for a [JSONDecodeError]. *)
Fixpoint scanstring (s : pystr) : option (pystr * pystr) :=
  match s with
  | [] => None
  | c :: r =>
      if (c =? 34)%N then Some ([], r)
      else if (c =? 92)%N then
        match r with
        | [] => None
        | e :: r1 =>
            if (e =? 117)%N then
              match r1 with
              | a :: b :: c1 :: d :: r2 =>
                  match hex4 a b c1 d with
                  | None => None
                  | Some uni =>
                      if is_high_surrogate uni then
                        match r2 with
                        | e1 :: e2 :: a2 :: b2 :: c2 :: d2 :: r3 =>
                            if (e1 =? 92)%N && (e2 =? 117)%N then
                              match hex4 a2 b2 c2 d2 with
                              | None => None
                              | Some uni2 =>
                                  if is_low_surrogate uni2 then
                                    push (65536 + N.lor (N.shiftl (uni - 55296) 10)
                                                    (uni2 - 56320))%N
                                         (scanstring r3)
                                  else push uni (scanstring r2)
                              end
                            else push uni (scanstring r2)
                        | _ => push uni (scanstring r2)
                        end
                      else push uni (scanstring r2)
                  end
              | _ => None
              end
            else
              match backslash e with
              | Some ch => push ch (scanstring r1)
              | None => None
              end
        end
      else if (c <? 32)%N then None
      else push c (scanstring r)
  end.

Definition is_digit (c : N) : bool := ((48 <=? c) && (c <=? 57))%N.

(** The longest prefix of digits, and the rest. *)
Fixpoint span_digits (s : pystr) : pystr * pystr :=
  match s with
  | c :: s' =>
      if is_digit c then let (ds, r) := span_digits s' in (c :: ds, r)
      else ([], s)
  | [] => ([], [])
  end.

(** [NUMBER_RE.match]: an optional minus sign and either a single zero
    or a non-zero digit followed by digits; then, optionally, a dot and
    one or more digits; then, optionally, [e] or [E], an optional sign
    and one or more digits.  The result is the text of the integer part,
    of the fraction and of the exponent (empty when absent), and the
    rest of the input. *)
Definition match_number (s : pystr) : option (pystr * pystr * pystr * pystr) :=
  let (sign, s1) := match s with
                    | 45%N :: r => ([45%N], r)
                    | _ => ([], s)
                    end in
  match s1 with
  | [] => None
  | c :: r =>
      let int_part :=
        if (c =? 48)%N then Some ([c], r)
        else if is_digit c then let (ds, r') := span_digits r in Some (c :: ds, r')
        else None in
      match int_part with
      | None => None
      | Some (ip, r1) =>
          let (frac, r2) :=
            match r1 with
            | 46%N :: r1' =>
                match span_digits r1' with
                | ([], _) => ([], r1)
                | (fs, r1'') => (46%N :: fs, r1'')
                end
            | _ => ([], r1)
            end in
          let (ex, r3) :=
            match r2 with
            | e :: r2' =>
                if (e =? 101)%N || (e =? 69)%N then
                  let (sg, r2'') :=
                    match r2' with
                    | g :: t => if (g =? 45)%N || (g =? 43)%N then ([g], t) else ([], r2')
                    | [] => ([], r2')
                    end in
                  match span_digits r2'' with
                  | ([], _) => ([], r2)
                  | (es, r2''') => (e :: sg ++ es, r2''')
                  end
                else ([], r2)
            | [] => ([], r2)
            end in
          Some (sign ++ ip, frac, ex, r3)
      end
  end.

(** [int(text)] for the integer part matched by [match_number]. *)
Definition int_of_text (t : pystr) : Z :=
  match t with
  | 45%N :: ds => Z.opp (Z.of_N (match digits_val ds with Some n => n | None => 0%N end))
  | ds => Z.of_N (match digits_val ds with Some n => n | None => 0%N end)
  end.

(** [scan_once], [JSONArray] and [JSONObject].  The three functions call
    each other on ever shorter texts; [fuel] bounds the number of calls
    and [2 * len(s) + 2] is enough for a text [s]. *)
Fixpoint scan_once (fuel : nat) (s : pystr) : option (pyval * pystr) :=
  match fuel with
  | O => None
  | S f =>
      match s with
      | [] => None
      | c :: r =>
          if (c =? 34)%N then
            match scanstring r with
            | Some (str, tl) => Some (PyStr str, tl)
            | None => None
            end
          else if (c =? 123)%N then
            match skip_ws r with
            | 125%N :: tl => Some (PyDict [], tl)
            | 34%N :: tl =>
                match object_items f tl with
                | Some (pairs, tl') => Some (PyDict (Dict.of_pairs pairs), tl')
                | None => None
                end
            | _ => None
            end
          else if (c =? 91)%N then
            match skip_ws r with
            | 93%N :: tl => Some (PyList [], tl)
            | r' =>
                match array_items f r' with
                | Some (vs, tl) => Some (PyList vs, tl)
                | None => None
                end
            end
          else if startswith s (lit "null") then Some (PyNone, skipn 4 s)
          else if startswith s (lit "true") then Some (PyBool true, skipn 4 s)
          else if startswith s (lit "false") then Some (PyBool false, skipn 5 s)
          else
            match match_number s with
            | Some (ip, [], [], tl) => Some (PyInt (int_of_text ip), tl)
            | Some (ip, frac, ex, tl) => Some (PyFloat (ip ++ frac ++ ex), tl)
            | None =>
                if startswith s (lit "NaN") then Some (PyFloat (lit "NaN"), skipn 3 s)
                else if startswith s (lit "Infinity")
                then Some (PyFloat (lit "Infinity"), skipn 8 s)
                else if startswith s (lit "-Infinity")
                then Some (PyFloat (lit "-Infinity"), skipn 9 s)
                else None
            end
      end
  end

(** The items of an array, from the first character of an item to the
    closing bracket. *)
with array_items (fuel : nat) (s : pystr) : option (list pyval * pystr) :=
  match fuel with
  | O => None
  | S f =>
      match scan_once f s with
      | None => None
      | Some (v, r) =>
          match skip_ws r with
          | 93%N :: tl => Some ([v], tl)
          | 44%N :: tl =>
              match array_items f (skip_ws tl) with
              | Some (vs, tl') => Some (v :: vs, tl')
              | None => None
              end
          | _ => None
          end
      end
  end

(** The pairs of an object, from just after the opening quote of a key
    to the closing brace. *)
with object_items (fuel : nat) (s : pystr) : option (list (pystr * pyval) * pystr) :=
  match fuel with
  | O => None
  | S f =>
      match scanstring s with
      | None => None
      | Some (key, r) =>
          match skip_ws r with
          | 58%N :: r1 =>
              match scan_once f (skip_ws r1) with
              | None => None
              | Some (v, r2) =>
                  match skip_ws r2 with
                  | 125%N :: tl => Some ([(key, v)], tl)
                  | 44%N :: r3 =>
                      match skip_ws r3 with
                      | 34%N :: r4 =>
                          match object_items f r4 with
                          | Some (ps, tl') => Some ((key, v) :: ps, tl')
                          | None => None
                          end
                      | _ => None
                      end
                  | _ => None
                  end
              end
          | _ => None
          end
      end
  end.

(** [json.loads(s)]; [None] stands for the exception it raises. *)
Definition loads (s : pystr) : option pyval :=
  if startswith s [65279%N] then None
  else
    match scan_once (2 * List.length s + 2) (skip_ws s) with
    | Some (v, r) =>
        match skip_ws r with
        | [] => Some v
        | _ => None
        end
    | None => None
    end.

End Json.

(** ** The operating system

    [os.path] comes in two flavours ([posixpath], [ntpath]); the
    program only uses the functions below, and text files are written
    with the platform's line separator. *)

Inductive newline := LF | CRLF.

Definition newline_text (n : newline) : pystr :=
  match n with
  | LF => [10%N]
  | CRLF => [13%N; 10%N]
  end.

Class OsPath := {
  (** [os.path.isabs] *)
  isabs : pystr -> bool;
  (** [os.path.join] of two components *)
  path_join : pystr -> pystr -> pystr;
  (** [os.path.abspath], in the process's working directory *)
  abspath : pystr -> pystr;
  (** [os.path.basename] *)
  basename : pystr -> pystr;
  (** [os.linesep] *)
  linesep : newline
}.

(** [posixpath], for a given working directory. *)
Module Posix.

Definition sep : N := 47.

Definition isabs (p : pystr) : bool := startswith p [sep].

Definition join (a b : pystr) : pystr :=
  if startswith b [sep] then b
  else if negb (str_truthy a) || endswith a [sep] then a ++ b
  else a ++ [sep] ++ b.

(** [path.split('/')], with the component being read in [cur]
    (reversed). *)
Fixpoint split_from (cur : pystr) (p : pystr) : list pystr :=
  match p with
  | [] => [rev cur]
  | c :: p' =>
      if (c =? sep)%N then rev cur :: split_from [] p'
      else split_from (c :: cur) p'
  end.

Definition split (p : pystr) : list pystr := split_from [] p.

(** The loop of [normpath] over the components; [new_comps] is kept
    reversed, so that its head is [new_comps[-1]]. *)
Fixpoint norm_comps (initial_slashes : nat) (new_comps : list pystr)
         (comps : list pystr) : list pystr :=
  match comps with
  | [] => rev new_comps
  | comp :: rest =>
      if str_eqb comp [] || str_eqb comp (lit ".") then
        norm_comps initial_slashes new_comps rest
      else if negb (str_eqb comp (lit ".."))
              || (Nat.eqb initial_slashes 0
                  && match new_comps with [] => true | _ => false end)
              || match new_comps with
                 | last :: _ => str_eqb last (lit "..")
                 | [] => false
                 end
      then norm_comps initial_slashes (comp :: new_comps) rest
      else
        match new_comps with
        | _ :: popped => norm_comps initial_slashes popped rest
        | [] => norm_comps initial_slashes new_comps rest
        end
  end.

Definition normpath (path : pystr) : pystr :=
  match path with
  | [] => lit "."
  | _ =>
      let initial_slashes :=
        if startswith path [sep] then
          if startswith path [sep; sep] && negb (startswith path [sep; sep; sep])
          then 2 else 1
        else 0 in
      let comps := norm_comps initial_slashes [] (split path) in
      let path' := repeat sep initial_slashes ++ Json.join [sep] comps in
      match path' with
      | [] => lit "."
      | _ => path'
      end
  end.

Definition abspath (cwd : pystr) (path : pystr) : pystr :=
  if isabs path then normpath path else normpath (join cwd path).

(** The text after the last slash. *)
Definition basename (p : pystr) : pystr := last (split p) [].

Definition os_path (cwd : pystr) : OsPath :=
  Build_OsPath isabs join (abspath cwd) basename LF.

End Posix.

(** *** Text files encoded in UTF-8 *)

Module Utf8.

Definition bytes := list N.

(** The bytes of one code point; a surrogate or a value above
    U+10FFFF cannot be encoded ([UnicodeEncodeError]). *)
Definition encode_char (c : N) : option bytes :=
  if (c <? 128)%N then Some [c]
  else if (c <? 2048)%N then Some [192 + c / 64; 128 + c mod 64]%N
  else if (c <? 65536)%N then
    if (55296 <=? c)%N && (c <=? 57343)%N then None
    else Some [224 + c / 4096; 128 + c / 64 mod 64; 128 + c mod 64]%N
  else if (c <? 1114112)%N then
    Some [240 + c / 262144; 128 + c / 4096 mod 64; 128 + c / 64 mod 64;
          128 + c mod 64]%N
  else None.

Fixpoint encode (s : pystr) : option bytes :=
  match s with
  | [] => Some []
  | c :: s' =>
      match encode_char c, encode s' with
      | Some b, Some bs => Some (b ++ bs)
      | _, _ => None
      end
  end.

Definition is_cont (b : N) : bool := ((128 <=? b) && (b <=? 191))%N.

Definition pushc (c : N) (r : option pystr) : option pystr :=
  match r with Some s => Some (c :: s) | None => None end.

(** Strict decoding; [None] stands for [UnicodeDecodeError]. *)
Fixpoint decode (bs : bytes) : option pystr :=
  match bs with
  | [] => Some []
  | b0 :: r =>
      if (b0 <? 128)%N then pushc b0 (decode r)
      else if (194 <=? b0)%N && (b0 <=? 223)%N then
        match r with
        | b1 :: r1 =>
            if is_cont b1
            then pushc ((b0 - 192) * 64 + (b1 - 128))%N (decode r1)
            else None
        | _ => None
        end
      else if (224 <=? b0)%N && (b0 <=? 239)%N then
        match r with
        | b1 :: b2 :: r2 =>
            let c := ((b0 - 224) * 4096 + (b1 - 128) * 64 + (b2 - 128))%N in
            if is_cont b1 && is_cont b2 && (2048 <=? c)%N
               && negb ((55296 <=? c)%N && (c <=? 57343)%N)
            then pushc c (decode r2)
            else None
        | _ => None
        end
      else if (240 <=? b0)%N && (b0 <=? 244)%N then
        match r with
        | b1 :: b2 :: b3 :: r3 =>
            let c := ((b0 - 240) * 262144 + (b1 - 128) * 4096
                      + (b2 - 128) * 64 + (b3 - 128))%N in
            if is_cont b1 && is_cont b2 && is_cont b3
               && (65536 <=? c)%N && (c <? 1114112)%N
            then pushc c (decode r3)
            else None
        | _ => None
        end
      else None
  end.

(** Writing text with [newline=None]: every ['\n'] becomes
    [os.linesep]. *)
Definition write_newlines (linesep : newline) (s : pystr) : pystr :=
  flat_map (fun c => if (c =? 10)%N then newline_text linesep else [c]) s.

(** Reading text with [newline=None]: ['\r\n'] and a lone ['\r']
    become ['\n']. *)
Fixpoint read_newlines (s : pystr) : pystr :=
  match s with
  | [] => []
  | c :: s' =>
      if (c =? 13)%N then
        match s' with
        | c' :: s'' =>
            if (c' =? 10)%N then 10%N :: read_newlines s''
            else 10%N :: read_newlines s'
        | [] => [10%N]
        end
      else c :: read_newlines s'
  end.

End Utf8.

(** The settings file [ALARM_FILE], as the program can observe it. *)
Inductive file_state :=
| Missing                          (** [os.path.exists] is false *)
| Unopenable                       (** it exists, [open(..., "r")] raises [OSError] *)
| Content (bs : Utf8.bytes).       (** it exists and holds these bytes *)

(** ** Module state, inputs and effects *)

(** The exceptions the program can meet; all of them are subclasses of
    [Exception].  [ValueError] covers [UnicodeDecodeError] and
    [json.JSONDecodeError], [OSError] covers [FileNotFoundError] and
    [PermissionError]. *)
Inductive exn :=
| AttributeError | TypeError | KeyError | IndexError
| ValueError | OSError | PygameError.

Inductive shared_var := VarRINGING | VarSTOPPED_THIS_MINUTE.

Inductive message :=
| MsgAudioNotInitialized
| MsgRinging (path : pystr)
| MsgFailedToPlay
| MsgAlarmStopped (stopped : option pystr)
| MsgNow (now_comp : pystr) (target : pyval) (ringing : bool)
| MsgRingtoneNotFound (tone : pyval)
| MsgCheckerError (e : exn).

(** What a thread does that another thread, or the user, can observe. *)
Inductive event :=
| Acquire                          (** [LOCK.__enter__] *)
| Release                          (** [LOCK.__exit__] *)
| Read (v : shared_var)
| Write (v : shared_var)
| MusicPlayLoop (path : pystr)     (** [music.load(path); music.play(-1)] succeeded *)
| MusicPlayOnce (path : pystr)     (** [music.load(path); music.play()] succeeded *)
| MusicStop                        (** [music.stop()] *)
| Print (m : message)
| Sleep (tenths : nat).            (** [time.sleep], in tenths of a second *)

(** The module globals, the two variables [alarm_checker] keeps across
    iterations, the settings file, and the events so far (latest
    first). *)
Record mstate := {
  RINGING : bool;
  STOPPED_THIS_MINUTE : option pystr;
  last_minute_seen : option pystr;
  last_log : Z;
  alarm_file : file_state;
  events : list event
}.

(** The state at start-up, for a given settings file. *)
Definition initial (f : file_state) : mstate :=
  {| RINGING := false; STOPPED_THIS_MINUTE := None;
     last_minute_seen := None; last_log := 0%Z;
     alarm_file := f; events := [] |}.

(** What the environment answers while one function runs. *)
Record world := {
  (** [datetime.now()], in minutes since midnight *)
  w_now : N;
  (** [time.time()], in seconds *)
  w_time : Z;
  (** [os.path.exists] *)
  w_exists : pystr -> bool;
  (** whether [music.load(path)] and [music.play(-1)] succeed *)
  w_music_ok : pystr -> bool;
  (** whether [music.stop()] succeeds *)
  w_stop_ok : bool;
  (** whether [open(ALARM_FILE, "w")] succeeds *)
  w_writable : bool
}.

(** The constants the module computes when it is imported. *)
Record config := {
  AUDIO_OK : bool;
  SCRIPT_DIR : pystr;
  MUSIC_DIR : pystr
}.

Definition USER_MUSIC_DIR : pystr :=
  lit "E:" ++ [92%N] ++ lit "Ishika" ++ [92%N] ++ lit "alarm clock" ++ [92%N] ++ lit "music".

(** [MUSIC_DIR = USER_MUSIC_DIR if os.path.isdir(USER_MUSIC_DIR)
    else os.path.join(SCRIPT_DIR, "music")] *)
Definition startup_config {OS : OsPath} (audio_ok : bool) (script_dir : pystr)
           (user_music_isdir : bool) : config :=
  {| AUDIO_OK := audio_ok;
     SCRIPT_DIR := script_dir;
     MUSIC_DIR := if user_music_isdir then USER_MUSIC_DIR
                  else path_join script_dir (lit "music") |}.

(** *** A state-and-exception monad

    A computation maps the state to the new state and either a value or
    the exception raised; what was written before an exception stays
    written. *)

Module Monad.

Definition M (A : Type) : Type := mstate -> mstate * (exn + A).

Definition ret {A} (a : A) : M A := fun s => (s, inr a).

Definition bind {A B} (c : M A) (k : A -> M B) : M B :=
  fun s =>
    match c s with
    | (s', inr a) => k a s'
    | (s', inl e) => (s', inl e)
    end.

Definition raise {A} (e : exn) : M A := fun s => (s, inl e).

(** [try: c  except Exception as e: h e] *)
Definition try_except {A} (c : M A) (h : exn -> M A) : M A :=
  fun s =>
    match c s with
    | (s', inr a) => (s', inr a)
    | (s', inl e) => h e s'
    end.

(** [try: c  finally: f] *)
Definition try_finally {A} (c : M A) (f : M unit) : M A :=
  fun s =>
    match c s with
    | (s', r) =>
        match f s' with
        | (s'', inr _) => (s'', r)
        | (s'', inl e) => (s'', inl e)
        end
    end.

Definition get {A} (f : mstate -> A) : M A := fun s => (s, inr (f s)).

Definition modify (f : mstate -> mstate) : M unit := fun s => (f s, inr tt).

End Monad.
Import Monad.

Declare Scope py_scope.
Delimit Scope py_scope with py.
Notation "x <- c ;; k" := (bind c (fun x => k))
  (at level 61, c at next level, right associativity) : py_scope.
Notation "c ;; k" := (bind c (fun _ => k))
  (at level 61, right associativity) : py_scope.
Open Scope py_scope.

Definition set_RINGING (b : bool) (s : mstate) : mstate :=
  {| RINGING := b; STOPPED_THIS_MINUTE := STOPPED_THIS_MINUTE s;
     last_minute_seen := last_minute_seen s; last_log := last_log s;
     alarm_file := alarm_file s; events := events s |}.

Definition set_STOPPED_THIS_MINUTE (v : option pystr) (s : mstate) : mstate :=
  {| RINGING := RINGING s; STOPPED_THIS_MINUTE := v;
     last_minute_seen := last_minute_seen s; last_log := last_log s;
     alarm_file := alarm_file s; events := events s |}.

Definition set_last_minute_seen (v : option pystr) (s : mstate) : mstate :=
  {| RINGING := RINGING s; STOPPED_THIS_MINUTE := STOPPED_THIS_MINUTE s;
     last_minute_seen := v; last_log := last_log s;
     alarm_file := alarm_file s; events := events s |}.

Definition set_last_log (t : Z) (s : mstate) : mstate :=
  {| RINGING := RINGING s; STOPPED_THIS_MINUTE := STOPPED_THIS_MINUTE s;
     last_minute_seen := last_minute_seen s; last_log := t;
     alarm_file := alarm_file s; events := events s |}.

Definition set_alarm_file (f : file_state) (s : mstate) : mstate :=
  {| RINGING := RINGING s; STOPPED_THIS_MINUTE := STOPPED_THIS_MINUTE s;
     last_minute_seen := last_minute_seen s; last_log := last_log s;
     alarm_file := f; events := events s |}.

Definition add_event (e : event) (s : mstate) : mstate :=
  {| RINGING := RINGING s; STOPPED_THIS_MINUTE := STOPPED_THIS_MINUTE s;
     last_minute_seen := last_minute_seen s; last_log := last_log s;
     alarm_file := alarm_file s; events := e :: events s |}.

Definition emit (e : event) : M unit := modify (add_event e).

(** Reading and writing the shared globals leaves an event. *)
Definition read_RINGING : M bool := emit (Read VarRINGING) ;; get RINGING.
Definition write_RINGING (b : bool) : M unit :=
  emit (Write VarRINGING) ;; modify (set_RINGING b).
Definition read_STOPPED_THIS_MINUTE : M (option pystr) :=
  emit (Read VarSTOPPED_THIS_MINUTE) ;; get STOPPED_THIS_MINUTE.
Definition write_STOPPED_THIS_MINUTE (v : option pystr) : M unit :=
  emit (Write VarSTOPPED_THIS_MINUTE) ;; modify (set_STOPPED_THIS_MINUTE v).

(** [with LOCK: body] *)
Definition with_LOCK {A} (body : M A) : M A :=
  emit Acquire ;; try_finally body (emit Release).

Definition print (m : message) : M unit := emit (Print m).
Definition sleep (tenths : nat) : M unit := emit (Sleep tenths).

(** ** The program *)

Section Program.
Context {RT : PyRuntime} {OS : OsPath}.
Variable cfg : config.

(** *** Settings store *)

(** [os.path.exists(ALARM_FILE)] *)
Definition alarm_file_exists : M bool :=
  get (fun s => match alarm_file s with Missing => false | _ => true end).

(** [open(ALARM_FILE, "r", encoding="utf-8")] followed by [f.read()] *)
Definition open_read : M pystr :=
  f <- get alarm_file ;;
  match f with
  | Missing => raise OSError
  | Unopenable => raise OSError
  | Content bs =>
      match Utf8.decode bs with
      | Some text => ret (Utf8.read_newlines text)
      | None => raise ValueError
      end
  end.

(** [json.load(f)] *)
Definition json_load : M pyval :=
  text <- open_read ;;
  match Json.loads text with
  | Some v => ret v
  | None => raise ValueError
  end.

Definition load_alarm : M pyval :=
  ex <- alarm_file_exists ;;
  if negb ex then ret (PyDict [])
  else try_except json_load (fun _ => ret (PyDict [])).

(** [open(ALARM_FILE, "w", encoding="utf-8")] followed by
    [json.dump(obj, f, indent=2)].  Opening truncates the file; text
    that cannot be encoded leaves it truncated. *)
Definition save_alarm_obj (w : world) (obj : pyval) : M unit :=
  if w_writable w then
    match Utf8.encode (Utf8.write_newlines linesep (Json.dumps obj)) with
    | Some bs => modify (set_alarm_file (Content bs))
    | None => modify (set_alarm_file (Content [])) ;; raise ValueError
    end
  else raise OSError.

(** *** Current time *)

Definition hour24 (now : N) : N := ((now / 60) mod 24)%N.
Definition minute_of (now : N) : N := (now mod 60)%N.

(** [now.strftime("%I")] *)
Definition strftime_I (now : N) : pystr :=
  let h := (hour24 now mod 12)%N in
  fmt02 (Z.of_N (if (h =? 0)%N then 12%N else h)).

(** [now.strftime("%M")] *)
Definition strftime_M (now : N) : pystr := fmt02 (Z.of_N (minute_of now)).

(** [now.strftime("%p")] *)
Definition strftime_p (now : N) : pystr :=
  if (hour24 now <? 12)%N then lit "AM" else lit "PM".

(** [now.strftime("%I:%M %p")] *)
Definition strftime_I_M_p (now : N) : pystr :=
  strftime_I now ++ lit ":" ++ strftime_M now ++ lit " " ++ strftime_p now.

Definition current_h_m_ampm (w : world) : pystr * pystr * pystr :=
  let now := w_now w in
  (strftime_I now, strftime_M now, strftime_p now).

(** *** Playback *)

Definition play_loop (w : world) (path : pystr) : M unit :=
  if negb (AUDIO_OK cfg) then print MsgAudioNotInitialized
  else
    try_except
      ((if w_music_ok w path then emit (MusicPlayLoop path)
        else raise PygameError) ;;
       with_LOCK (write_RINGING true) ;;
       print (MsgRinging path))
      (fun e =>
         print MsgFailedToPlay ;;
         with_LOCK (write_RINGING false)).

Definition stop_playback (w : world) : M unit :=
  with_LOCK
    (ringing <- read_RINGING ;;
     (if ringing && AUDIO_OK cfg then
        try_except
          (if w_stop_ok w then emit MusicStop else raise PygameError)
          (fun _ => ret tt)
      else ret tt) ;;
     write_RINGING false ;;
     write_STOPPED_THIS_MINUTE (Some (strftime_I_M_p (w_now w)))) ;;
  stopped <- read_STOPPED_THIS_MINUTE ;;
  print (MsgAlarmStopped stopped).

(** *** Ringtone resolver *)

Definition candidates (tone_path : pystr) : list pystr :=
  let candidates := [] in
  let candidates :=
    if isabs tone_path then candidates ++ [tone_path] else candidates in
  let candidates := candidates ++ [path_join (MUSIC_DIR cfg) tone_path] in
  let candidates := candidates ++ [path_join (SCRIPT_DIR cfg) tone_path] in
  if startswith tone_path (MUSIC_DIR cfg) then tone_path :: candidates
  else candidates.

Definition resolve_tone_path (w : world) (tone_path : pystr) : option pystr :=
  if negb (str_truthy tone_path) then None
  else
    match find (w_exists w) (candidates tone_path) with
    | Some p => Some (abspath p)
    | None => None
    end.

(** The call [resolve_tone_path(v)] for a value of any type: a false
    value returns [None] at once, a true value that is not a [str]
    makes [os.path.isabs] raise. *)
Definition call_resolve_tone_path (w : world) (v : pyval) : M (option pystr) :=
  if negb (py_truthy v) then ret None
  else
    match v with
    | PyStr s => ret (resolve_tone_path w s)
    | _ => raise TypeError
    end.

(** *** Alarm checker *)

(** [v.get(k)] *)
Definition py_get (v : pyval) (k : pystr) : M pyval :=
  match v with
  | PyDict d =>
      ret (match Dict.lookup d k with Some x => x | None => PyNone end)
  | _ => raise AttributeError
  end.

(** [v[k]] for a [str] key *)
Definition py_index (v : pyval) (k : pystr) : M pyval :=
  match v with
  | PyDict d =>
      match Dict.lookup d k with
      | Some x => ret x
      | None => raise KeyError
      end
  | _ => raise TypeError
  end.

(** [v.upper()] *)
Definition py_upper (v : pyval) : M pystr :=
  match v with
  | PyStr s => ret (str_upper s)
  | _ => raise AttributeError
  end.

(** [a and b], as a condition *)
Definition and_then (a b : M bool) : M bool :=
  x <- a ;; if x then b else ret false.

Definition get_truthy (alarm : pyval) (k : pystr) : M bool :=
  v <- py_get alarm k ;; ret (py_truthy v).

(** [alarm.get("hour") and alarm.get("minute") and alarm.get("ampm")
    and alarm.get("ringtone")] *)
Definition alarm_complete (alarm : pyval) : M bool :=
  and_then (get_truthy alarm (lit "hour"))
    (and_then (get_truthy alarm (lit "minute"))
       (and_then (get_truthy alarm (lit "ampm"))
          (get_truthy alarm (lit "ringtone")))).

Definition index_eq (alarm : pyval) (k : pystr) (s : pystr) : M bool :=
  v <- py_index alarm k ;; ret (py_eq_str v s).

(** [(alarm["hour"] == now_h) and (alarm["minute"] == now_m) and
    (alarm["ampm"].upper() == now_ap.upper())] *)
Definition should_ring (alarm : pyval) (now_h now_m now_ap : pystr) : M bool :=
  and_then (index_eq alarm (lit "hour") now_h)
    (and_then (index_eq alarm (lit "minute") now_m)
       (v <- py_index alarm (lit "ampm") ;;
        u <- py_upper v ;;
        ret (str_eqb u (str_upper now_ap)))).

Definition opt_str_eqb (a : option pystr) (b : pystr) : bool :=
  match a with
  | Some x => str_eqb x b
  | None => false
  end.

(** The minute-rollover reset of [alarm_checker]. *)
Definition rollover_reset (current_minute_key : pystr) : M unit :=
  seen <- get last_minute_seen ;;
  if negb (opt_str_eqb seen current_minute_key) then
    with_LOCK (write_STOPPED_THIS_MINUTE None) ;;
    modify (set_last_minute_seen (Some current_minute_key))
  else ret tt.

(** The periodic log line of [alarm_checker]. *)
Definition periodic_log (w : world) (alarm : pyval) (now_comp : pystr) : M unit :=
  logged <- get last_log ;;
  if (12 <? w_time w - logged)%Z then
    target <- py_get alarm (lit "time12") ;;
    ringing <- read_RINGING ;;
    print (MsgNow now_comp target ringing) ;;
    modify (set_last_log (w_time w))
  else ret tt.

(** The trigger decision of [alarm_checker]. *)
Definition trigger (w : world) (alarm : pyval) (now_h now_m now_ap : pystr) : M unit :=
  let now_comp := now_h ++ lit ":" ++ now_m ++ lit " " ++ now_ap in
  ring <- should_ring alarm now_h now_m now_ap ;;
  flags <- with_LOCK
             (stopped <- read_STOPPED_THIS_MINUTE ;;
              ringing <- read_RINGING ;;
              ret (opt_str_eqb stopped now_comp, ringing)) ;;
  let (blocked_this_minute, already_ringing) := flags : bool * bool in
  if ring && negb already_ringing && negb blocked_this_minute then
    tone <- py_get alarm (lit "ringtone") ;;
    tone_hit <- call_resolve_tone_path w tone ;;
    match tone_hit with
    | Some p =>
        if str_truthy p then play_loop w p
        else print (MsgRingtoneNotFound tone)
    | None => print (MsgRingtoneNotFound tone)
    end
  else ret tt.

(** One iteration of the [while True] loop of [alarm_checker]. *)
Definition alarm_checker (w : world) : M unit :=
  try_except
    (alarm <- load_alarm ;;
     complete <- alarm_complete alarm ;;
     (if complete then
        let '(now_h, now_m, now_ap) := current_h_m_ampm w in
        let now_comp := now_h ++ lit ":" ++ now_m ++ lit " " ++ now_ap in
        let current_minute_key := now_h ++ lit ":" ++ now_m in
        rollover_reset current_minute_key ;;
        periodic_log w alarm now_comp ;;
        trigger w alarm now_h now_m now_ap
      else ret tt) ;;
     sleep 10)
    (fun e => print (MsgCheckerError e) ;; sleep 20).

(** *** HTTP handler *)

Inductive page :=
| HomePage
| RingtoneNotFoundPage (shown : pystr)
| SavedPage (time12 tone_name : pystr)
| StoppedPage
| NoRingtonePage
| TestOkPage
| AudioNotInitializedPage
| TestFailedPage (e : exn)
| StaticFile.

(** The result of [parse_qs]: for each name, the list of its values,
    which is never empty (its first value, then the others). *)
Definition query := list (pystr * (pystr * list pystr)).

(** [params.get(k, [default])[0]] *)
Definition param (params : query) (k default : pystr) : pystr :=
  match find (fun kv => str_eqb (fst kv) k) params with
  | Some kv => fst (snd kv)
  | None => default
  end.

Definition do_GET (w : world) (path : pystr) (params : query) : M page :=
  if str_eqb path (lit "/") then ret HomePage
  else if str_eqb path (lit "/save") then
    let hour := param params (lit "hour") (lit "07") in
    let minute := param params (lit "minute") (lit "00") in
    let ampm := param params (lit "ampm") (lit "AM") in
    let ringtone := param params (lit "ringtone") [] in
    let '(H, Mi, AP, time12) := normalize_time hour minute ampm in
    match resolve_tone_path w ringtone with
    | Some tone_hit =>
        if str_truthy tone_hit then
          let data := PyDict [(lit "hour", PyStr H); (lit "minute", PyStr Mi);
                              (lit "ampm", PyStr AP); (lit "time12", PyStr time12);
                              (lit "ringtone", PyStr tone_hit)] in
          save_alarm_obj w data ;;
          ret (SavedPage time12 (basename tone_hit))
        else
          ret (RingtoneNotFoundPage
                 (if str_truthy ringtone then ringtone else lit "(empty)"))
    | None =>
        ret (RingtoneNotFoundPage
               (if str_truthy ringtone then ringtone else lit "(empty)"))
    end
  else if str_eqb path (lit "/stop") then
    stop_playback w ;; ret StoppedPage
  else if str_eqb path (lit "/test") then
    alarm <- load_alarm ;;
    tone <- (match alarm with
             | PyDict d =>
                 ret (match Dict.lookup d (lit "ringtone") with
                      | Some x => x
                      | None => PyStr []
                      end)
             | _ => raise AttributeError
             end) ;;
    if negb (py_truthy tone) then ret NoRingtonePage
    else
      try_except
        (if AUDIO_OK cfg then
           match tone with
           | PyStr p =>
               (if w_music_ok w p then emit (MusicPlayOnce p)
                else raise PygameError) ;;
               sleep 18 ;;
               (if w_stop_ok w then emit MusicStop else raise PygameError) ;;
               ret TestOkPage
           | _ => raise TypeError
           end
         else ret AudioNotInitializedPage)
        (fun e => ret (TestFailedPage e))
  else ret StaticFile.

(** *** Executions

    The checker thread and the request handler take turns; the settings
    file can also be changed from outside the program. *)

Inductive action :=
| Tick (w : world)
| Request (w : world) (path : pystr) (params : query)
| ExternalEdit (f : file_state).

Definition step (s : mstate) (a : action) : mstate :=
  match a with
  | Tick w => fst (alarm_checker w s)
  | Request w path params => fst (do_GET w path params s)
  | ExternalEdit f => set_alarm_file f s
  end.

Definition run (s : mstate) (l : list action) : mstate := fold_left step l s.

(** The states the program can be in. *)
Definition reachable (s : mstate) : Prop :=
  exists f l, s = run (initial f) l.

End Program.

(** ** The page: ringtone catalogue and option lists *)

(** [s.lower()], which consults the Unicode database like [upper]. *)
Class PyLowercase := {
  str_lower : pystr -> pystr
}.

Definition ascii_lower_char (c : N) : N :=
  if (65 <=? c)%N && (c <=? 90)%N then (c + 32)%N else c.

(** [lower] restricted to what it does on ASCII text. *)
Definition ascii_lowercase : PyLowercase :=
  {| str_lower := List.map ascii_lower_char |}.

(** [a <= b] on [str]: code point by code point. *)
Fixpoint str_leb (a b : pystr) : bool :=
  match a, b with
  | [], _ => true
  | _ :: _, [] => false
  | x :: a', y :: b' =>
      if (x <? y)%N then true
      else if (y <? x)%N then false
      else str_leb a' b'
  end.

(** [files.sort()]: the list in ascending order.  The order on [str]
    is total, so the sorted list does not depend on the algorithm;
    insertion is used here. *)
Fixpoint insert_sorted (x : pystr) (l : list pystr) : list pystr :=
  match l with
  | [] => [x]
  | y :: l' => if str_leb x y then x :: y :: l' else y :: insert_sorted x l'
  end.

Fixpoint sort (l : list pystr) : list pystr :=
  match l with
  | [] => []
  | x :: l' => insert_sorted x (sort l')
  end.

Section Page.
Context {RT : PyRuntime} {LC : PyLowercase} {OS : OsPath}.
Variable cfg : config.

(** [name.lower().endswith((".mp3", ".wav"))] *)
Definition is_audio_name (name : pystr) : bool :=
  endswith (str_lower name) (lit ".mp3") || endswith (str_lower name) (lit ".wav").

(** [listing] is [None] when [MUSIC_DIR] is not a directory, and the
    result of [os.listdir(MUSIC_DIR)] otherwise. *)
Definition list_ringtones (listing : option (list pystr)) : list pystr :=
  match listing with
  | None => []
  | Some names =>
      sort (List.map (path_join (MUSIC_DIR cfg)) (filter is_audio_name names))
  end.

(** One [<option>] element. *)
Definition option_html (value label : pystr) (selected : bool) : pystr :=
  lit "<option value=" ++ [34%N] ++ value ++ [34%N]
  ++ (if selected then lit " selected" else [])
  ++ lit ">" ++ label ++ lit "</option>".

(** [selected and value == selected] *)
Definition is_selected (selected : pyval) (value : pystr) : bool :=
  py_truthy selected && py_eq_str selected value.

Definition options_html (options : list (pystr * pystr)) (selected : pyval) : pystr :=
  Json.join [10%N]
    (List.map (fun vl => option_html (fst vl) (snd vl) (is_selected selected (fst vl)))
              options).





End Page.

(** *** Observations on the events of one function *)

Definition clear_events (s : mstate) : mstate :=
  {| RINGING := RINGING s; STOPPED_THIS_MINUTE := STOPPED_THIS_MINUTE s;
     last_minute_seen := last_minute_seen s; last_log := last_log s;
     alarm_file := alarm_file s; events := [] |}.

(** The events of a computation run in state [s], oldest first. *)
Definition events_of {A} (c : M A) (s : mstate) : list event :=
  rev (events (fst (c (clear_events s)))).

Definition is_play_loop (e : event) : bool :=
  match e with MusicPlayLoop _ => true | _ => false end.

(** Looped playback was started. *)
Definition starts_playback (evs : list event) : bool := existsb is_play_loop evs.

(** Every read and write of a shared global happens between an
    [Acquire] and the next [Release]. *)
Fixpoint lock_disciplined (held : bool) (evs : list event) : bool :=
  match evs with
  | [] => true
  | Acquire :: r => lock_disciplined true r
  | Release :: r => lock_disciplined false r
  | Read _ :: r => held && lock_disciplined held r
  | Write _ :: r => held && lock_disciplined held r
  | _ :: r => lock_disciplined held r
  end.

(** ** Vocabulary of the properties *)

(** [n] is printed with exactly two digits, which read back as [n]. *)
Definition two_digits_ok (n : nat) : bool :=
  let s := fmt02 (Z.of_nat n) in
  Nat.eqb (List.length s) 2
  && match digits_val s with
     | Some v => N.eqb v (N.of_nat n)
     | None => false
     end.

(** The value [load_alarm] finds in a settings file. *)
Definition stored_record (f : file_state) : pyval :=
  match f with
  | Content bs =>
      match Utf8.decode bs with
      | Some text =>
          match Json.loads (Utf8.read_newlines text) with
          | Some v => v
          | None => PyDict []
          end
      | None => PyDict []
      end
  | _ => PyDict []
  end.

(** The field [k] of a record, when the record is a [dict] that has
    it. *)
Definition field (alarm : pyval) (k : pystr) : option pyval :=
  match alarm with
  | PyDict d => Dict.lookup d k
  | _ => None
  end.

Section Vocabulary.
Context {RT : PyRuntime}.

(** The field is present and not empty. *)
Definition field_set (alarm : pyval) (k : pystr) : bool :=
  match field alarm k with
  | Some v => py_truthy v
  | None => false
  end.

(** The record has its four required fields. *)
Definition has_required_fields (alarm : pyval) : bool :=
  field_set alarm (lit "hour") && field_set alarm (lit "minute")
  && field_set alarm (lit "ampm") && field_set alarm (lit "ringtone").

(** The displayed time ["HH:MM AM/PM"] and the minute key ["HH:MM"] of a
    tick. *)
Definition displayed_time (w : world) : pystr := strftime_I_M_p (w_now w).
Definition minute_key (w : world) : pystr :=
  strftime_I (w_now w) ++ lit ":" ++ strftime_M (w_now w).

(** The suppression value the trigger decision of a tick sees: the
    stored one, unless the minute key of the tick differs from the last
    one the checker saw. *)
Definition suppression_seen (w : world) (s : mstate) : option pystr :=
  if opt_str_eqb (last_minute_seen s) (minute_key w)
  then STOPPED_THIS_MINUTE s else None.

(** The field [k] is the string [x]. *)
Definition field_is (alarm : pyval) (k x : pystr) : bool :=
  match field alarm k with
  | Some v => py_eq_str v x
  | None => false
  end.

(** The stored meridiem is a string equal to [now_ap] once both are
    upper-cased. *)
Definition meridiem_matches (alarm : pyval) (now_ap : pystr) : bool :=
  match field alarm (lit "ampm") with
  | Some (PyStr a) => str_eqb (str_upper a) (str_upper now_ap)
  | _ => false
  end.

(** The stored time is the time of the tick. *)
Definition time_matches (w : world) (alarm : pyval) : bool :=
  field_is alarm (lit "hour") (strftime_I (w_now w))
  && field_is alarm (lit "minute") (strftime_M (w_now w))
  && meridiem_matches alarm (strftime_p (w_now w)).

End Vocabulary.

Section VocabularyPlayback.
Context {RT : PyRuntime} {OS : OsPath}.
Variable cfg : config.

(** The stored ringtone is a string that resolves to a file the audio
    backend can play. *)
Definition ringtone_playable (w : world) (alarm : pyval) : bool :=
  match field alarm (lit "ringtone") with
  | Some (PyStr p) =>
      match resolve_tone_path cfg w p with
      | Some q => str_truthy q && AUDIO_OK cfg && w_music_ok w q
      | None => false
      end
  | _ => false
  end.

End VocabularyPlayback.

(** Text that [str] values hold in practice: code points below
    0x110000, and no high surrogate directly followed by a low one. *)
Fixpoint no_surrogate_pair (s : pystr) : bool :=
  match s with
  | a :: r =>
      match r with
      | b :: _ => negb (Json.is_high_surrogate a && Json.is_low_surrogate b)
      | [] => true
      end && no_surrogate_pair r
  | [] => true
  end.

Definition valid_text (s : pystr) : bool :=
  forallb (fun c => (c <? 1114112)%N) s && no_surrogate_pair s.

(** ASCII text. *)
Definition ascii_text (s : pystr) : bool := forallb (fun c => (c <? 128)%N) s.

(** The characters [json.dump] writes for strings and for the layout of
    objects: a line feed or a printable ASCII character. *)
Definition json_char (c : N) : bool :=
  ((c =? 10) || (32 <=? c) && (c <=? 126))%N.

(** A [dict] whose values are all of type [str]. *)
Definition str_dict (pairs : list (pystr * pystr)) : pyval :=
  PyDict (List.map (fun kv => (fst kv, PyStr (snd kv))) pairs).

(** The text [json.dump] writes for an item [key: value] of such a
    [dict], after the opening quote of the key; and the text it writes
    for the items after the first, each behind a comma, a line feed and
    two spaces. *)
Definition item_body (kv : pystr * pystr) : pystr :=
  flat_map Json.escape_char (fst kv)
  ++ 34%N :: 58%N :: 32%N :: 34%N :: flat_map Json.escape_char (snd kv) ++ [34%N].

Definition more_items (pairs : list (pystr * pystr)) : pystr :=
  flat_map (fun kv => 44%N :: 10%N :: 32%N :: 32%N :: 34%N :: item_body kv) pairs.

(** The dictionary the [/save] handler builds. *)
Definition alarm_data (H Mi AP time12 tone_hit : pystr) : pyval :=
  PyDict [(lit "hour", PyStr H); (lit "minute", PyStr Mi);
          (lit "ampm", PyStr AP); (lit "time12", PyStr time12);
          (lit "ringtone", PyStr tone_hit)].

(** [fmt02 n] is ASCII text. *)
Definition fmt02_ascii_ok (n : nat) : bool := ascii_text (fmt02 (Z.of_nat n)).

(** Every write of a shared global happens between an [Acquire] and
    the next [Release]. *)
Fixpoint writes_locked (held : bool) (evs : list event) : bool :=
  match evs with
  | [] => true
  | Acquire :: r => writes_locked true r
  | Release :: r => writes_locked false r
  | Write _ :: r => held && writes_locked held r
  | _ :: r => writes_locked held r
  end.

(** The events of an action, oldest first. *)
Definition events_of_action {RT : PyRuntime} {OS : OsPath} (cfg : config)
           (a : action) (s : mstate) : list event :=
  match a with
  | Tick w => events_of (alarm_checker cfg w) s
  | Request w path params => events_of (do_GET cfg w path params) s
  | ExternalEdit _ => []
  end.

(** An action other than a stop request: a tick, a change of the
    settings file from outside, or a request to [/], [/save], [/test]
    or for a static file. *)
Definition not_a_stop (a : action) : bool :=
  match a with
  | Request _ path _ => negb (str_eqb path (lit "/stop"))
  | _ => true
  end.


(** The minute of the day at which the wall clock shows the hour [h]
    (1 to 12), the minute [m] and the meridiem ([pm] for PM). *)
Definition clock_of (h m : Z) (pm : bool) : N :=
  (60 * (Z.to_N h mod 12 + (if pm then 12 else 0)) + Z.to_N m)%N.

(** At that minute [current_h_m_ampm] returns the strings
    [normalize_time] writes for [h], [m] and the meridiem. *)
Definition clock_agrees (h m : nat) (pm : bool) : bool :=
  let now := clock_of (Z.of_nat h) (Z.of_nat m) pm in
  str_eqb (strftime_I now) (fmt02 (Z.of_nat h))
  && str_eqb (strftime_M now) (fmt02 (Z.of_nat m))
  && str_eqb (strftime_p now) (if pm then lit "PM" else lit "AM").

(** With the built-ins of [ascii_runtime], [normalize_time] maps the
    strings it writes for [h], [m] and the meridiem to themselves. *)
Definition renormalizes (h m : nat) (pm : bool) : bool :=
  let H := fmt02 (Z.of_nat h) in
  let Mi := fmt02 (Z.of_nat m) in
  let AP := if pm then lit "PM" else lit "AM" in
  match @normalize_time ascii_runtime H Mi AP with
  | (H', Mi', AP', time12) =>
      str_eqb H' H && str_eqb Mi' Mi && str_eqb AP' AP
      && str_eqb time12 (H ++ lit ":" ++ Mi ++ lit " " ++ AP)
  end.

(** ** A concrete installation

    The program installed in [/app] on a POSIX system, run from
    [/home/user], with a working audio device and no directory named
    after [USER_MUSIC_DIR]; used to run the model on concrete inputs. *)

Module Example.

Definition os : OsPath := Posix.os_path (lit "/home/user").

Definition cfg : config := @startup_config os true (lit "/app") false.

(** A file system holding the files [present] (absolute, normalised
    paths). *)
Definition files (present : list pystr) (p : pystr) : bool :=
  existsb (str_eqb (Posix.abspath (lit "/home/user") p)) present.

(** The environment at [h]:[m] (24-hour clock). *)
Definition world_at (h m : N) (present : list pystr) (writable : bool) : world :=
  {| w_now := 60 * h + m; w_time := 1000;
     w_exists := files present;
     w_music_ok := fun _ => true; w_stop_ok := true;
     w_writable := writable |}.

(** The record the save path writes. *)
Definition record (H Mi AP tone : pystr) : pyval :=
  PyDict [(lit "hour", PyStr H); (lit "minute", PyStr Mi);
          (lit "ampm", PyStr AP);
          (lit "time12", PyStr (H ++ lit ":" ++ Mi ++ lit " " ++ AP));
          (lit "ringtone", PyStr tone)].

(** A settings file holding [v]. *)
Definition file_of (v : pyval) : file_state :=
  match Utf8.encode (@Json.dumps ascii_runtime v) with
  | Some bs => Content bs
  | None => Missing
  end.

(** The alarm 07:05 AM with the ringtone [/app/music/a.mp3]. *)
Definition alarm_0705 : file_state :=
  file_of (record (lit "07") (lit "05") (lit "AM") (lit "/app/music/a.mp3")).

End Example.

(** * Properties *)

(** ** Strings and numbers *)

Lemma str_eqb_eq (a b : pystr) : str_eqb a b = true <-> a = b.
Proof.
  revert b; induction a as [|x a IH]; intros [|y b]; simpl; split;
    try congruence; try reflexivity.
  - intros H. apply andb_true_iff in H as [H1 H2].
    apply N.eqb_eq in H1. apply IH in H2. congruence.
  - intros H. injection H as -> ->.
    apply andb_true_iff. split; [apply N.eqb_refl | now apply IH].
Qed.

Lemma str_eqb_refl (a : pystr) : str_eqb a a = true.
Proof. now apply str_eqb_eq. Qed.

Lemma str_eqb_neq (a b : pystr) : str_eqb a b = false <-> a <> b.
Proof.
  split.
  - intros H E. apply str_eqb_eq in E. congruence.
  - intros H. destruct (str_eqb a b) eqn:E; [|reflexivity].
    apply str_eqb_eq in E. contradiction.
Qed.

Lemma two_digits_table : forallb two_digits_ok (seq 0 100) = true.
Proof. vm_compute. reflexivity. Qed.

Lemma fmt02_two_digits (z : Z) :
  (0 <= z < 100)%Z ->
  List.length (fmt02 z) = 2 /\ digits_val (fmt02 z) = Some (Z.to_N z).
Proof.
  intros Hz.
  pose proof two_digits_table as T.
  rewrite forallb_forall in T.
  specialize (T (Z.to_nat z)).
  assert (Hin : In (Z.to_nat z) (seq 0 100)) by (apply in_seq; lia).
  specialize (T Hin). unfold two_digits_ok in T.
  rewrite Z2Nat.id in T by lia.
  apply andb_true_iff in T as [T1 T2].
  apply Nat.eqb_eq in T1. split; [exact T1|].
  destruct (digits_val (fmt02 z)) as [v|]; [|discriminate].
  apply N.eqb_eq in T2. subst v. f_equal. lia.
Qed.

(** ** [normalize_time] *)

Section NormalizeTimeFacts.
Context {RT : PyRuntime}.

(** [max(lo, min(hi, n))] is [n] brought into the range. *)
Lemma clamp_spec (lo hi n : Z) :
  (lo <= hi)%Z ->
  let r := Z.max lo (Z.min hi n) in
  (lo <= r <= hi)%Z
  /\ ((n < lo)%Z -> r = lo)
  /\ ((hi < n)%Z -> r = hi)
  /\ ((lo <= n <= hi)%Z -> r = n).
Proof. intros H r. subst r. lia. Qed.

(** C4. For every triple of strings, [normalize_time] returns the
    two-digit text of an hour [h] in 1..12 and of a minute [m] in
    0..59, where [h] (resp. [m]) is the number [int] reads from the
    input, clamped into the range (7, resp. 0, when [int] raises); the
    meridiem is "PM" exactly when the stripped, upper-cased token is
    "PM", and "AM" for every other token; the fourth component is
    "HH:MM AP". *)
Theorem normalize_time_clamps (hour_str min_str ampm_str : pystr) :
  exists (h m : Z) (ap : pystr),
    normalize_time hour_str min_str ampm_str
    = (fmt02 h, fmt02 m, ap, fmt02 h ++ lit ":" ++ fmt02 m ++ lit " " ++ ap)
    /\ (1 <= h <= 12)%Z /\ (0 <= m <= 59)%Z
    /\ h = Z.max 1 (Z.min 12 (match py_int hour_str with Some n => n | None => 7%Z end))
    /\ m = Z.max 0 (Z.min 59 (match py_int min_str with Some n => n | None => 0%Z end))
    /\ (forall n, py_int hour_str = Some n ->
          ((n < 1)%Z -> h = 1%Z) /\ ((12 < n)%Z -> h = 12%Z)
          /\ ((1 <= n <= 12)%Z -> h = n))
    /\ (forall n, py_int min_str = Some n ->
          ((n < 0)%Z -> m = 0%Z) /\ ((59 < n)%Z -> m = 59%Z)
          /\ ((0 <= n <= 59)%Z -> m = n))
    /\ List.length (fmt02 h) = 2 /\ digits_val (fmt02 h) = Some (Z.to_N h)
    /\ List.length (fmt02 m) = 2 /\ digits_val (fmt02 m) = Some (Z.to_N m)
    /\ (ap = lit "PM" <-> str_upper (str_strip ampm_str) = lit "PM")
    /\ (ap = lit "AM" <-> str_upper (str_strip ampm_str) <> lit "PM").
Proof.
  set (h := Z.max 1 (Z.min 12 (int_or 7 hour_str))).
  set (m := Z.max 0 (Z.min 59 (int_or 0 min_str))).
  set (ap := if negb (str_eqb (str_upper (str_strip ampm_str)) (lit "PM"))
             then lit "AM" else lit "PM").
  exists h, m, ap.
  assert (Hh : (1 <= h <= 12)%Z) by (subst h; lia).
  assert (Hm : (0 <= m <= 59)%Z) by (subst m; lia).
  split; [reflexivity|].
  split; [exact Hh|]. split; [exact Hm|].
  split; [reflexivity|]. split; [reflexivity|].
  split.
  { intros n Hn. subst h. unfold int_or. rewrite Hn. lia. }
  split.
  { intros n Hn. subst m. unfold int_or. rewrite Hn. lia. }
  destruct (fmt02_two_digits (z := h)) as [L1 D1]; [lia|].
  destruct (fmt02_two_digits (z := m)) as [L2 D2]; [lia|].
  repeat (split; [assumption|]).
  subst ap.
  destruct (str_eqb (str_upper (str_strip ampm_str)) (lit "PM")) eqn:E; simpl.
  - apply str_eqb_eq in E. split; split; intros H; try reflexivity; try assumption.
    + discriminate H.
    + contradiction.
  - apply str_eqb_neq in E. split; split; intros H; try reflexivity; try assumption.
    + discriminate H.
    + contradiction.
Qed.

End NormalizeTimeFacts.

(** ** The monad *)

Lemma bind_eq {A B} (c : M A) (k : A -> M B) (s : mstate) :
  bind c k s = match c s with
               | (s', inr a) => k a s'
               | (s', inl e) => (s', inl e)
               end.
Proof. reflexivity. Qed.

Lemma try_except_eq {A} (c : M A) (h : exn -> M A) (s : mstate) :
  try_except c h s = match c s with
                     | (s', inr a) => (s', inr a)
                     | (s', inl e) => h e s'
                     end.
Proof. reflexivity. Qed.

Lemma with_LOCK_eq {A} (body : M A) (s : mstate) :
  with_LOCK body s
  = (add_event Release (fst (body (add_event Acquire s))),
     snd (body (add_event Acquire s))).
Proof.
  unfold with_LOCK, try_finally, emit, modify, bind.
  destruct (body (add_event Acquire s)) as [s' r]. reflexivity.
Qed.

(** Looped playback was started at some point of the events of [s]. *)
Lemma existsb_rev {A} (f : A -> bool) (l : list A) :
  existsb f (rev l) = existsb f l.
Proof.
  induction l as [|x l IH]; [reflexivity|].
  simpl. rewrite existsb_app, IH. simpl. rewrite orb_false_r. apply orb_comm.
Qed.

Section ProgramFacts.
Context {RT : PyRuntime} {OS : OsPath}.
Variable cfg : config.

Lemma load_alarm_eq (s : mstate) :
  load_alarm s = (s, inr (stored_record (alarm_file s))).
Proof.
  unfold load_alarm, alarm_file_exists, json_load, open_read, try_except, bind, get, ret, raise.
  unfold stored_record.
  destruct (alarm_file s) as [| |bs] eqn:F; cbn; rewrite ?F; cbn; try reflexivity.
  destruct (Utf8.decode bs) as [text|]; cbn; try reflexivity.
  destruct (Json.loads (Utf8.read_newlines text)); reflexivity.
Qed.

Lemma get_truthy_dict d k s :
  get_truthy (PyDict d) k s = (s, inr (field_set (PyDict d) k)).
Proof.
  unfold get_truthy, py_get, field_set, field, bind, ret.
  destruct (Dict.lookup d k); reflexivity.
Qed.

Lemma alarm_complete_dict d s :
  alarm_complete (PyDict d) s = (s, inr (has_required_fields (PyDict d))).
Proof.
  unfold alarm_complete, and_then, has_required_fields.
  rewrite bind_eq, get_truthy_dict.
  destruct (field_set (PyDict d) (lit "hour")); [|reflexivity].
  rewrite bind_eq, get_truthy_dict.
  destruct (field_set (PyDict d) (lit "minute")); [|reflexivity].
  rewrite bind_eq, get_truthy_dict.
  destruct (field_set (PyDict d) (lit "ampm")); [|reflexivity].
  rewrite get_truthy_dict. reflexivity.
Qed.

Lemma field_set_inv d k :
  field_set (PyDict d) k = true ->
  exists v, Dict.lookup d k = Some v /\ py_truthy v = true.
Proof.
  unfold field_set, field. destruct (Dict.lookup d k) as [v|]; [eauto|discriminate].
Qed.

Lemma has_required_fields_inv alarm :
  has_required_fields alarm = true ->
  exists d vh vm va vt,
    alarm = PyDict d
    /\ Dict.lookup d (lit "hour") = Some vh /\ py_truthy vh = true
    /\ Dict.lookup d (lit "minute") = Some vm /\ py_truthy vm = true
    /\ Dict.lookup d (lit "ampm") = Some va /\ py_truthy va = true
    /\ Dict.lookup d (lit "ringtone") = Some vt /\ py_truthy vt = true.
Proof.
  intros H. destruct alarm as [ | | | | | |d]; try discriminate H.
  unfold has_required_fields in H.
  apply andb_true_iff in H as [H Ht].
  apply andb_true_iff in H as [H Ha].
  apply andb_true_iff in H as [Hh Hm].
  apply field_set_inv in Hh as (vh & Lh & Th).
  apply field_set_inv in Hm as (vm & Lm & Tm).
  apply field_set_inv in Ha as (va & La & Ta).
  apply field_set_inv in Ht as (vt & Lt & Tt).
  exists d, vh, vm, va, vt. repeat split; assumption.
Qed.

(** The stages of one tick, as state transformers. *)

Lemma rollover_reset_eq (key : pystr) (s : mstate) :
  rollover_reset key s
  = (if opt_str_eqb (last_minute_seen s) key then s
     else set_last_minute_seen (Some key)
            (add_event Release
               (set_STOPPED_THIS_MINUTE None
                  (add_event (Write VarSTOPPED_THIS_MINUTE)
                     (add_event Acquire s)))),
     inr tt).
Proof.
  unfold rollover_reset. rewrite bind_eq. unfold get at 1.
  destruct (opt_str_eqb (last_minute_seen s) key); reflexivity.
Qed.

Lemma periodic_log_dict (w : world) d (nc : pystr) (s : mstate) :
  periodic_log w (PyDict d) nc s
  = (if (12 <? w_time w - last_log s)%Z then
       set_last_log (w_time w)
         (add_event
            (Print (MsgNow nc
                      (match Dict.lookup d (lit "time12") with
                       | Some x => x
                       | None => PyNone
                       end) (RINGING s)))
            (add_event (Read VarRINGING) s))
     else s, inr tt).
Proof.
  unfold periodic_log. rewrite bind_eq. unfold get at 1.
  destruct (12 <? w_time w - last_log s)%Z; reflexivity.
Qed.

Lemma should_ring_dict d vh vm va (nh nm nap : pystr) (s : mstate) :
  Dict.lookup d (lit "hour") = Some vh ->
  Dict.lookup d (lit "minute") = Some vm ->
  Dict.lookup d (lit "ampm") = Some va ->
  should_ring (PyDict d) nh nm nap s
  = (s, if py_eq_str vh nh then
          if py_eq_str vm nm then
            match va with
            | PyStr a => inr (str_eqb (str_upper a) (str_upper nap))
            | _ => inl AttributeError
            end
          else inr false
        else inr false).
Proof.
  intros Lh Lm La.
  unfold should_ring, and_then, index_eq, py_index, py_upper.
  rewrite Lh, Lm, La. unfold bind, ret, raise.
  destruct (py_eq_str vh nh); [|reflexivity].
  destruct (py_eq_str vm nm); [|reflexivity].
  destruct va; reflexivity.
Qed.

Lemma play_loop_eq (w : world) (p : pystr) (s : mstate) :
  play_loop cfg w p s
  = (if negb (AUDIO_OK cfg) then add_event (Print MsgAudioNotInitialized) s
     else if w_music_ok w p then
       add_event (Print (MsgRinging p))
         (add_event Release
            (set_RINGING true
               (add_event (Write VarRINGING)
                  (add_event Acquire (add_event (MusicPlayLoop p) s)))))
     else
       add_event Release
         (set_RINGING false
            (add_event (Write VarRINGING)
               (add_event Acquire (add_event (Print MsgFailedToPlay) s)))),
     inr tt).
Proof.
  unfold play_loop.
  destruct (AUDIO_OK cfg); [|reflexivity]. cbn [negb].
  rewrite try_except_eq.
  destruct (w_music_ok w p); reflexivity.
Qed.

Lemma stop_playback_eq (w : world) (s : mstate) :
  stop_playback cfg w s
  = (let s1 := add_event (Read VarRINGING) (add_event Acquire s) in
     let s2 := if RINGING s && AUDIO_OK cfg && w_stop_ok w
               then add_event MusicStop s1 else s1 in
     add_event (Print (MsgAlarmStopped (Some (displayed_time w))))
       (add_event (Read VarSTOPPED_THIS_MINUTE)
          (add_event Release
             (set_STOPPED_THIS_MINUTE (Some (displayed_time w))
                (add_event (Write VarSTOPPED_THIS_MINUTE)
                   (set_RINGING false (add_event (Write VarRINGING) s2)))))),
     inr tt).
Proof.
  unfold stop_playback. rewrite bind_eq, with_LOCK_eq.
  unfold displayed_time.
  destruct (RINGING s) eqn:R; destruct (AUDIO_OK cfg) eqn:A;
    destruct (w_stop_ok w) eqn:W;
    unfold read_RINGING, write_RINGING, write_STOPPED_THIS_MINUTE,
      read_STOPPED_THIS_MINUTE, print, emit, modify, get, ret, raise, bind,
      try_except;
    cbn; rewrite ?R, ?A, ?W; reflexivity.
Qed.

End ProgramFacts.

Ltac proj :=
  cbn [fst snd RINGING STOPPED_THIS_MINUTE last_minute_seen last_log alarm_file
         events set_RINGING set_STOPPED_THIS_MINUTE set_last_minute_seen
         set_last_log set_alarm_file add_event clear_events].

Section TickFacts.
Context {RT : PyRuntime} {OS : OsPath}.
Variable cfg : config.

Lemma read_flags_eq (nc : pystr) (s : mstate) :
  with_LOCK
    (stopped <- read_STOPPED_THIS_MINUTE ;;
     ringing <- read_RINGING ;;
     ret (opt_str_eqb stopped nc, ringing)) s
  = (add_event Release
       (add_event (Read VarRINGING)
          (add_event (Read VarSTOPPED_THIS_MINUTE) (add_event Acquire s))),
     inr (opt_str_eqb (STOPPED_THIS_MINUTE s) nc, RINGING s)).
Proof. reflexivity. Qed.

Lemma trigger_dict (w : world) d vh vm va vt (nh nm nap : pystr) (s : mstate) :
  Dict.lookup d (lit "hour") = Some vh ->
  Dict.lookup d (lit "minute") = Some vm ->
  Dict.lookup d (lit "ampm") = Some va ->
  Dict.lookup d (lit "ringtone") = Some vt ->
  py_truthy vt = true ->
  trigger cfg w (PyDict d) nh nm nap s
  = match (if py_eq_str vh nh then
             if py_eq_str vm nm then
               match va with
               | PyStr a => inr (str_eqb (str_upper a) (str_upper nap))
               | _ => inl AttributeError
               end
             else inr false
           else inr false) with
    | inl e => (s, inl e)
    | inr ring =>
        let s1 := add_event Release
                    (add_event (Read VarRINGING)
                       (add_event (Read VarSTOPPED_THIS_MINUTE)
                          (add_event Acquire s))) in
        if ring && negb (RINGING s)
           && negb (opt_str_eqb (STOPPED_THIS_MINUTE s)
                      (nh ++ lit ":" ++ nm ++ lit " " ++ nap))
        then
          match vt with
          | PyStr p =>
              match resolve_tone_path cfg w p with
              | Some q =>
                  if str_truthy q then play_loop cfg w q s1
                  else (add_event (Print (MsgRingtoneNotFound vt)) s1, inr tt)
              | None => (add_event (Print (MsgRingtoneNotFound vt)) s1, inr tt)
              end
          | _ => (s1, inl TypeError)
          end
        else (s1, inr tt)
    end.
Proof.
  intros Lh Lm La Lt Tt.
  unfold trigger. rewrite bind_eq, should_ring_dict with (vh := vh) (vm := vm) (va := va) by assumption.
  destruct (if py_eq_str vh nh then _ else _) as [e|ring]; [reflexivity|].
  rewrite bind_eq, read_flags_eq.
  cbv zeta.
  destruct (ring && negb (RINGING s) && negb (opt_str_eqb (STOPPED_THIS_MINUTE s) _));
    [|reflexivity].
  rewrite bind_eq. unfold py_get at 1. rewrite Lt.
  unfold ret at 1. rewrite bind_eq.
  unfold call_resolve_tone_path. rewrite Tt. cbn [negb].
  destruct vt; try reflexivity.
  unfold ret at 1.
  destruct (resolve_tone_path cfg w s0) as [q|]; [|reflexivity].
  destruct (str_truthy q); reflexivity.
Qed.

(** The body of a tick on which the record is complete. *)
Lemma alarm_checker_complete (w : world) (s : mstate) d :
  stored_record (alarm_file s) = PyDict d ->
  has_required_fields (PyDict d) = true ->
  alarm_checker cfg w s
  = match trigger cfg w (PyDict d) (strftime_I (w_now w)) (strftime_M (w_now w))
            (strftime_p (w_now w))
            (fst (periodic_log w (PyDict d) (displayed_time w)
                    (fst (rollover_reset (minute_key w) s)))) with
    | (s', inr _) => (add_event (Sleep 10) s', inr tt)
    | (s', inl e) =>
        (add_event (Sleep 20) (add_event (Print (MsgCheckerError e)) s'), inr tt)
    end.
Proof.
  intros A Hreq.
  unfold alarm_checker. rewrite try_except_eq, bind_eq, load_alarm_eq, A.
  rewrite bind_eq, alarm_complete_dict, Hreq.
  rewrite bind_eq. unfold current_h_m_ampm.
  rewrite bind_eq. fold (minute_key w).
  rewrite rollover_reset_eq. cbn [fst].
  rewrite bind_eq.
  change (strftime_I (w_now w) ++ lit ":" ++ strftime_M (w_now w) ++ lit " "
          ++ strftime_p (w_now w)) with (displayed_time w).
  rewrite periodic_log_dict. cbn [fst].
  destruct (trigger cfg w (PyDict d) _ _ _ _) as [s' [e|[]]]; reflexivity.
Qed.

(** The body of a tick on which a required field is missing. *)
Lemma alarm_checker_incomplete (w : world) (s : mstate) :
  has_required_fields (stored_record (alarm_file s)) = false ->
  alarm_checker cfg w s
  = match stored_record (alarm_file s) with
    | PyDict _ => (add_event (Sleep 10) s, inr tt)
    | _ => (add_event (Sleep 20)
              (add_event (Print (MsgCheckerError AttributeError)) s), inr tt)
    end.
Proof.
  intros Hreq.
  unfold alarm_checker. rewrite try_except_eq, bind_eq, load_alarm_eq.
  destruct (stored_record (alarm_file s)) as [ | | | | | |d] eqn:A; try reflexivity.
  rewrite bind_eq, alarm_complete_dict, Hreq. reflexivity.
Qed.

Lemma tick_starts_eq (w : world) (s : mstate) :
  starts_playback (events_of (alarm_checker cfg w) s)
  = has_required_fields (stored_record (alarm_file s))
    && time_matches w (stored_record (alarm_file s))
    && negb (RINGING s)
    && negb (opt_str_eqb (suppression_seen w s) (displayed_time w))
    && ringtone_playable cfg w (stored_record (alarm_file s)).
Proof.
  unfold events_of, starts_playback. rewrite existsb_rev.
  destruct (has_required_fields (stored_record (alarm_file s))) eqn:Hreq.
  - destruct (has_required_fields_inv _ Hreq)
      as (d & vh & vm & va & vt & A & Lh & Th & Lm & Tm & La & Ta & Lt & Tt).
    rewrite alarm_checker_complete with (d := d);
      [|exact A|rewrite <- A; exact Hreq].
    rewrite trigger_dict with (vh := vh) (vm := vm) (va := va) (vt := vt) by assumption.
    rewrite rollover_reset_eq, periodic_log_dict, A.
    unfold time_matches, field_is, meridiem_matches, ringtone_playable, field,
      suppression_seen.
    rewrite Lh, Lm, La, Lt.
    change (last_minute_seen (clear_events s)) with (last_minute_seen s).
    change (strftime_I (w_now w) ++ lit ":" ++ strftime_M (w_now w) ++ lit " "
            ++ strftime_p (w_now w)) with (displayed_time w).
    generalize (displayed_time w) (minute_key w) (strftime_I (w_now w))
      (strftime_M (w_now w)) (strftime_p (w_now w)).
    intros nc key nh nm nap.
    destruct (opt_str_eqb (last_minute_seen s) key); proj;
      destruct (12 <? w_time w - last_log s)%Z; proj;
      (destruct (py_eq_str vh nh); [|reflexivity]);
      (destruct (py_eq_str vm nm); [|reflexivity]);
      (destruct va as [ | | | |a| | ]; try reflexivity);
      (destruct (str_eqb (str_upper a) (str_upper nap)); [|reflexivity]);
      (destruct (RINGING s); [reflexivity|]);
      cbn [andb negb opt_str_eqb];
      try (destruct (opt_str_eqb (STOPPED_THIS_MINUTE s) nc); [reflexivity|]);
      cbn [andb negb];
      (destruct vt as [ | | | |p| | ]; try reflexivity);
      (destruct (resolve_tone_path cfg w p) as [q|]; [|reflexivity]);
      (destruct (str_truthy q); [|reflexivity]);
      rewrite play_loop_eq;
      (destruct (AUDIO_OK cfg); [|reflexivity]);
      (destruct (w_music_ok w q); reflexivity).
  - rewrite alarm_checker_incomplete by exact Hreq.
    change (alarm_file (clear_events s)) with (alarm_file s).
    destruct (stored_record (alarm_file s)); reflexivity.
Qed.

End TickFacts.

(** ** The trigger decision *)

Section TriggerDecision.
Context {RT : PyRuntime} {OS : OsPath}.
Variable cfg : config.

Lemma py_eq_str_true (v : pyval) (x : pystr) :
  py_eq_str v x = true <-> v = PyStr x.
Proof.
  destruct v; simpl; split; try discriminate.
  - intros H. apply str_eqb_eq in H. now subst.
  - intros H. injection H as ->. apply str_eqb_refl.
Qed.

Lemma field_is_true (alarm : pyval) (k x : pystr) :
  field_is alarm k x = true <-> field alarm k = Some (PyStr x).
Proof.
  unfold field_is. destruct (field alarm k) as [v|].
  - rewrite py_eq_str_true. split; congruence.
  - split; discriminate.
Qed.

Lemma meridiem_matches_true (alarm : pyval) (now_ap : pystr) :
  meridiem_matches alarm now_ap = true <->
  exists a, field alarm (lit "ampm") = Some (PyStr a)
            /\ str_upper a = str_upper now_ap.
Proof.
  unfold meridiem_matches.
  destruct (field alarm (lit "ampm")) as [[ | | | |a| | ]|];
    try (split; [discriminate | intros (a' & H & _); discriminate H]).
  rewrite str_eqb_eq. split.
  - intros H. exists a. split; [reflexivity|exact H].
  - intros (a' & H & E). injection H as ->. exact E.
Qed.

Lemma opt_str_eqb_false (o : option pystr) (x : pystr) :
  negb (opt_str_eqb o x) = true <-> o <> Some x.
Proof.
  rewrite negb_true_iff. destruct o as [y|]; simpl.
  - rewrite str_eqb_neq. split; congruence.
  - split; [discriminate|reflexivity].
Qed.

Lemma str_truthy_true (q : pystr) : str_truthy q = true <-> q <> [].
Proof. destruct q; simpl; split; congruence. Qed.

Lemma ringtone_playable_true (w : world) (alarm : pyval) :
  ringtone_playable cfg w alarm = true <->
  exists p q, field alarm (lit "ringtone") = Some (PyStr p)
              /\ resolve_tone_path cfg w p = Some q /\ q <> []
              /\ AUDIO_OK cfg = true /\ w_music_ok w q = true.
Proof.
  unfold ringtone_playable.
  destruct (field alarm (lit "ringtone")) as [[ | | | |p| | ]|];
    try (split; [discriminate | intros (p' & q' & H & _); discriminate H]).
  destruct (resolve_tone_path cfg w p) as [q|] eqn:R0.
  - rewrite !andb_true_iff, str_truthy_true. split.
    + intros [[H1 H2] H3]. exists p, q. repeat split; auto.
    + intros (p' & q' & H & R & H1 & H2 & H3).
      injection H as ->. rewrite R0 in R. injection R as ->.
      repeat split; assumption.
  - split; [discriminate|].
    intros (p' & q' & H & R & _). injection H as ->. rewrite R0 in R.
    discriminate R.
Qed.

(** C1 (as amended). On every tick, looped playback is started if and
    only if the stored record has its four required fields, the stored
    hour and minute are the strings of the current 12-hour hour and
    minute, the stored meridiem is a string equal to the current
    meridiem once both are upper-cased, playback is not already ringing,
    the displayed time differs from the suppression value as it stands
    after the minute-rollover reset of that tick, and the stored
    ringtone is a string that resolves to a non-empty path, the audio
    device is initialised and the backend loads and plays that path.
    In particular no playback is started on a tick on which a required
    field is missing. *)
Theorem alarm_checker_starts_playback_iff (w : world) (s : mstate) :
  let alarm := stored_record (alarm_file s) in
  starts_playback (events_of (alarm_checker cfg w) s) = true <->
  has_required_fields alarm = true
  /\ field alarm (lit "hour") = Some (PyStr (strftime_I (w_now w)))
  /\ field alarm (lit "minute") = Some (PyStr (strftime_M (w_now w)))
  /\ (exists a, field alarm (lit "ampm") = Some (PyStr a)
                /\ str_upper a = str_upper (strftime_p (w_now w)))
  /\ RINGING s = false
  /\ suppression_seen w s <> Some (displayed_time w)
  /\ (exists p q, field alarm (lit "ringtone") = Some (PyStr p)
                  /\ resolve_tone_path cfg w p = Some q /\ q <> []
                  /\ AUDIO_OK cfg = true /\ w_music_ok w q = true).
Proof.
  intros alarm. rewrite tick_starts_eq. fold alarm.
  unfold time_matches.
  rewrite !andb_true_iff, !field_is_true, meridiem_matches_true,
    negb_true_iff, opt_str_eqb_false, ringtone_playable_true.
  tauto.
Qed.

End TriggerDecision.

(** C1 (as stated) fails: at 07:05 AM, with the alarm 07:05 AM stored,
    nothing ringing and no suppression value, every condition of the
    claim holds; the ringtone file is gone, and no playback starts. *)
Lemma playback_not_started_without_ringtone :
  let w := Example.world_at 7 5 [] true in
  let s := initial Example.alarm_0705 in
  let alarm := stored_record (alarm_file s) in
  @has_required_fields ascii_runtime alarm = true
  /\ field alarm (lit "hour") = Some (PyStr (strftime_I (w_now w)))
  /\ field alarm (lit "minute") = Some (PyStr (strftime_M (w_now w)))
  /\ (exists a, field alarm (lit "ampm") = Some (PyStr a)
                /\ AsciiRuntime.upper a = AsciiRuntime.upper (strftime_p (w_now w)))
  /\ RINGING s = false
  /\ STOPPED_THIS_MINUTE s <> Some (displayed_time w)
  /\ starts_playback
       (events_of (@alarm_checker ascii_runtime Example.os Example.cfg w) s)
     = false.
Proof.
  cbv zeta. repeat split; try (vm_compute; reflexivity).
  - exists (lit "AM"). split; vm_compute; reflexivity.
  - vm_compute. discriminate.
Qed.

(** ** The minute-rollover reset and the suppression value *)

Section Suppression.
Context {RT : PyRuntime} {OS : OsPath}.
Variable cfg : config.

(** A tick on which a required field is missing changes nothing but the
    events. *)
Lemma tick_incomplete_state (w : world) (s : mstate) :
  has_required_fields (stored_record (alarm_file s)) = false ->
  let s' := fst (alarm_checker cfg w s) in
  RINGING s' = RINGING s
  /\ STOPPED_THIS_MINUTE s' = STOPPED_THIS_MINUTE s
  /\ last_minute_seen s' = last_minute_seen s
  /\ last_log s' = last_log s
  /\ alarm_file s' = alarm_file s.
Proof.
  intros H. cbv zeta. rewrite alarm_checker_incomplete by exact H.
  destruct (stored_record (alarm_file s)); repeat split; reflexivity.
Qed.

Lemma run_ticks_incomplete (ws : list world) (s : mstate) :
  has_required_fields (stored_record (alarm_file s)) = false ->
  let s' := run cfg s (List.map Tick ws) in
  RINGING s' = RINGING s
  /\ STOPPED_THIS_MINUTE s' = STOPPED_THIS_MINUTE s
  /\ last_minute_seen s' = last_minute_seen s
  /\ last_log s' = last_log s
  /\ alarm_file s' = alarm_file s.
Proof.
  revert s. induction ws as [|w ws IH]; intros s H.
  - repeat split; reflexivity.
  - cbv zeta. simpl.
    destruct (tick_incomplete_state w s H) as (E1 & E2 & E3 & E4 & E5).
    destruct (IH (fst (alarm_checker cfg w s))) as (F1 & F2 & F3 & F4 & F5).
    { rewrite E5. exact H. }
    unfold run in *. simpl in *. repeat split; congruence.
Qed.

(** What [stop_playback] leaves in the state. *)
Lemma stop_playback_state (w : world) (s : mstate) :
  let s' := fst (stop_playback cfg w s) in
  RINGING s' = false
  /\ STOPPED_THIS_MINUTE s' = Some (displayed_time w)
  /\ last_minute_seen s' = last_minute_seen s
  /\ last_log s' = last_log s
  /\ alarm_file s' = alarm_file s.
Proof.
  cbv zeta. rewrite stop_playback_eq. cbv zeta.
  destruct (RINGING s && AUDIO_OK cfg && w_stop_ok w); repeat split; reflexivity.
Qed.

(** C10. On a tick on which a required field of the stored record is
    missing or empty, the minute-rollover reset is skipped: the
    suppression value and the last-seen minute key are left as they
    are, and no playback is started.  So a suppression value recorded
    by [stop_playback] stays, whatever the time of the following ticks,
    as long as no complete record is stored. *)
Theorem incomplete_record_skips_rollover_reset (s : mstate) :
  has_required_fields (stored_record (alarm_file s)) = false ->
  (forall w,
      let s' := fst (alarm_checker cfg w s) in
      STOPPED_THIS_MINUTE s' = STOPPED_THIS_MINUTE s
      /\ last_minute_seen s' = last_minute_seen s
      /\ starts_playback (events_of (alarm_checker cfg w) s) = false)
  /\ (forall w0 ws,
         let s' := run cfg (fst (stop_playback cfg w0 s)) (List.map Tick ws) in
         STOPPED_THIS_MINUTE s' = Some (displayed_time w0)
         /\ last_minute_seen s' = last_minute_seen s).
Proof.
  intros H. split.
  - intros w. cbv zeta.
    destruct (tick_incomplete_state w s H) as (_ & E2 & E3 & _).
    repeat split; try assumption.
    rewrite tick_starts_eq, H. reflexivity.
  - intros w0 ws. cbv zeta.
    destruct (stop_playback_state w0 s) as (_ & S2 & S3 & _ & S5).
    destruct (run_ticks_incomplete ws (fst (stop_playback cfg w0 s)))
      as (_ & F2 & F3 & _).
    { rewrite S5. exact H. }
    rewrite F2, F3. split; assumption.
Qed.

(** Neither the periodic log nor the trigger decision writes the
    suppression value. *)
Lemma trigger_keeps_STOPPED (w : world) d vh vm va vt (nh nm nap : pystr)
      (s : mstate) :
  Dict.lookup d (lit "hour") = Some vh ->
  Dict.lookup d (lit "minute") = Some vm ->
  Dict.lookup d (lit "ampm") = Some va ->
  Dict.lookup d (lit "ringtone") = Some vt ->
  py_truthy vt = true ->
  STOPPED_THIS_MINUTE (fst (trigger cfg w (PyDict d) nh nm nap s))
  = STOPPED_THIS_MINUTE s
  /\ last_minute_seen (fst (trigger cfg w (PyDict d) nh nm nap s))
     = last_minute_seen s.
Proof.
  intros Lh Lm La Lt Tt.
  rewrite trigger_dict with (vh := vh) (vm := vm) (va := va) (vt := vt)
    by assumption.
  destruct (if py_eq_str vh nh then _ else _) as [e|ring];
    [split; reflexivity|].
  cbv zeta.
  destruct (ring && negb (RINGING s) && _); [|split; reflexivity].
  destruct vt as [ | | | |p| | ]; try (split; reflexivity).
  destruct (resolve_tone_path cfg w p) as [q|]; [|split; reflexivity].
  destruct (str_truthy q); [|split; reflexivity].
  rewrite play_loop_eq.
  destruct (AUDIO_OK cfg); [|split; reflexivity].
  destruct (w_music_ok w q); split; reflexivity.
Qed.

(** C3 (as amended). On a tick on which the stored record has its four
    required fields and whose minute key differs from the minute key
    the checker saw last, the suppression value is cleared to [None]
    and the minute key is recorded; the periodic log and the trigger
    decision of that tick run in the state so obtained, and the
    suppression value is still [None] when the tick ends. *)
Theorem rollover_reset_clears_suppression (w : world) (s : mstate) :
  has_required_fields (stored_record (alarm_file s)) = true ->
  last_minute_seen s <> Some (minute_key w) ->
  exists d s1,
    stored_record (alarm_file s) = PyDict d
    /\ rollover_reset (minute_key w) s = (s1, inr tt)
    /\ STOPPED_THIS_MINUTE s1 = None
    /\ last_minute_seen s1 = Some (minute_key w)
    /\ RINGING s1 = RINGING s
    /\ alarm_checker cfg w s
       = match trigger cfg w (PyDict d) (strftime_I (w_now w))
                 (strftime_M (w_now w)) (strftime_p (w_now w))
                 (fst (periodic_log w (PyDict d) (displayed_time w) s1)) with
         | (s', inr _) => (add_event (Sleep 10) s', inr tt)
         | (s', inl e) =>
             (add_event (Sleep 20) (add_event (Print (MsgCheckerError e)) s'),
              inr tt)
         end
    /\ suppression_seen w s = None
    /\ STOPPED_THIS_MINUTE (fst (alarm_checker cfg w s)) = None.
Proof.
  intros Hreq Hkey.
  destruct (has_required_fields_inv _ Hreq)
    as (d & vh & vm & va & vt & A & Lh & Th & Lm & Tm & La & Ta & Lt & Tt).
  assert (Ek : opt_str_eqb (last_minute_seen s) (minute_key w) = false).
  { apply negb_true_iff. apply opt_str_eqb_false. exact Hkey. }
  pose proof (rollover_reset_eq (minute_key w) s) as R. rewrite Ek in R.
  eexists d, _. split; [exact A|]. split; [exact R|].
  split; [reflexivity|]. split; [reflexivity|]. split; [reflexivity|].
  assert (C : alarm_checker cfg w s = _)
    by (apply alarm_checker_complete with (d := d);
        [exact A | rewrite <- A; exact Hreq]).
  rewrite R in C. cbn [fst] in C.
  split; [exact C|].
  split; [unfold suppression_seen; rewrite Ek; reflexivity|].
  rewrite C.
  match goal with
  | |- context [trigger cfg w (PyDict d) ?a ?b ?c ?st] =>
      destruct (@trigger_keeps_STOPPED w d vh vm va vt a b c st Lh Lm La Lt Tt)
        as [K _];
      destruct (trigger cfg w (PyDict d) a b c st) as [s' [e|u]]
  end; cbn [fst] in K; proj; rewrite K, periodic_log_dict;
    destruct (12 <? _)%Z; reflexivity.
Qed.

End Suppression.

(** C10, on the state at start-up with no settings file. *)
Lemma incomplete_record_skips_rollover_reset_witness :
  @has_required_fields ascii_runtime (stored_record (alarm_file (initial Missing)))
  = false
  /\ ((forall w,
          let s' := fst (@alarm_checker ascii_runtime Example.os Example.cfg w
                           (initial Missing)) in
          STOPPED_THIS_MINUTE s' = STOPPED_THIS_MINUTE (initial Missing)
          /\ last_minute_seen s' = last_minute_seen (initial Missing)
          /\ starts_playback
               (events_of (@alarm_checker ascii_runtime Example.os Example.cfg w)
                  (initial Missing)) = false)
      /\ (forall w0 ws,
             let s' := @run ascii_runtime Example.os Example.cfg
                         (fst (@stop_playback Example.cfg w0 (initial Missing)))
                         (List.map Tick ws) in
             STOPPED_THIS_MINUTE s' = Some (displayed_time w0)
             /\ last_minute_seen s' = last_minute_seen (initial Missing))).
Proof.
  split; [reflexivity|].
  apply (@incomplete_record_skips_rollover_reset ascii_runtime Example.os
           Example.cfg (initial Missing)).
  reflexivity.
Defined.

(** C3 (as stated) fails: after a stop at 07:05 AM the suppression value
    is set; at 07:06 AM no complete record is stored, and the tick
    leaves the value as it is. *)
Lemma suppression_survives_tick_without_record :
  let stop := Request (Example.world_at 7 5 [] true) (lit "/stop") [] in
  let s := @run ascii_runtime Example.os Example.cfg (initial Missing) [stop] in
  let w := Example.world_at 7 6 [] true in
  @reachable ascii_runtime Example.os Example.cfg s
  /\ STOPPED_THIS_MINUTE s = Some (lit "07:05 AM")
  /\ displayed_time w = lit "07:06 AM"
  /\ STOPPED_THIS_MINUTE
       (fst (@alarm_checker ascii_runtime Example.os Example.cfg w s))
     = Some (lit "07:05 AM").
Proof.
  cbv zeta. split.
  - exists Missing. eexists. reflexivity.
  - repeat split; vm_compute; reflexivity.
Qed.

(** C3, on the state after the alarm 07:05 AM was stopped at 07:05 AM
    while the checker had last seen 07:04. *)
Lemma rollover_reset_clears_suppression_witness :
  let s := set_STOPPED_THIS_MINUTE (Some (lit "07:05 AM"))
             (set_last_minute_seen (Some (lit "07:04"))
                (initial Example.alarm_0705)) in
  let w := Example.world_at 7 6 [] true in
  @has_required_fields ascii_runtime (stored_record (alarm_file s)) = true
  /\ last_minute_seen s <> Some (minute_key w)
  /\ STOPPED_THIS_MINUTE
       (fst (@alarm_checker ascii_runtime Example.os Example.cfg w s)) = None.
Proof.
  cbv zeta.
  assert (H1 : @has_required_fields ascii_runtime
                 (stored_record
                    (alarm_file
                       (set_STOPPED_THIS_MINUTE (Some (lit "07:05 AM"))
                          (set_last_minute_seen (Some (lit "07:04"))
                             (initial Example.alarm_0705))))) = true)
    by (vm_compute; reflexivity).
  assert (H2 : last_minute_seen
                 (set_STOPPED_THIS_MINUTE (Some (lit "07:05 AM"))
                    (set_last_minute_seen (Some (lit "07:04"))
                       (initial Example.alarm_0705)))
               <> Some (minute_key (Example.world_at 7 6 [] true)))
    by (vm_compute; discriminate).
  split; [exact H1|]. split; [exact H2|].
  destruct (@rollover_reset_clears_suppression ascii_runtime Example.os
              Example.cfg _ _ H1 H2)
    as (d & s1 & _ & _ & _ & _ & _ & _ & _ & K).
  exact K.
Defined.

(** C2, at the input on which the code departs from it.  The alarm
    07:05 AM is stored; the checker ticks at 07:04 AM, the user stops
    the alarm at 07:05 AM before the checker has ticked in that minute,
    and the next tick, still at 07:05 AM, starts playback: its
    minute-rollover reset clears the suppression value that
    [stop_playback] has just recorded. *)
Theorem stop_then_tick_restarts :
  let present := [lit "/app/music/a.mp3"] in
  let w704 := Example.world_at 7 4 present true in
  let w705 := Example.world_at 7 5 present true in
  let s := @run ascii_runtime Example.os Example.cfg
             (initial Example.alarm_0705)
             [Tick w704; Request w705 (lit "/stop") []] in
  last_minute_seen s = Some (lit "07:04")
  /\ STOPPED_THIS_MINUTE s = Some (displayed_time w705)
  /\ displayed_time w705 = lit "07:05 AM"
  /\ @time_matches ascii_runtime w705 (stored_record (alarm_file s)) = true
  /\ starts_playback
       (events_of (@alarm_checker ascii_runtime Example.os Example.cfg w705) s)
     = true.
Proof. cbv zeta. repeat split; vm_compute; reflexivity. Qed.

(** ** Lock discipline *)

Section LockDiscipline.
Context {RT : PyRuntime} {OS : OsPath}.
Variable cfg : config.

(** C9, where the code departs from it.  [stop_playback] reads
    [STOPPED_THIS_MINUTE] for its log line after it has released the
    lock: in every state its events end with that release, the read and
    the print, so they do not keep the lock discipline. *)
Theorem stop_playback_reads_outside_lock (w : world) (s : mstate) :
  (exists before,
      events_of (stop_playback cfg w) s
      = before ++ [Release; Read VarSTOPPED_THIS_MINUTE;
                   Print (MsgAlarmStopped (Some (displayed_time w)))])
  /\ lock_disciplined false (events_of (stop_playback cfg w) s) = false.
Proof.
  unfold events_of. rewrite stop_playback_eq. cbv zeta.
  change (RINGING (clear_events s)) with (RINGING s).
  destruct (RINGING s && AUDIO_OK cfg && w_stop_ok w); split;
    try reflexivity.
  - exists [Acquire; Read VarRINGING; MusicStop; Write VarRINGING;
            Write VarSTOPPED_THIS_MINUTE]. reflexivity.
  - exists [Acquire; Read VarRINGING; Write VarRINGING;
            Write VarSTOPPED_THIS_MINUTE]. reflexivity.
Qed.

End LockDiscipline.

(** ** Settings store *)

Section SettingsStore.
Context {RT : PyRuntime} {OS : OsPath}.

(** C7. Whatever the state of the settings file, [load_alarm] returns a
    value and raises nothing, and leaves the state as it is; the value
    is the empty record when the file is missing, cannot be opened, is
    not valid UTF-8 or is not valid JSON, and the parsed value
    otherwise. *)
Theorem load_alarm_fails_soft (s : mstate) :
  exists v,
    load_alarm s = (s, inr v)
    /\ match alarm_file s with
       | Missing => v = PyDict []
       | Unopenable => v = PyDict []
       | Content bs =>
           match Utf8.decode bs with
           | None => v = PyDict []
           | Some text =>
               match Json.loads (Utf8.read_newlines text) with
               | None => v = PyDict []
               | Some x => v = x
               end
           end
       end.
Proof.
  exists (stored_record (alarm_file s)). split; [apply load_alarm_eq|].
  unfold stored_record.
  destruct (alarm_file s) as [| |bs]; try reflexivity.
  destruct (Utf8.decode bs) as [text|]; [|reflexivity].
  destruct (Json.loads (Utf8.read_newlines text)); reflexivity.
Qed.

End SettingsStore.

(** ** Ringtone resolver *)

Section Resolver.
Context {RT : PyRuntime} {OS : OsPath}.
Variable cfg : config.

Lemma find_none_iff {A} (f : A -> bool) (l : list A) :
  find f l = None <-> forall x, In x l -> f x = false.
Proof.
  induction l as [|a l IH]; simpl.
  - split; [intros _ x []|reflexivity].
  - destruct (f a) eqn:E.
    + split; [discriminate|]. intros H. specialize (H a (or_introl eq_refl)).
      congruence.
    + rewrite IH. split.
      * intros H x [<-|Hx]; [exact E|now apply H].
      * intros H x Hx. apply H. now right.
Qed.

(** C5 (as amended). The candidates are, in this order: the value
    itself when it starts with the music directory, the value itself
    when it is absolute, the value joined to the music directory, the
    value joined to the script directory.  For a non-empty value
    [resolve_tone_path] returns [os.path.abspath] of the first
    candidate that exists; it returns [None] exactly when the value is
    empty or no candidate exists; for a value that is neither absolute
    nor prefixed by the music directory and that exists in the music
    directory, it returns [abspath] of the music-directory-joined
    path. *)
Theorem resolve_tone_path_first_existing (w : world) (tone_path : pystr) :
  candidates cfg tone_path
  = (if startswith tone_path (MUSIC_DIR cfg) then [tone_path] else [])
    ++ (if isabs tone_path then [tone_path] else [])
    ++ [path_join (MUSIC_DIR cfg) tone_path;
        path_join (SCRIPT_DIR cfg) tone_path]
  /\ resolve_tone_path cfg w tone_path
     = match tone_path with
       | [] => None
       | _ => option_map abspath (find (w_exists w) (candidates cfg tone_path))
       end
  /\ (resolve_tone_path cfg w tone_path = None <->
      tone_path = []
      \/ forall c, In c (candidates cfg tone_path) -> w_exists w c = false)
  /\ (tone_path <> [] ->
      startswith tone_path (MUSIC_DIR cfg) = false ->
      isabs tone_path = false ->
      w_exists w (path_join (MUSIC_DIR cfg) tone_path) = true ->
      resolve_tone_path cfg w tone_path
      = Some (abspath (path_join (MUSIC_DIR cfg) tone_path))).
Proof.
  assert (C : candidates cfg tone_path
              = (if startswith tone_path (MUSIC_DIR cfg) then [tone_path] else [])
                ++ (if isabs tone_path then [tone_path] else [])
                ++ [path_join (MUSIC_DIR cfg) tone_path;
                    path_join (SCRIPT_DIR cfg) tone_path]).
  { unfold candidates.
    destruct (startswith tone_path (MUSIC_DIR cfg)), (isabs tone_path);
      reflexivity. }
  assert (R : resolve_tone_path cfg w tone_path
              = match tone_path with
                | [] => None
                | _ => option_map abspath
                         (find (w_exists w) (candidates cfg tone_path))
                end).
  { unfold resolve_tone_path. destruct tone_path as [|c t]; [reflexivity|].
    simpl str_truthy. cbn [negb].
    destruct (find (w_exists w) (candidates cfg (c :: t))); reflexivity. }
  split; [exact C|]. split; [exact R|]. split.
  - rewrite R. destruct tone_path as [|c t].
    + split; [now left|reflexivity].
    + rewrite <- find_none_iff.
      destruct (find (w_exists w) (candidates cfg (c :: t))); simpl; split;
        try discriminate; try reflexivity.
      * intros [H|H]; discriminate H.
      * intros _. now right.
  - intros Hne Hm Ha He. rewrite R, C, Hm, Ha. simpl. rewrite He.
    destruct tone_path; [contradiction|reflexivity].
Qed.

End Resolver.

(** C5 (as stated) fails: for the value [./a.mp3], with [a.mp3] in the
    music directory, the first existing candidate is
    [/app/music/./a.mp3]; the function returns [/app/music/a.mp3],
    which is none of the candidates. *)
Lemma resolved_path_is_not_a_candidate :
  let w := Example.world_at 7 5 [lit "/app/music/a.mp3"] true in
  let tone_path := lit "./a.mp3" in
  find (w_exists w) (@candidates Example.os Example.cfg tone_path)
  = Some (lit "/app/music/./a.mp3")
  /\ @resolve_tone_path Example.os Example.cfg w tone_path
     = Some (lit "/app/music/a.mp3")
  /\ ~ In (lit "/app/music/a.mp3") (@candidates Example.os Example.cfg tone_path).
Proof.
  cbv zeta. split; [vm_compute; reflexivity|].
  split; [vm_compute; reflexivity|].
  vm_compute. intros [H|[H|[]]]; discriminate H.
Qed.

(** ** JSON strings: escaping and scanning *)

Module JsonStringFacts.
Import Json.

Lemma lor_add (a b k : N) :
  (b < 2 ^ k)%N -> N.lor (a * 2 ^ k) b = (a * 2 ^ k + b)%N.
Proof.
  intros H. rewrite <- N.lxor_lor, N.add_nocarry_lxor; try reflexivity.
  all: apply N.bits_inj; intros i; rewrite N.land_spec, N.bits_0;
    destruct (N.lt_ge_cases i k) as [L|L];
    [rewrite N.mul_pow2_bits_low by exact L; reflexivity
    |rewrite <- (N.mod_small b (2 ^ k)) by exact H;
     rewrite N.mod_pow2_bits_high by exact L; apply andb_false_r].
Qed.

Ltac euclid := zify; Z.to_euclidean_division_equations; lia.

Lemma hex_val_hex_char (d : N) : (d < 16)%N -> hex_val (hex_char d) = Some d.
Proof.
  intros H. unfold hex_char, hex_val.
  destruct (N.ltb_spec d 10).
  - replace ((48 <=? 48 + d) && (48 + d <=? 57))%N with true.
    + f_equal. lia.
    + symmetry. apply andb_true_iff. split; apply N.leb_le; lia.
  - replace ((48 <=? 87 + d) && (87 + d <=? 57))%N with false.
    + replace ((97 <=? 87 + d) && (87 + d <=? 102))%N with true.
      * f_equal. lia.
      * symmetry. apply andb_true_iff. split; apply N.leb_le; lia.
    + symmetry. apply andb_false_iff. right. apply N.leb_gt. lia.
Qed.

Lemma hex4_u_escape (n : N) :
  (n < 65536)%N ->
  hex4 (hex_char (n / 4096 mod 16)) (hex_char (n / 256 mod 16))
       (hex_char (n / 16 mod 16)) (hex_char (n mod 16)) = Some n.
Proof.
  intros H. unfold hex4.
  rewrite !hex_val_hex_char by (apply N.mod_lt; discriminate).
  f_equal. euclid.
Qed.

(** The two halves of the escape of a character above U+FFFF. *)
Lemma surrogates_of (c : N) :
  (65536 <= c < 1114112)%N ->
  let n := (c - 65536)%N in
  let s1 := N.lor 55296 (N.land (N.shiftr n 10) 1023) in
  let s2 := N.lor 56320 (N.land n 1023) in
  is_high_surrogate s1 = true /\ is_low_surrogate s2 = true
  /\ (s1 < 65536)%N /\ (s2 < 65536)%N
  /\ (65536 + N.lor (N.shiftl (s1 - 55296) 10) (s2 - 56320))%N = c.
Proof.
  intros H n s1 s2.
  assert (Hn : (n < 1048576)%N) by (subst n; lia).
  assert (Hc : (65536 + n)%N = c) by (subst n; lia).
  clearbody n.
  assert (E1 : s1 = (55296 + n / 1024)%N).
  { subst s1. change 1023%N with (N.ones 10).
    rewrite N.land_ones, N.shiftr_div_pow2.
    change (2 ^ 10)%N with 1024%N.
    rewrite N.mod_small by euclid.
    change 55296%N with (54 * 2 ^ 10)%N.
    apply lor_add. change (2 ^ 10)%N with 1024%N. euclid. }
  assert (E2 : s2 = (56320 + n mod 1024)%N).
  { subst s2. change 1023%N with (N.ones 10).
    rewrite N.land_ones. change (2 ^ 10)%N with 1024%N.
    change 56320%N with (55 * 2 ^ 10)%N.
    apply lor_add. change (2 ^ 10)%N with 1024%N. euclid. }
  assert (B1 : (n / 1024 < 1024)%N) by euclid.
  assert (B2 : (n mod 1024 < 1024)%N) by euclid.
  clearbody s1 s2. subst s1 s2.
  unfold is_high_surrogate, is_low_surrogate.
  repeat split.
  - apply andb_true_iff. split; apply N.leb_le; euclid.
  - apply andb_true_iff. split; apply N.leb_le; euclid.
  - euclid.
  - euclid.
  - rewrite (N.add_comm 55296), (N.add_comm 56320), !N.add_sub.
    rewrite N.shiftl_mul_pow2, lor_add by exact B2.
    change (2 ^ 10)%N with 1024%N. euclid.
Qed.

(** The first half is a high surrogate whatever the character. *)
Lemma first_half_high (n : N) :
  let s1 := N.lor 55296 (N.land (N.shiftr n 10) 1023) in
  (s1 < 65536)%N /\ is_low_surrogate s1 = false.
Proof.
  intros s1.
  assert (E1 : s1 = (55296 + (n / 1024) mod 1024)%N).
  { subst s1. change 1023%N with (N.ones 10).
    rewrite N.land_ones, N.shiftr_div_pow2.
    change (2 ^ 10)%N with 1024%N.
    change 55296%N with (54 * 2 ^ 10)%N.
    apply lor_add. change (2 ^ 10)%N with 1024%N. euclid. }
  assert (B : ((n / 1024) mod 1024 < 1024)%N) by euclid.
  clearbody s1. subst s1. split; [euclid|].
  unfold is_low_surrogate. apply andb_false_iff. left. apply N.leb_gt. euclid.
Qed.

(** *** Scanning one escaped character *)

(** One step of [scanstring]. *)
Lemma scanstring_eq (s : pystr) :
  scanstring s
  = match s with
    | [] => None
    | c :: r =>
        if (c =? 34)%N then Some ([], r)
        else if (c =? 92)%N then
          match r with
          | [] => None
          | e :: r1 =>
              if (e =? 117)%N then
                match r1 with
                | a :: b :: c1 :: d :: r2 =>
                    match hex4 a b c1 d with
                    | None => None
                    | Some uni =>
                        if is_high_surrogate uni then
                          match r2 with
                          | e1 :: e2 :: a2 :: b2 :: c2 :: d2 :: r3 =>
                              if (e1 =? 92)%N && (e2 =? 117)%N then
                                match hex4 a2 b2 c2 d2 with
                                | None => None
                                | Some uni2 =>
                                    if is_low_surrogate uni2 then
                                      push (65536 + N.lor (N.shiftl (uni - 55296) 10)
                                                      (uni2 - 56320))%N
                                           (scanstring r3)
                                    else push uni (scanstring r2)
                                end
                              else push uni (scanstring r2)
                          | _ => push uni (scanstring r2)
                          end
                        else push uni (scanstring r2)
                    end
                | _ => None
                end
              else
                match backslash e with
                | Some ch => push ch (scanstring r1)
                | None => None
                end
          end
        else if (c <? 32)%N then None
        else push c (scanstring r)
    end.
Proof. destruct s; reflexivity. Qed.

Lemma scan_quote (r : pystr) : scanstring (34%N :: r) = Some ([], r).
Proof. reflexivity. Qed.

Lemma scan_plain (c : N) (r : pystr) :
  (32 <= c)%N -> c <> 34%N -> c <> 92%N ->
  scanstring (c :: r) = push c (scanstring r).
Proof.
  intros H1 H2 H3. rewrite scanstring_eq.
  apply N.eqb_neq in H2. apply N.eqb_neq in H3. rewrite H2, H3.
  replace (c <? 32)%N with false by (symmetry; apply N.ltb_ge; exact H1).
  reflexivity.
Qed.

Lemma scan_backslash (e ch : N) (r : pystr) :
  e <> 117%N -> backslash e = Some ch ->
  scanstring (92%N :: e :: r) = push ch (scanstring r).
Proof.
  intros H1 H2. rewrite scanstring_eq.
  change (92 =? 34)%N with false. change (92 =? 92)%N with true. cbv iota.
  apply N.eqb_neq in H1. rewrite H1, H2. reflexivity.
Qed.

Lemma scan_u4 (a b c d u : N) (r : pystr) :
  hex4 a b c d = Some u -> is_high_surrogate u = false ->
  scanstring (92%N :: 117%N :: a :: b :: c :: d :: r) = push u (scanstring r).
Proof.
  intros H1 H2. rewrite scanstring_eq.
  change (92 =? 34)%N with false. change (92 =? 92)%N with true.
  change (117 =? 117)%N with true. cbv iota.
  rewrite H1, H2. reflexivity.
Qed.

Lemma scan_u4_high (a b c d u : N) (r : pystr) :
  hex4 a b c d = Some u ->
  (is_high_surrogate u = true ->
   forall a2 b2 c2 d2 r3,
     r = 92%N :: 117%N :: a2 :: b2 :: c2 :: d2 :: r3 ->
     exists u2, hex4 a2 b2 c2 d2 = Some u2 /\ is_low_surrogate u2 = false) ->
  scanstring (92%N :: 117%N :: a :: b :: c :: d :: r) = push u (scanstring r).
Proof.
  intros H1 H2.
  destruct (is_high_surrogate u) eqn:Hh; [|now apply scan_u4].
  specialize (H2 eq_refl).
  rewrite scanstring_eq.
  change (92 =? 34)%N with false. change (92 =? 92)%N with true.
  change (117 =? 117)%N with true. cbv iota.
  rewrite H1, Hh.
  destruct r as [|e1 [|e2 [|a2 [|b2 [|c2 [|d2 r3]]]]]]; try reflexivity.
  destruct (N.eqb_spec e1 92); [|reflexivity].
  destruct (N.eqb_spec e2 117); [|reflexivity].
  subst e1 e2. cbn [andb].
  destruct (H2 a2 b2 c2 d2 r3 eq_refl) as (u2 & E & L).
  rewrite E, L. reflexivity.
Qed.

Lemma scan_pair (a b c d u a2 b2 c2 d2 u2 : N) (r : pystr) :
  hex4 a b c d = Some u -> is_high_surrogate u = true ->
  hex4 a2 b2 c2 d2 = Some u2 -> is_low_surrogate u2 = true ->
  scanstring (92%N :: 117%N :: a :: b :: c :: d
              :: 92%N :: 117%N :: a2 :: b2 :: c2 :: d2 :: r)
  = push (65536 + N.lor (N.shiftl (u - 55296) 10) (u2 - 56320))%N (scanstring r).
Proof.
  intros H1 H2 H3 H4. rewrite scanstring_eq.
  change (92 =? 34)%N with false. change (92 =? 92)%N with true.
  change (117 =? 117)%N with true. cbv iota.
  rewrite H1, H2. cbn [andb]. rewrite H3, H4. reflexivity.
Qed.

(** *** The four shapes of an escape *)

Lemma escape_char_cases (c : N) :
  ((32 <= c)%N /\ c <> 34%N /\ c <> 92%N /\ escape_char c = [c])
  \/ (exists e, e <> 117%N /\ backslash e = Some c /\ escape_char c = [92%N; e])
  \/ ((c < 65536)%N /\ escape_char c = u_escape c)
  \/ ((65536 <= c)%N
      /\ escape_char c
         = u_escape (N.lor 55296 (N.land (N.shiftr (c - 65536) 10) 1023))
           ++ u_escape (N.lor 56320 (N.land (c - 65536) 1023))).
Proof.
  unfold escape_char.
  destruct (N.eqb_spec c 92) as [->|N92].
  { right; left. exists 92%N. repeat split; discriminate. }
  destruct (N.eqb_spec c 34) as [->|N34].
  { right; left. exists 34%N. repeat split; discriminate. }
  destruct (N.leb_spec 32 c) as [L32|L32]; cbn [andb].
  { destruct (N.leb_spec c 126) as [L126|L126].
    - left. repeat split; assumption.
    - destruct (N.eqb_spec c 8); [lia|]. destruct (N.eqb_spec c 12); [lia|].
      destruct (N.eqb_spec c 10); [lia|]. destruct (N.eqb_spec c 13); [lia|].
      destruct (N.eqb_spec c 9); [lia|].
      destruct (N.ltb_spec c 65536).
      + right; right; left. split; [assumption|reflexivity].
      + right; right; right. split; [assumption|reflexivity]. }
  destruct (N.eqb_spec c 8) as [->|].
  { right; left. exists 98%N. repeat split; discriminate. }
  destruct (N.eqb_spec c 12) as [->|].
  { right; left. exists 102%N. repeat split; discriminate. }
  destruct (N.eqb_spec c 10) as [->|].
  { right; left. exists 110%N. repeat split; discriminate. }
  destruct (N.eqb_spec c 13) as [->|].
  { right; left. exists 114%N. repeat split; discriminate. }
  destruct (N.eqb_spec c 9) as [->|].
  { right; left. exists 116%N. repeat split; discriminate. }
  destruct (N.ltb_spec c 65536); [|lia].
  right; right; left. split; [assumption|reflexivity].
Qed.

(** What follows a high surrogate cannot be read as a low one. *)
Lemma escaped_head (s : pystr) (tail : pystr) (a2 b2 c2 d2 : N) (r3 : pystr) :
  match s with
  | b :: _ => is_low_surrogate b = false
  | [] => True
  end ->
  flat_map escape_char s ++ 34%N :: tail
  = 92%N :: 117%N :: a2 :: b2 :: c2 :: d2 :: r3 ->
  exists u2, hex4 a2 b2 c2 d2 = Some u2 /\ is_low_surrogate u2 = false.
Proof.
  destruct s as [|b s']; [discriminate|].
  intros Hb E. cbn [flat_map] in E. rewrite <- app_assoc in E.
  destruct (escape_char_cases b)
    as [(_ & _ & N92 & Eb)|[(e & Ne & _ & Eb)|[(Lb & Eb)|(Lb & Eb)]]];
    rewrite Eb in E.
  - injection E as E _. contradiction.
  - injection E as E _. contradiction.
  - unfold u_escape in E. injection E as <- <- <- <- _.
    exists b. split; [now apply hex4_u_escape|exact Hb].
  - destruct (first_half_high (b - 65536)) as [B L].
    revert E B L.
    generalize (u_escape (N.lor 56320 (N.land (b - 65536) 1023))).
    generalize (N.lor 55296 (N.land (N.shiftr (b - 65536) 10) 1023)).
    intros s1 rest E B L.
    unfold u_escape in E. injection E as <- <- <- <- _.
    exists s1. split; [now apply hex4_u_escape|exact L].
Qed.

(** Scanning the escaped form of a string gives the string back. *)
Lemma scanstring_escaped (s tail : pystr) :
  valid_text s = true ->
  scanstring (flat_map escape_char s ++ 34%N :: tail) = Some (s, tail).
Proof.
  induction s as [|c s IH]; intros V.
  - reflexivity.
  - unfold valid_text in V. cbn [forallb no_surrogate_pair] in V.
    apply andb_true_iff in V as [V1 V2].
    apply andb_true_iff in V1 as [Vc V1].
    apply andb_true_iff in V2 as [Vp V2].
    apply N.ltb_lt in Vc.
    assert (IH' : scanstring (flat_map escape_char s ++ 34%N :: tail)
                  = Some (s, tail)).
    { apply IH. unfold valid_text. now rewrite V1, V2. }
    cbn [flat_map]. rewrite <- app_assoc.
    destruct (escape_char_cases c)
      as [(L32 & N34 & N92 & Ec)|[(e & Ne & Be & Ec)|[(Lc & Ec)|(Lc & Ec)]]];
      rewrite Ec.
    + cbn [app]. rewrite scan_plain by assumption. rewrite IH'. reflexivity.
    + cbn [app]. rewrite scan_backslash with (ch := c) by assumption.
      rewrite IH'. reflexivity.
    + unfold u_escape. cbn [app].
      rewrite scan_u4_high with (u := c).
      * rewrite IH'. reflexivity.
      * now apply hex4_u_escape.
      * intros Hh a2 b2 c2 d2 r3 E.
        apply escaped_head with (s := s) (tail := tail) (r3 := r3); [|exact E].
        destruct s as [|b s']; [exact I|].
        rewrite Hh in Vp. cbn [andb] in Vp.
        now apply negb_true_iff in Vp.
    + destruct (surrogates_of (c := c)) as (Hh & Hl & B1 & B2 & Ecomb); [lia|].
      unfold u_escape. cbn [app].
      rewrite scan_pair with (u := N.lor 55296 (N.land (N.shiftr (c - 65536) 10) 1023))
                             (u2 := N.lor 56320 (N.land (c - 65536) 1023));
        try assumption; try (now apply hex4_u_escape).
      rewrite Ecomb, IH'. reflexivity.
Qed.

End JsonStringFacts.

(** ** JSON objects of strings: writing and reading back *)

Module JsonObjectFacts.
Import Json JsonStringFacts.

(** One step of the decoder on the characters that matter here. *)
Lemma object_items_eq (f : nat) (s : pystr) :
  object_items (S f) s
  = match scanstring s with
    | None => None
    | Some (key, r) =>
        match skip_ws r with
        | 58%N :: r1 =>
            match scan_once f (skip_ws r1) with
            | None => None
            | Some (v, r2) =>
                match skip_ws r2 with
                | 125%N :: tl => Some ([(key, v)], tl)
                | 44%N :: r3 =>
                    match skip_ws r3 with
                    | 34%N :: r4 =>
                        match object_items f r4 with
                        | Some (ps, tl') => Some ((key, v) :: ps, tl')
                        | None => None
                        end
                    | _ => None
                    end
                | _ => None
                end
            end
        | _ => None
        end
    end.
Proof. reflexivity. Qed.

Lemma scan_once_string (f : nat) (r : pystr) :
  scan_once (S f) (34%N :: r)
  = match scanstring r with
    | Some (str, tl) => Some (PyStr str, tl)
    | None => None
    end.
Proof. reflexivity. Qed.

Lemma scan_once_object (f : nat) (r : pystr) :
  scan_once (S f) (123%N :: r)
  = match skip_ws r with
    | 125%N :: tl => Some (PyDict [], tl)
    | 34%N :: tl =>
        match object_items f tl with
        | Some (pairs, tl') => Some (PyDict (Dict.of_pairs pairs), tl')
        | None => None
        end
    | _ => None
    end.
Proof. reflexivity. Qed.

(** The text of one [key: value] item. *)
Lemma encode_basestring_ascii_eq (s : pystr) :
  encode_basestring_ascii s = 34%N :: flat_map escape_char s ++ [34%N].
Proof. reflexivity. Qed.

Lemma join_cons (sep x : pystr) (l : list pystr) :
  join sep (x :: l) = x ++ flat_map (fun y => sep ++ y) l.
Proof.
  revert x. induction l as [|y l IH]; intros x.
  - simpl. now rewrite app_nil_r.
  - change (join sep (x :: y :: l)) with (x ++ sep ++ join sep (y :: l)).
    rewrite IH. simpl. now rewrite <- app_assoc.
Qed.

Lemma item_body_app (k v rest : pystr) :
  item_body (k, v) ++ rest
  = flat_map escape_char k
    ++ 34%N :: 58%N :: 32%N :: 34%N :: flat_map escape_char v ++ 34%N :: rest.
Proof.
  unfold item_body. cbn [fst snd].
  rewrite <- app_assoc. cbn [app]. rewrite <- app_assoc. reflexivity.
Qed.

Lemma more_items_cons (kv : pystr * pystr) (pairs : list (pystr * pystr))
      (rest : pystr) :
  more_items (kv :: pairs) ++ rest
  = 44%N :: 10%N :: 32%N :: 32%N :: 34%N
    :: item_body kv ++ more_items pairs ++ rest.
Proof.
  unfold more_items. cbn [flat_map app]. rewrite <- app_assoc. reflexivity.
Qed.

(** Reading the items of an object written by [json.dump]: the text
    starts just after the opening quote of the first key. *)
Lemma object_items_written (pairs : list (pystr * pystr)) :
  forall (k v : pystr) (fuel : nat) (tail : pystr),
    valid_text k = true -> valid_text v = true ->
    Forall (fun kv => valid_text (fst kv) = true /\ valid_text (snd kv) = true)
           pairs ->
    List.length pairs + 2 <= fuel ->
    object_items fuel
      (item_body (k, v) ++ more_items pairs ++ 10%N :: 125%N :: tail)
    = Some ((k, PyStr v) :: List.map (fun kv => (fst kv, PyStr (snd kv))) pairs,
            tail).
Proof.
  induction pairs as [|[k' v'] pairs IH]; intros k v fuel tail Vk Vv Vp Hf.
  - destruct fuel as [|[|f]]; [simpl in Hf; lia|simpl in Hf; lia|].
    rewrite item_body_app.
    rewrite object_items_eq, scanstring_escaped by exact Vk.
    cbn [skip_ws is_ws N.eqb Pos.eqb orb].
    rewrite scan_once_string, scanstring_escaped by exact Vv.
    reflexivity.
  - destruct fuel as [|[|f]]; [simpl in Hf; lia|simpl in Hf; lia|].
    rewrite item_body_app.
    rewrite object_items_eq, scanstring_escaped by exact Vk.
    cbn [skip_ws is_ws N.eqb Pos.eqb orb].
    rewrite scan_once_string, scanstring_escaped by exact Vv.
    rewrite more_items_cons.
    cbn [skip_ws is_ws N.eqb Pos.eqb orb].
    inversion Vp as [|? ? [Vk' Vv'] Vp']; subst. cbn [fst snd] in *.
    rewrite IH; [reflexivity|assumption..|simpl in Hf; lia].
Qed.

Section Written.
Context {RT : PyRuntime}.

(** The text of an item, as [iterencode] writes it. *)
Lemma written_item (kv : pystr * pystr) :
  encode_basestring_ascii (fst kv) ++ lit ": " ++ iterencode 1 (PyStr (snd kv))
  = 34%N :: item_body kv.
Proof.
  unfold item_body. cbn [iterencode]. rewrite !encode_basestring_ascii_eq.
  change (lit ": ") with [58%N; 32%N].
  cbn [app]. rewrite <- app_assoc. reflexivity.
Qed.

Lemma join_written (p : pystr * pystr) (ps : list (pystr * pystr)) :
  join (44%N :: newline_indent 1)
    (List.map (fun kv => encode_basestring_ascii (fst kv) ++ lit ": "
                         ++ iterencode 1 (snd kv))
       (List.map (fun kv => (fst kv, PyStr (snd kv))) (p :: ps)))
  = 34%N :: item_body p ++ more_items ps.
Proof.
  revert p. induction ps as [|q ps IH]; intros p.
  - cbn [List.map join fst snd]. rewrite written_item.
    unfold more_items. cbn [flat_map]. now rewrite app_nil_r.
  - cbn [List.map] in *. cbn [fst snd] in *.
    match goal with
    | |- join ?sep (?x :: ?y :: ?l) = _ =>
        change (join sep (x :: y :: l)) with (x ++ sep ++ join sep (y :: l))
    end.
    rewrite IH, written_item.
    change (44%N :: newline_indent 1) with [44%N; 10%N; 32%N; 32%N].
    unfold more_items at 2. cbn [flat_map]. fold (more_items ps).
    cbn [app]. reflexivity.
Qed.

(** The text [json.dump] writes for a non-empty [dict] of strings. *)
Lemma dumps_str_dict (p : pystr * pystr) (ps : list (pystr * pystr)) :
  dumps (str_dict (p :: ps))
  = 123%N :: 10%N :: 32%N :: 32%N :: 34%N
    :: item_body p ++ more_items ps ++ [10%N; 125%N].
Proof.
  unfold dumps, str_dict.
  change (iterencode 0 (PyDict (List.map (fun kv => (fst kv, PyStr (snd kv))) (p :: ps))))
    with (lit "{" ++ newline_indent 1
          ++ join (44%N :: newline_indent 1)
               (List.map (fun kv => encode_basestring_ascii (fst kv) ++ lit ": "
                                    ++ iterencode 1 (snd kv))
                  (List.map (fun kv => (fst kv, PyStr (snd kv))) (p :: ps)))
          ++ newline_indent 0 ++ lit "}").
  rewrite join_written.
  change (lit "{") with [123%N]. change (lit "}") with [125%N].
  change (newline_indent 1) with [10%N; 32%N; 32%N].
  change (newline_indent 0) with [10%N].
  cbn [app]. rewrite <- app_assoc. reflexivity.
Qed.

End Written.

(** [dict(pairs)] keeps a list of pairs with distinct keys as it is. *)
Lemma set_absent (d : Dict.t) (k : pystr) (v : pyval) :
  ~ In k (List.map fst d) -> Dict.set d k v = d ++ [(k, v)].
Proof.
  induction d as [|[k' v'] d IH]; intros H; [reflexivity|].
  simpl in *. destruct (str_eqb k' k) eqn:E.
  - apply str_eqb_eq in E. exfalso. apply H. now left.
  - rewrite IH; [reflexivity|]. intros Hin. apply H. now right.
Qed.

Lemma of_pairs_from (l acc : Dict.t) :
  NoDup (List.map fst (acc ++ l)) ->
  fold_left (fun d kv => Dict.set d (fst kv) (snd kv)) l acc = acc ++ l.
Proof.
  revert acc. induction l as [|[k v] l IH]; intros acc H.
  - simpl. now rewrite app_nil_r.
  - simpl. rewrite set_absent.
    + rewrite IH; rewrite <- app_assoc; [reflexivity|exact H].
    + rewrite map_app in H. simpl in H.
      apply NoDup_remove_2 in H. intros Hin. apply H.
      apply in_or_app. now left.
Qed.

Lemma of_pairs_nodup (l : Dict.t) :
  NoDup (List.map fst l) -> Dict.of_pairs l = l.
Proof. intros H. unfold Dict.of_pairs. now rewrite of_pairs_from. Qed.

Lemma length_more_items (ps : list (pystr * pystr)) :
  List.length ps <= List.length (more_items ps).
Proof.
  induction ps as [|p ps IH]; [reflexivity|].
  unfold more_items in *. cbn [flat_map]. rewrite length_app. simpl. lia.
Qed.

Section RoundTrip.
Context {RT : PyRuntime}.

(** Reading back what [json.dump] wrote for a [dict] of strings gives
    the [dict]. *)
Lemma loads_dumps_str_dict (pairs : list (pystr * pystr)) :
  NoDup (List.map fst pairs) ->
  Forall (fun kv => valid_text (fst kv) = true /\ valid_text (snd kv) = true)
         pairs ->
  loads (dumps (str_dict pairs)) = Some (str_dict pairs).
Proof.
  intros Hnd Hv. destruct pairs as [|[k v] ps]; [reflexivity|].
  rewrite dumps_str_dict. unfold loads.
  cbn [startswith N.eqb Pos.eqb andb].
  cbn [skip_ws is_ws N.eqb Pos.eqb orb].
  match goal with
  | |- context [scan_once ?n _] =>
      destruct n as [|f] eqn:Ef; [simpl in Ef; lia|]
  end.
  rewrite scan_once_object.
  cbn [skip_ws is_ws N.eqb Pos.eqb orb].
  inversion Hv as [|? ? [Vk Vv] Vp]; subst. cbn [fst snd] in *.
  replace (more_items ps ++ [10%N; 125%N])
    with (more_items ps ++ 10%N :: 125%N :: []) by reflexivity.
  rewrite object_items_written; try assumption.
  - rewrite of_pairs_nodup.
    + reflexivity.
    + cbn [List.map fst]. rewrite map_map. cbn [fst]. exact Hnd.
  - pose proof (length_more_items ps) as L.
    cbn [List.length] in Ef. rewrite !length_app in Ef. lia.
Qed.

End RoundTrip.

End JsonObjectFacts.

(** ** The settings file: text, bytes and line ends *)

Module FileFacts.
Import Json JsonStringFacts JsonObjectFacts.

Lemma forallb_flat_map {A B} (P : B -> bool) (f : A -> list B) (l : list A) :
  (forall x, forallb P (f x) = true) -> forallb P (flat_map f l) = true.
Proof.
  intros H. induction l as [|x l IH]; [reflexivity|].
  simpl. rewrite forallb_app, H, IH. reflexivity.
Qed.

Lemma hex_char_json (d : N) : (d < 16)%N -> json_char (hex_char d) = true.
Proof.
  intros H. unfold json_char, hex_char.
  apply orb_true_iff. right. apply andb_true_iff.
  destruct (N.ltb_spec d 10); split; apply N.leb_le; lia.
Qed.

Lemma u_escape_json (n : N) : forallb json_char (u_escape n) = true.
Proof.
  unfold u_escape. cbn [forallb].
  rewrite !hex_char_json by (apply N.mod_lt; discriminate). reflexivity.
Qed.

Lemma escape_char_json (c : N) : forallb json_char (escape_char c) = true.
Proof.
  unfold escape_char.
  repeat match goal with
         | |- context [if ?b then _ else _] => destruct b eqn:?
         end; try reflexivity.
  - cbn [forallb]. rewrite andb_true_r. unfold json_char.
    apply orb_true_iff. now right.
  - apply u_escape_json.
  - rewrite forallb_app, !u_escape_json. reflexivity.
Qed.

Lemma item_body_json (kv : pystr * pystr) : forallb json_char (item_body kv) = true.
Proof.
  unfold item_body. rewrite forallb_app. cbn [forallb].
  rewrite forallb_app.
  rewrite !forallb_flat_map by apply escape_char_json. reflexivity.
Qed.

Lemma more_items_json (ps : list (pystr * pystr)) :
  forallb json_char (more_items ps) = true.
Proof.
  unfold more_items. apply forallb_flat_map. intros kv.
  cbn [forallb]. rewrite item_body_json. reflexivity.
Qed.

Section WrittenText.
Context {RT : PyRuntime}.

(** [json.dump] writes a [dict] of strings with line feeds and
    printable ASCII characters only. *)
Lemma dumps_str_dict_json (pairs : list (pystr * pystr)) :
  forallb json_char (dumps (str_dict pairs)) = true.
Proof.
  destruct pairs as [|p ps]; [reflexivity|].
  rewrite dumps_str_dict. cbn [forallb].
  rewrite !forallb_app, item_body_json, more_items_json. reflexivity.
Qed.

End WrittenText.

Lemma json_char_ascii (c : N) : json_char c = true -> (c <? 128)%N = true.
Proof.
  unfold json_char. intros H. apply N.ltb_lt.
  apply orb_true_iff in H as [H|H].
  - apply N.eqb_eq in H. lia.
  - apply andb_true_iff in H as [_ H]. apply N.leb_le in H. lia.
Qed.

Lemma json_char_not_cr (c : N) : json_char c = true -> c <> 13%N.
Proof. intros H ->. discriminate H. Qed.

Lemma encode_ascii (s : pystr) :
  ascii_text s = true -> Utf8.encode s = Some s.
Proof.
  induction s as [|c s IH]; intros H; [reflexivity|].
  unfold ascii_text in H. cbn [forallb] in H.
  apply andb_true_iff in H as [Hc Hs].
  cbn [Utf8.encode]. unfold Utf8.encode_char. rewrite Hc, (IH Hs). reflexivity.
Qed.

Lemma decode_ascii (s : pystr) :
  ascii_text s = true -> Utf8.decode s = Some s.
Proof.
  induction s as [|c s IH]; intros H; [reflexivity|].
  unfold ascii_text in H. cbn [forallb] in H.
  apply andb_true_iff in H as [Hc Hs].
  cbn [Utf8.decode]. rewrite Hc, (IH Hs). reflexivity.
Qed.

Lemma write_newlines_ascii (nl : newline) (s : pystr) :
  ascii_text s = true -> ascii_text (Utf8.write_newlines nl s) = true.
Proof.
  intros H. unfold ascii_text, Utf8.write_newlines in *.
  rewrite forallb_forall in H. apply forallb_forall. intros x Hx.
  apply in_flat_map in Hx as (c & Hc & Hx).
  destruct (c =? 10)%N.
  - destruct nl; simpl in Hx; intuition (subst; reflexivity).
  - simpl in Hx. destruct Hx as [<-|[]]. now apply H.
Qed.

(** Reading gives back the text that was written, whatever the line
    separator of the platform, when the text holds no carriage
    return. *)
Lemma read_write_newlines (nl : newline) (s : pystr) :
  (forall c, In c s -> c <> 13%N) ->
  Utf8.read_newlines (Utf8.write_newlines nl s) = s.
Proof.
  induction s as [|c s IH]; intros H; [reflexivity|].
  assert (IH' : Utf8.read_newlines (Utf8.write_newlines nl s) = s)
    by (apply IH; intros x Hx; apply H; now right).
  assert (Hc : c <> 13%N) by (apply H; now left).
  change (Utf8.write_newlines nl (c :: s))
    with ((if (c =? 10)%N then newline_text nl else [c])
          ++ Utf8.write_newlines nl s).
  destruct (N.eqb_spec c 10) as [->|Hn].
  - destruct nl; cbn [newline_text app Utf8.read_newlines N.eqb Pos.eqb];
      now rewrite IH'.
  - cbn [app Utf8.read_newlines].
    apply N.eqb_neq in Hc. rewrite Hc, IH'. reflexivity.
Qed.

Lemma ascii_valid (s : pystr) : ascii_text s = true -> valid_text s = true.
Proof.
  intros H. unfold valid_text. apply andb_true_iff. split.
  - unfold ascii_text in H. rewrite forallb_forall in *.
    intros x Hx. specialize (H x Hx). apply N.ltb_lt in H. apply N.ltb_lt. lia.
  - induction s as [|c s IH]; [reflexivity|].
    unfold ascii_text in H. cbn [forallb] in H.
    apply andb_true_iff in H as [Hc Hs].
    cbn [no_surrogate_pair]. rewrite (IH Hs), andb_true_r.
    destruct s; [reflexivity|].
    apply negb_true_iff. apply andb_false_iff. left.
    unfold is_high_surrogate. apply andb_false_iff. left.
    apply N.ltb_lt in Hc. apply N.leb_gt. lia.
Qed.

Lemma ascii_text_app (a b : pystr) :
  ascii_text (a ++ b) = ascii_text a && ascii_text b.
Proof. apply forallb_app. Qed.

Lemma fmt02_ascii_table : forallb fmt02_ascii_ok (seq 0 100) = true.
Proof. vm_compute. reflexivity. Qed.

Lemma fmt02_ascii (z : Z) : (0 <= z < 100)%Z -> ascii_text (fmt02 z) = true.
Proof.
  intros Hz. pose proof fmt02_ascii_table as T.
  rewrite forallb_forall in T. specialize (T (Z.to_nat z)).
  unfold fmt02_ascii_ok in T. rewrite Z2Nat.id in T by lia.
  apply T. apply in_seq. lia.
Qed.

Section Store.
Context {RT : PyRuntime} {OS : OsPath}.

(** A settings file that holds what [json.dump] wrote for a [dict] of
    strings reads back as that [dict]. *)
Lemma stored_str_dict (pairs : list (pystr * pystr)) :
  NoDup (List.map fst pairs) ->
  Forall (fun kv => valid_text (fst kv) = true /\ valid_text (snd kv) = true)
         pairs ->
  Utf8.encode (Utf8.write_newlines linesep (dumps (str_dict pairs)))
  = Some (Utf8.write_newlines linesep (dumps (str_dict pairs)))
  /\ stored_record
       (Content (Utf8.write_newlines linesep (dumps (str_dict pairs))))
     = str_dict pairs.
Proof.
  intros Hnd Hv.
  pose proof (dumps_str_dict_json pairs) as J.
  assert (A : ascii_text (dumps (str_dict pairs)) = true).
  { unfold ascii_text. rewrite forallb_forall in *. intros x Hx.
    apply json_char_ascii. now apply J. }
  assert (A' := write_newlines_ascii linesep _ A).
  split; [now apply encode_ascii|].
  unfold stored_record. rewrite decode_ascii by exact A'.
  rewrite read_write_newlines.
  - now rewrite loads_dumps_str_dict.
  - rewrite forallb_forall in J. intros c Hc. apply json_char_not_cr. now apply J.
Qed.

Lemma encode_written (pairs : list (pystr * pystr)) :
  Utf8.encode (Utf8.write_newlines linesep (dumps (str_dict pairs)))
  = Some (Utf8.write_newlines linesep (dumps (str_dict pairs))).
Proof.
  pose proof (dumps_str_dict_json pairs) as J.
  apply encode_ascii, write_newlines_ascii.
  unfold ascii_text. rewrite forallb_forall in *. intros x Hx.
  apply json_char_ascii. now apply J.
Qed.

(** What [save_alarm_obj] does with a [dict] of strings. *)
Lemma save_alarm_obj_str_dict (w : world) (pairs : list (pystr * pystr))
      (s : mstate) :
  save_alarm_obj w (str_dict pairs) s
  = if w_writable w then
      (set_alarm_file
         (Content (Utf8.write_newlines linesep (dumps (str_dict pairs)))) s,
       inr tt)
    else (s, inl OSError).
Proof.
  unfold save_alarm_obj. destruct (w_writable w); [|reflexivity].
  rewrite encode_written. reflexivity.
Qed.

(** The strings [normalize_time] returns are ASCII text. *)
Lemma normalize_time_ascii (hour_str min_str ampm_str : pystr) :
  let '(H, Mi, AP, time12) := normalize_time hour_str min_str ampm_str in
  ascii_text H = true /\ ascii_text Mi = true /\ ascii_text AP = true
  /\ ascii_text time12 = true.
Proof.
  unfold normalize_time.
  set (h := Z.max 1 (Z.min 12 (int_or 7 hour_str))).
  set (m := Z.max 0 (Z.min 59 (int_or 0 min_str))).
  assert (Hh : ascii_text (fmt02 h) = true) by (apply fmt02_ascii; subst h; lia).
  assert (Hm : ascii_text (fmt02 m) = true) by (apply fmt02_ascii; subst m; lia).
  assert (Ha : ascii_text
                 (if negb (str_eqb (str_upper (str_strip ampm_str)) (lit "PM"))
                  then lit "AM" else lit "PM") = true)
    by (destruct (negb _); reflexivity).
  repeat split; try assumption.
  rewrite !ascii_text_app, Hh, Hm, Ha. reflexivity.
Qed.

End Store.

End FileFacts.

(** ** Saving and loading the alarm *)

Section SaveAndLoad.
Context {RT : PyRuntime} {OS : OsPath}.
Variable cfg : config.

Lemma alarm_data_keys_distinct (H Mi AP time12 tone_hit : pystr) :
  NoDup (List.map fst [(lit "hour", H); (lit "minute", Mi); (lit "ampm", AP);
                       (lit "time12", time12); (lit "ringtone", tone_hit)]).
Proof.
  cbn [List.map fst].
  repeat (constructor; [cbn; intuition discriminate|]). constructor.
Qed.

(** The record of the save path, once written, reads back as it was. *)
Lemma alarm_data_stored (H Mi AP time12 tone_hit : pystr) :
  valid_text H = true -> valid_text Mi = true -> valid_text AP = true ->
  valid_text time12 = true -> valid_text tone_hit = true ->
  stored_record
    (Content (Utf8.write_newlines linesep
                (Json.dumps (alarm_data H Mi AP time12 tone_hit))))
  = alarm_data H Mi AP time12 tone_hit.
Proof.
  intros V1 V2 V3 V4 V5.
  change (alarm_data H Mi AP time12 tone_hit)
    with (str_dict [(lit "hour", H); (lit "minute", Mi); (lit "ampm", AP);
                    (lit "time12", time12); (lit "ringtone", tone_hit)]).
  apply FileFacts.stored_str_dict.
  - apply alarm_data_keys_distinct.
  - repeat (constructor; [cbn [fst snd]; split; [reflexivity|assumption]|]).
    constructor.
Qed.

(** C8. For every record the save path builds (the four strings
    [normalize_time] returns and a ringtone path that is well-formed
    text), when the settings file can be written, [save_alarm_obj]
    returns normally and [load_alarm] then returns that record. *)
Theorem save_then_load_round_trip (w : world) (s : mstate)
        (hour_str min_str ampm_str tone_hit : pystr) :
  valid_text tone_hit = true ->
  w_writable w = true ->
  let '(H, Mi, AP, time12) := normalize_time hour_str min_str ampm_str in
  let data := alarm_data H Mi AP time12 tone_hit in
  exists s1,
    save_alarm_obj w data s = (s1, inr tt)
    /\ load_alarm s1 = (s1, inr data).
Proof.
  intros Vt Hw.
  pose proof (FileFacts.normalize_time_ascii hour_str min_str ampm_str) as A.
  destruct (normalize_time hour_str min_str ampm_str) as [[[H Mi] AP] time12].
  destruct A as (A1 & A2 & A3 & A4). cbv zeta.
  eexists. split.
  - change (alarm_data H Mi AP time12 tone_hit)
      with (str_dict [(lit "hour", H); (lit "minute", Mi); (lit "ampm", AP);
                      (lit "time12", time12); (lit "ringtone", tone_hit)]).
    rewrite FileFacts.save_alarm_obj_str_dict, Hw. reflexivity.
  - rewrite load_alarm_eq. cbn [alarm_file set_alarm_file].
    f_equal. f_equal.
    apply alarm_data_stored; try (apply FileFacts.ascii_valid; assumption).
    exact Vt.
Qed.

(** C6 (as amended). A [/save] request whose ringtone does not resolve
    gets the error page and leaves the state, the settings file
    included, as it is.  A request whose ringtone resolves gets the
    confirmation page when the settings file can be opened for writing:
    the file then holds the JSON text of the normalized record with the
    resolved path, which reads back as that record when the path is
    well-formed text.  When the file cannot be opened for writing the
    handler raises [OSError], returns no page and leaves the state as
    it is. *)
Theorem do_GET_save (w : world) (params : query) (s : mstate) :
  let ringtone := param params (lit "ringtone") [] in
  let shown := if str_truthy ringtone then ringtone else lit "(empty)" in
  let '(H, Mi, AP, time12) :=
    normalize_time (param params (lit "hour") (lit "07"))
                   (param params (lit "minute") (lit "00"))
                   (param params (lit "ampm") (lit "AM")) in
  match resolve_tone_path cfg w ringtone with
  | Some tone_hit =>
      if str_truthy tone_hit then
        let data := alarm_data H Mi AP time12 tone_hit in
        let written :=
          Content (Utf8.write_newlines linesep (Json.dumps data)) in
        if w_writable w then
          do_GET cfg w (lit "/save") params s
          = (set_alarm_file written s,
             inr (SavedPage time12 (basename tone_hit)))
          /\ (valid_text tone_hit = true -> stored_record written = data)
        else do_GET cfg w (lit "/save") params s = (s, inl OSError)
      else do_GET cfg w (lit "/save") params s
           = (s, inr (RingtoneNotFoundPage shown))
  | None => do_GET cfg w (lit "/save") params s
            = (s, inr (RingtoneNotFoundPage shown))
  end.
Proof.
  cbv zeta. unfold do_GET.
  change (str_eqb (lit "/save") (lit "/")) with false.
  change (str_eqb (lit "/save") (lit "/save")) with true. cbv iota.
  pose proof (FileFacts.normalize_time_ascii
                (param params (lit "hour") (lit "07"))
                (param params (lit "minute") (lit "00"))
                (param params (lit "ampm") (lit "AM"))) as A.
  destruct (normalize_time _ _ _) as [[[H Mi] AP] time12].
  destruct A as (A1 & A2 & A3 & A4).
  destruct (resolve_tone_path cfg w (param params (lit "ringtone") []))
    as [tone_hit|]; [|reflexivity].
  destruct (str_truthy tone_hit); [|reflexivity].
  rewrite bind_eq.
  change (PyDict [(lit "hour", PyStr H); (lit "minute", PyStr Mi);
                  (lit "ampm", PyStr AP); (lit "time12", PyStr time12);
                  (lit "ringtone", PyStr tone_hit)])
    with (str_dict [(lit "hour", H); (lit "minute", Mi); (lit "ampm", AP);
                    (lit "time12", time12); (lit "ringtone", tone_hit)]).
  rewrite FileFacts.save_alarm_obj_str_dict.
  destruct (w_writable w); [|reflexivity].
  split; [reflexivity|].
  intros Vt.
  change (str_dict [(lit "hour", H); (lit "minute", Mi); (lit "ampm", AP);
                    (lit "time12", time12); (lit "ringtone", tone_hit)])
    with (alarm_data H Mi AP time12 tone_hit).
  apply alarm_data_stored; try (apply FileFacts.ascii_valid; assumption).
  exact Vt.
Qed.

End SaveAndLoad.

(** C8, for the alarm 07:05 AM with the ringtone [/app/music/a.mp3],
    saved from the state at start-up. *)
Lemma save_then_load_round_trip_witness :
  let w := Example.world_at 7 5 [] true in
  valid_text (lit "/app/music/a.mp3") = true
  /\ w_writable w = true
  /\ exists s1,
       @save_alarm_obj ascii_runtime Example.os w
         (alarm_data (lit "07") (lit "05") (lit "AM") (lit "07:05 AM")
            (lit "/app/music/a.mp3")) (initial Missing) = (s1, inr tt)
       /\ load_alarm s1
          = (s1, inr (alarm_data (lit "07") (lit "05") (lit "AM")
                        (lit "07:05 AM") (lit "/app/music/a.mp3"))).
Proof.
  cbv zeta. split; [reflexivity|]. split; [reflexivity|].
  exact (@save_then_load_round_trip ascii_runtime Example.os
           (Example.world_at 7 5 [] true) (initial Missing)
           (lit "7") (lit "5") (lit "am") (lit "/app/music/a.mp3")
           eq_refl eq_refl).
Defined.

(** C6 (as stated) fails: the ringtone of the request resolves, but the
    settings file cannot be opened for writing; the handler raises,
    returns no page and persists nothing. *)
Lemma save_fails_when_file_not_writable :
  let w := Example.world_at 7 5 [lit "/app/music/a.mp3"] false in
  let params := [(lit "hour", (lit "7", [])); (lit "minute", (lit "5", []));
                 (lit "ampm", (lit "AM", []));
                 (lit "ringtone", (lit "a.mp3", []))] in
  @resolve_tone_path Example.os Example.cfg w (param params (lit "ringtone") [])
  = Some (lit "/app/music/a.mp3")
  /\ @do_GET ascii_runtime Example.os Example.cfg w (lit "/save") params
       (initial Missing)
     = (initial Missing, inl OSError).
Proof. cbv zeta. split; vm_compute; reflexivity. Qed.

(** ** One tick, as a function of the shared state *)

Ltac fin :=
  repeat split; proj;
  solve [reflexivity | assumption | symmetry; assumption
        | match goal with |- context [RINGING ?s] => destruct (RINGING s) end;
          reflexivity].

Section TickState.
Context {RT : PyRuntime} {OS : OsPath}.
Variable cfg : config.

(** What a tick leaves in the state: it never raises and never writes
    the settings file; with a complete record the suppression value and
    the minute key are those of the rollover reset; and [RINGING]
    becomes true exactly when playback is started. *)
Lemma alarm_checker_state (w : world) (s : mstate) :
  let s' := fst (alarm_checker cfg w s) in
  let complete := has_required_fields (stored_record (alarm_file s)) in
  snd (alarm_checker cfg w s) = inr tt
  /\ alarm_file s' = alarm_file s
  /\ STOPPED_THIS_MINUTE s'
     = (if complete then suppression_seen w s else STOPPED_THIS_MINUTE s)
  /\ last_minute_seen s'
     = (if complete then Some (minute_key w) else last_minute_seen s)
  /\ RINGING s'
     = (starts_playback (events_of (alarm_checker cfg w) s) || RINGING s).
Proof.
  cbv zeta. rewrite tick_starts_eq.
  destruct (has_required_fields (stored_record (alarm_file s))) eqn:Hreq.
  - destruct (has_required_fields_inv _ Hreq)
      as (d & vh & vm & va & vt & A & Lh & Th & Lm & Tm & La & Ta & Lt & Tt).
    rewrite alarm_checker_complete with (d := d);
      [|exact A|rewrite <- A; exact Hreq].
    rewrite trigger_dict with (vh := vh) (vm := vm) (va := va) (vt := vt)
      by assumption.
    rewrite rollover_reset_eq, periodic_log_dict, A.
    unfold time_matches, field_is, meridiem_matches, ringtone_playable, field,
      suppression_seen.
    rewrite Lh, Lm, La, Lt.
    change (strftime_I (w_now w) ++ lit ":" ++ strftime_M (w_now w) ++ lit " "
            ++ strftime_p (w_now w)) with (displayed_time w).
    assert (K : forall o, opt_str_eqb o (minute_key w) = true ->
                          o = Some (minute_key w)).
    { intros [x|] E; [|discriminate]. simpl in E. apply str_eqb_eq in E.
      now subst. }
    specialize (K (last_minute_seen s)).
    revert K.
    generalize (displayed_time w) (minute_key w) (strftime_I (w_now w))
      (strftime_M (w_now w)) (strftime_p (w_now w)).
    intros nc key nh nm nap K.
    destruct (opt_str_eqb (last_minute_seen s) key);
      [specialize (K eq_refl)|clear K]; proj;
      destruct (12 <? w_time w - last_log s)%Z; proj;
      (destruct (py_eq_str vh nh); [|fin]);
      (destruct (py_eq_str vm nm); [|fin]);
      (destruct va as [ | | | |a| | ]; try fin);
      (destruct (str_eqb (str_upper a) (str_upper nap)); [|fin]);
      (destruct (RINGING s) eqn:ER; [fin|]);
      cbn [andb negb opt_str_eqb];
      try (destruct (opt_str_eqb (STOPPED_THIS_MINUTE s) nc); [fin|]);
      cbn [andb negb];
      (destruct vt as [ | | | |p| | ]; try fin);
      (destruct (resolve_tone_path cfg w p) as [q|]; [|fin]);
      (destruct (str_truthy q); [|fin]);
      rewrite play_loop_eq;
      (destruct (AUDIO_OK cfg); [|fin]);
      (destruct (w_music_ok w q); fin).
  - rewrite alarm_checker_incomplete by exact Hreq.
    destruct (stored_record (alarm_file s)); repeat split; reflexivity.
Qed.

End TickState.

(** ** Requests other than [/stop] *)

Section Requests.
Context {RT : PyRuntime} {OS : OsPath}.
Variable cfg : config.

Lemma save_alarm_obj_shared (w : world) (obj : pyval) (s : mstate) :
  let s' := fst (save_alarm_obj w obj s) in
  RINGING s' = RINGING s
  /\ STOPPED_THIS_MINUTE s' = STOPPED_THIS_MINUTE s
  /\ last_minute_seen s' = last_minute_seen s
  /\ last_log s' = last_log s
  /\ events s' = events s.
Proof.
  cbv zeta. unfold save_alarm_obj.
  destruct (w_writable w); [|repeat split; reflexivity].
  destruct (Utf8.encode _); repeat split; reflexivity.
Qed.

(** The handler of [/test], step by step. *)
Lemma do_GET_test_eq (w : world) (params : query) (s : mstate) :
  do_GET cfg w (lit "/test") params s
  = match stored_record (alarm_file s) with
    | PyDict d =>
        let tone := match Dict.lookup d (lit "ringtone") with
                    | Some x => x
                    | None => PyStr []
                    end in
        if negb (py_truthy tone) then (s, inr NoRingtonePage)
        else if AUDIO_OK cfg then
          match tone with
          | PyStr p =>
              if w_music_ok w p then
                if w_stop_ok w then
                  (add_event MusicStop
                     (add_event (Sleep 18) (add_event (MusicPlayOnce p) s)),
                   inr TestOkPage)
                else
                  (add_event (Sleep 18) (add_event (MusicPlayOnce p) s),
                   inr (TestFailedPage PygameError))
              else (s, inr (TestFailedPage PygameError))
          | _ => (s, inr (TestFailedPage TypeError))
          end
        else (s, inr AudioNotInitializedPage)
    | _ => (s, inl AttributeError)
    end.
Proof.
  unfold do_GET.
  change (str_eqb (lit "/test") (lit "/")) with false.
  change (str_eqb (lit "/test") (lit "/save")) with false.
  change (str_eqb (lit "/test") (lit "/stop")) with false.
  change (str_eqb (lit "/test") (lit "/test")) with true. cbv iota.
  rewrite bind_eq, load_alarm_eq.
  destruct (stored_record (alarm_file s)) as [ | | | | | |d]; try reflexivity.
  rewrite bind_eq. unfold ret at 1.
  destruct (negb (py_truthy _)); [reflexivity|].
  rewrite try_except_eq.
  destruct (AUDIO_OK cfg); [|reflexivity].
  destruct (match Dict.lookup d (lit "ringtone") with
            | Some x => x
            | None => PyStr []
            end) as [ | | | |p| | ]; try reflexivity.
  destruct (w_music_ok w p); [|reflexivity].
  destruct (w_stop_ok w); reflexivity.
Qed.

(** A request other than [/stop] leaves the playback state and the
    checker's variables as they are. *)
Lemma do_GET_not_stop_shared (w : world) (path : pystr) (params : query)
      (s : mstate) :
  str_eqb path (lit "/stop") = false ->
  let s' := fst (do_GET cfg w path params s) in
  RINGING s' = RINGING s
  /\ STOPPED_THIS_MINUTE s' = STOPPED_THIS_MINUTE s
  /\ last_minute_seen s' = last_minute_seen s
  /\ last_log s' = last_log s.
Proof.
  intros Hp. cbv zeta.
  destruct (str_eqb path (lit "/test")) eqn:Et.
  { apply str_eqb_eq in Et. subst path. rewrite do_GET_test_eq.
    destruct (stored_record (alarm_file s)) as [ | | | | | |d];
      try (repeat split; reflexivity).
    cbv zeta. destruct (negb (py_truthy _)); [repeat split; reflexivity|].
    destruct (AUDIO_OK cfg); [|repeat split; reflexivity].
    destruct (match Dict.lookup d (lit "ringtone") with
              | Some x => x
              | None => PyStr []
              end) as [ | | | |p| | ]; try (repeat split; reflexivity).
    destruct (w_music_ok w p); [|repeat split; reflexivity].
    destruct (w_stop_ok w); repeat split; reflexivity. }
  unfold do_GET. rewrite Hp, Et.
  destruct (str_eqb path (lit "/")); [repeat split; reflexivity|].
  destruct (str_eqb path (lit "/save")); [|repeat split; reflexivity].
  destruct (normalize_time _ _ _) as [[[H Mi] AP] time12].
  destruct (resolve_tone_path cfg w _) as [tone_hit|];
    [|repeat split; reflexivity].
  destruct (str_truthy tone_hit); [|repeat split; reflexivity].
  rewrite bind_eq.
  match goal with
  | |- context [save_alarm_obj w ?o s] =>
      destruct (save_alarm_obj_shared w o s) as (E1 & E2 & E3 & E4 & _);
      destruct (save_alarm_obj w o s) as [s' [e|u]]
  end; cbn [fst] in *; repeat split; assumption.
Qed.

End Requests.

(** ** Executions: suppression and ringing *)

Section Executions.
Context {RT : PyRuntime} {OS : OsPath}.
Variable cfg : config.




Lemma run_app (s : mstate) (l1 l2 : list action) :
  run cfg s (l1 ++ l2) = run cfg (run cfg s l1) l2.
Proof. unfold run. apply fold_left_app. Qed.




(** While [RINGING] is true, actions other than a stop request keep it
    true. *)
Lemma ringing_step (a : action) (s : mstate) :
  RINGING s = true -> not_a_stop a = true -> RINGING (step cfg s a) = true.
Proof.
  intros HR Ha. destruct a as [w|w path params|f].
  - destruct (alarm_checker_state cfg w s) as (_ & _ & _ & _ & E).
    cbn [step]. rewrite E, HR. apply orb_true_r.
  - simpl in Ha. apply negb_true_iff in Ha.
    destruct (@do_GET_not_stop_shared _ _ cfg w path params s Ha) as (E & _).
    cbn [step]. now rewrite E.
  - exact HR.
Qed.

Lemma ringing_run (l : list action) (s : mstate) :
  RINGING s = true -> forallb not_a_stop l = true ->
  RINGING (run cfg s l) = true.
Proof.
  revert s. induction l as [|a l IH]; intros s HR Hl; [exact HR|].
  cbn [forallb] in Hl. apply andb_true_iff in Hl as [Ha Hl].
  apply IH; [now apply ringing_step|exact Hl].
Qed.

(** A tick that starts playback sets [RINGING]; from then on, until a
    stop request, no tick starts playback again, however long the
    stored time keeps matching. *)
Theorem playback_starts_once (w : world) (s : mstate) (l : list action) :
  starts_playback (events_of (alarm_checker cfg w) s) = true ->
  forallb not_a_stop l = true ->
  let s1 := fst (alarm_checker cfg w s) in
  RINGING s1 = true
  /\ RINGING (run cfg s1 l) = true
  /\ forall l1 w' l2,
       l = l1 ++ Tick w' :: l2 ->
       starts_playback (events_of (alarm_checker cfg w') (run cfg s1 l1)) = false.
Proof.
  intros Hs Hl. cbv zeta.
  destruct (alarm_checker_state cfg w s) as (_ & _ & _ & _ & E).
  rewrite Hs in E. cbn [orb] in E.
  split; [exact E|]. split; [now apply ringing_run|].
  intros l1 w' l2 El. subst l.
  rewrite forallb_app in Hl. apply andb_true_iff in Hl as [H1 _].
  rewrite tick_starts_eq, (@ringing_run _ _ E H1).
  cbn [negb]. now rewrite !andb_false_r.
Qed.

(** A tick never raises and never writes the settings file; when the
    stored value is not a JSON object it logs the error and backs off
    for two seconds instead of one. *)
Theorem alarm_checker_never_raises (w : world) (s : mstate) :
  snd (alarm_checker cfg w s) = inr tt
  /\ alarm_file (fst (alarm_checker cfg w s)) = alarm_file s
  /\ (has_required_fields (stored_record (alarm_file s)) = false ->
      events_of (alarm_checker cfg w) s
      = match stored_record (alarm_file s) with
        | PyDict _ => [Sleep 10]
        | _ => [Print (MsgCheckerError AttributeError); Sleep 20]
        end).
Proof.
  destruct (alarm_checker_state cfg w s) as (E1 & E2 & _).
  split; [exact E1|]. split; [exact E2|].
  intros H. unfold events_of.
  rewrite alarm_checker_incomplete by exact H.
  change (alarm_file (clear_events s)) with (alarm_file s).
  destruct (stored_record (alarm_file s)); reflexivity.
Qed.

End Executions.

(** ** Lock discipline of the checker and of playback *)

Section Locking.
Context {RT : PyRuntime} {OS : OsPath}.
Variable cfg : config.

Lemma alarm_checker_locking (w : world) (s : mstate) :
  writes_locked false (events_of (alarm_checker cfg w) s) = true
  /\ lock_disciplined false (events_of (alarm_checker cfg w) s)
     = negb (has_required_fields (stored_record (alarm_file s))
             && (12 <? w_time w - last_log s)%Z).
Proof.
  unfold events_of.
  destruct (has_required_fields (stored_record (alarm_file s))) eqn:Hreq.
  - destruct (has_required_fields_inv _ Hreq)
      as (d & vh & vm & va & vt & A & Lh & Th & Lm & Tm & La & Ta & Lt & Tt).
    rewrite alarm_checker_complete with (d := d);
      [|exact A|rewrite <- A; exact Hreq].
    rewrite trigger_dict with (vh := vh) (vm := vm) (va := va) (vt := vt)
      by assumption.
    rewrite rollover_reset_eq, periodic_log_dict.
    change (last_minute_seen (clear_events s)) with (last_minute_seen s).
    generalize (displayed_time w) (minute_key w) (strftime_I (w_now w))
      (strftime_M (w_now w)) (strftime_p (w_now w)).
    intros nc key nh nm nap.
    generalize (match Dict.lookup d (lit "time12") with
                | Some x => x
                | None => PyNone
                end).
    intros target.
    destruct (opt_str_eqb (last_minute_seen s) key); proj;
      destruct (12 <? w_time w - last_log s)%Z; proj;
      (destruct (py_eq_str vh nh); [|split; reflexivity]);
      (destruct (py_eq_str vm nm); [|split; reflexivity]);
      (destruct va as [ | | | |a| | ]; try (split; reflexivity));
      (destruct (str_eqb (str_upper a) (str_upper nap)); [|split; reflexivity]);
      (destruct (RINGING s); [split; reflexivity|]);
      cbn [andb negb opt_str_eqb];
      try (destruct (opt_str_eqb (STOPPED_THIS_MINUTE s) _);
           [split; reflexivity|]);
      cbn [andb negb];
      (destruct vt as [ | | | |p| | ]; try (split; reflexivity));
      (destruct (resolve_tone_path cfg w p) as [q|]; [|split; reflexivity]);
      (destruct (str_truthy q); [|split; reflexivity]);
      rewrite play_loop_eq;
      (destruct (AUDIO_OK cfg); [|split; reflexivity]);
      (destruct (w_music_ok w q); split; reflexivity).
  - rewrite alarm_checker_incomplete by exact Hreq.
    change (alarm_file (clear_events s)) with (alarm_file s).
    destruct (stored_record (alarm_file s)); split; reflexivity.
Qed.

(** Every write of [RINGING] and of [STOPPED_THIS_MINUTE] made by a
    tick of the checker, by [play_loop] and by [stop_playback] happens
    while the lock is held. *)
Theorem writes_happen_under_lock (w : world) (s : mstate) (path : pystr) :
  writes_locked false (events_of (alarm_checker cfg w) s) = true
  /\ writes_locked false (events_of (play_loop cfg w path) s) = true
  /\ writes_locked false (events_of (stop_playback cfg w) s) = true.
Proof.
  split; [apply alarm_checker_locking|]. split.
  - unfold events_of. rewrite play_loop_eq.
    destruct (AUDIO_OK cfg); [|reflexivity].
    destruct (w_music_ok w path); reflexivity.
  - unfold events_of. rewrite stop_playback_eq. cbv zeta.
    destruct (RINGING (clear_events s) && AUDIO_OK cfg && w_stop_ok w);
      reflexivity.
Qed.

(** The only access a tick makes to the shared state outside the lock
    is the read of [RINGING] for the periodic log line: the events of a
    tick keep the lock discipline exactly when no log line is due, that
    is unless the record is complete and more than twelve seconds have
    passed since the last line. *)
Theorem alarm_checker_unlocked_read_is_the_log (w : world) (s : mstate) :
  lock_disciplined false (events_of (alarm_checker cfg w) s)
  = negb (has_required_fields (stored_record (alarm_file s))
          && (12 <? w_time w - last_log s)%Z).
Proof. apply alarm_checker_locking. Qed.

(** [play_loop] never raises.  Without an audio device it only prints
    and leaves [RINGING] as it is; with one, it starts looped playback
    and sets [RINGING] when the backend accepts the file, and clears
    [RINGING] when the backend fails. *)
Theorem play_loop_outcome (w : world) (path : pystr) (s : mstate) :
  snd (play_loop cfg w path s) = inr tt
  /\ starts_playback (events_of (play_loop cfg w path) s)
     = AUDIO_OK cfg && w_music_ok w path
  /\ RINGING (fst (play_loop cfg w path s))
     = (if AUDIO_OK cfg then w_music_ok w path else RINGING s)
  /\ STOPPED_THIS_MINUTE (fst (play_loop cfg w path s)) = STOPPED_THIS_MINUTE s.
Proof.
  unfold events_of. rewrite !play_loop_eq.
  destruct (AUDIO_OK cfg); [|repeat split; reflexivity].
  destruct (w_music_ok w path); repeat split; reflexivity.
Qed.

(** [stop_playback] never raises, even when the backend fails to stop;
    it asks the backend to stop only when something is ringing and the
    audio device is initialised; it always leaves [RINGING] false and
    the displayed time in [STOPPED_THIS_MINUTE], and touches neither the
    checker's variables nor the settings file.  Stopping twice at the
    same displayed time leaves the same playback state as stopping
    once. *)
Theorem stop_playback_outcome (w w' : world) (s : mstate) :
  let s1 := fst (stop_playback cfg w s) in
  snd (stop_playback cfg w s) = inr tt
  /\ RINGING s1 = false
  /\ STOPPED_THIS_MINUTE s1 = Some (displayed_time w)
  /\ last_minute_seen s1 = last_minute_seen s
  /\ alarm_file s1 = alarm_file s
  /\ existsb (fun e => match e with MusicStop => true | _ => false end)
       (events_of (stop_playback cfg w) s)
     = RINGING s && AUDIO_OK cfg && w_stop_ok w
  /\ (displayed_time w' = displayed_time w ->
      let s2 := fst (stop_playback cfg w' s1) in
      RINGING s2 = RINGING s1
      /\ STOPPED_THIS_MINUTE s2 = STOPPED_THIS_MINUTE s1
      /\ events_of (stop_playback cfg w') s1
         = [Acquire; Read VarRINGING; Write VarRINGING;
            Write VarSTOPPED_THIS_MINUTE; Release;
            Read VarSTOPPED_THIS_MINUTE;
            Print (MsgAlarmStopped (Some (displayed_time w)))]).
Proof.
  cbv zeta.
  destruct (stop_playback_state cfg w s) as (S1 & S2 & S3 & _ & S5).
  split; [rewrite stop_playback_eq; reflexivity|].
  split; [exact S1|]. split; [exact S2|]. split; [exact S3|].
  split; [exact S5|]. split.
  - unfold events_of. rewrite stop_playback_eq. cbv zeta.
    change (RINGING (clear_events s)) with (RINGING s).
    destruct (RINGING s && AUDIO_OK cfg && w_stop_ok w); reflexivity.
  - intros E.
    destruct (stop_playback_state cfg w' (fst (stop_playback cfg w s)))
      as (T1 & T2 & _).
    rewrite T1, T2, S1, S2, E. split; [reflexivity|]. split; [reflexivity|].
    unfold events_of. rewrite (stop_playback_eq cfg w').
    cbv zeta. change (RINGING (clear_events ?x)) with (RINGING x).
    rewrite S1, E. reflexivity.
Qed.

(** The [/test] handler: with no saved ringtone it answers at once;
    it never changes [RINGING], [STOPPED_THIS_MINUTE] or the settings
    file; a failure of the audio backend is caught and reported on the
    page.  But when the settings file holds JSON that is not an object,
    [alarm.get] raises [AttributeError] out of the handler: the soft
    failure of [load_alarm] does not cover it. *)
Theorem do_GET_test_outcome (w : world) (params : query) (s : mstate) :
  let r := do_GET cfg w (lit "/test") params s in
  RINGING (fst r) = RINGING s
  /\ STOPPED_THIS_MINUTE (fst r) = STOPPED_THIS_MINUTE s
  /\ alarm_file (fst r) = alarm_file s
  /\ match stored_record (alarm_file s) with
     | PyDict d =>
         (exists pg, snd r = inr pg)
         /\ (field_set (PyDict d) (lit "ringtone") = false ->
             r = (s, inr NoRingtonePage))
     | _ => r = (s, inl AttributeError)
     end.
Proof.
  cbv zeta. rewrite do_GET_test_eq.
  destruct (stored_record (alarm_file s)) as [ | | | | | |d];
    try (repeat split; reflexivity).
  cbv zeta. unfold field_set, field.
  destruct (Dict.lookup d (lit "ringtone")) as [tone|].
  - destruct (py_truthy tone) eqn:Tt; cbn [negb].
    + destruct (AUDIO_OK cfg);
        [|repeat split; try reflexivity; [eexists; reflexivity|discriminate]].
      destruct tone as [ | | | |p| | ];
        try (repeat split; try reflexivity; [eexists; reflexivity|discriminate]).
      destruct (w_music_ok w p);
        [|repeat split; try reflexivity; [eexists; reflexivity|discriminate]].
      destruct (w_stop_ok w);
        repeat split; try reflexivity; try (eexists; reflexivity);
        discriminate.
    + repeat split; try reflexivity. eexists; reflexivity.
  - cbn [py_truthy str_truthy negb].
    repeat split; try reflexivity. eexists; reflexivity.
Qed.

End Locking.


(** Playback starts once, for the alarm 07:05 AM: the tick at 07:05 AM
    starts it, the two ticks that follow do not. *)
Lemma playback_starts_once_witness :
  let present := [lit "/app/music/a.mp3"] in
  let w := Example.world_at 7 5 present true in
  let s := initial Example.alarm_0705 in
  let l := [Tick w; Tick w] in
  starts_playback
    (events_of (@alarm_checker ascii_runtime Example.os Example.cfg w) s) = true
  /\ forallb not_a_stop l = true
  /\ RINGING (@run ascii_runtime Example.os Example.cfg
                (fst (@alarm_checker ascii_runtime Example.os Example.cfg w s)) l)
     = true.
Proof.
  cbv zeta.
  assert (H : starts_playback
                (events_of
                   (@alarm_checker ascii_runtime Example.os Example.cfg
                      (Example.world_at 7 5 [lit "/app/music/a.mp3"] true))
                   (initial Example.alarm_0705)) = true)
    by (vm_compute; reflexivity).
  split; [exact H|]. split; [reflexivity|].
  apply (@playback_starts_once ascii_runtime Example.os Example.cfg _ _
           [Tick (Example.world_at 7 5 [lit "/app/music/a.mp3"] true);
            Tick (Example.world_at 7 5 [lit "/app/music/a.mp3"] true)] H).
  reflexivity.
Defined.

(** ** Stored time and wall clock *)

Lemma clock_table :
  forallb (fun h => forallb (fun m => clock_agrees h m true && clock_agrees h m false)
                            (seq 0 60)) (seq 1 12) = true.
Proof. vm_compute. reflexivity. Qed.

Lemma clock_of_agrees (h m : Z) (pm : bool) :
  (1 <= h <= 12)%Z -> (0 <= m <= 59)%Z ->
  strftime_I (clock_of h m pm) = fmt02 h
  /\ strftime_M (clock_of h m pm) = fmt02 m
  /\ strftime_p (clock_of h m pm) = (if pm then lit "PM" else lit "AM").
Proof.
  intros Hh Hm. pose proof clock_table as T.
  rewrite forallb_forall in T. specialize (T (Z.to_nat h)).
  assert (I1 : In (Z.to_nat h) (seq 1 12)) by (apply in_seq; lia).
  specialize (T I1). rewrite forallb_forall in T. specialize (T (Z.to_nat m)).
  assert (I2 : In (Z.to_nat m) (seq 0 60)) by (apply in_seq; lia).
  specialize (T I2). apply andb_true_iff in T as [T1 T2].
  assert (K : clock_agrees (Z.to_nat h) (Z.to_nat m) pm = true)
    by (destruct pm; assumption).
  unfold clock_agrees in K. rewrite !Z2Nat.id in K by lia.
  apply andb_true_iff in K as [K K3]. apply andb_true_iff in K as [K1 K2].
  apply str_eqb_eq in K1, K2, K3. repeat split; assumption.
Qed.

(** The minute of the day is read back from the three strings of
    [current_h_m_ampm]. *)
Lemma clock_read_back_table :
  forallb (fun n =>
             let now := N.of_nat n in
             N.eqb (clock_of
                      (Z.of_N (match digits_val (strftime_I now) with
                               | Some v => v | None => 0%N end))
                      (Z.of_N (match digits_val (strftime_M now) with
                               | Some v => v | None => 0%N end))
                      (str_eqb (strftime_p now) (lit "PM")))
                   now)
          (seq 0 1440) = true.
Proof. vm_compute. reflexivity. Qed.

Lemma clock_read_back (now : N) :
  (now < 1440)%N ->
  clock_of (Z.of_N (match digits_val (strftime_I now) with
                    | Some v => v | None => 0%N end))
           (Z.of_N (match digits_val (strftime_M now) with
                    | Some v => v | None => 0%N end))
           (str_eqb (strftime_p now) (lit "PM")) = now.
Proof.
  intros H. pose proof clock_read_back_table as T.
  rewrite forallb_forall in T. specialize (T (N.to_nat now)).
  rewrite N2Nat.id in T. apply N.eqb_eq. apply T. apply in_seq. lia.
Qed.

Section StoredTime.
Context {RT : PyRuntime}.

(** Every time [normalize_time] can return is shown by the wall clock
    during exactly one minute of the day: [current_h_m_ampm] then
    returns the stored hour, minute and meridiem, and the displayed
    time is the stored [time12]. *)
Theorem normalized_time_matches_one_minute (hour_str min_str ampm_str : pystr) :
  let '(H, Mi, AP, time12) := normalize_time hour_str min_str ampm_str in
  exists now,
    (now < 1440)%N
    /\ strftime_I now = H /\ strftime_M now = Mi /\ strftime_p now = AP
    /\ strftime_I_M_p now = time12
    /\ forall now',
         (now' < 1440)%N ->
         strftime_I now' = H -> strftime_M now' = Mi -> strftime_p now' = AP ->
         now' = now.
Proof.
  unfold normalize_time.
  set (h := Z.max 1 (Z.min 12 (int_or 7 hour_str))).
  set (m := Z.max 0 (Z.min 59 (int_or 0 min_str))).
  set (pm := str_eqb (str_upper (str_strip ampm_str)) (lit "PM")).
  assert (Hh : (1 <= h <= 12)%Z) by (subst h; lia).
  assert (Hm : (0 <= m <= 59)%Z) by (subst m; lia).
  destruct (clock_of_agrees pm Hh Hm) as (E1 & E2 & E3).
  assert (E3' : strftime_p (clock_of h m pm)
                = (if negb pm then lit "AM" else lit "PM"))
    by (rewrite E3; destruct pm; reflexivity).
  assert (B : (clock_of h m pm < 1440)%N).
  { unfold clock_of.
    assert (X : (Z.to_N h mod 12 < 12)%N) by (apply N.mod_lt; discriminate).
    revert X. generalize (Z.to_N h mod 12)%N. intros x X.
    destruct pm; lia. }
  exists (clock_of h m pm).
  split; [exact B|]. split; [exact E1|]. split; [exact E2|]. split; [exact E3'|].
  split.
  - unfold strftime_I_M_p. now rewrite E1, E2, E3'.
  - intros now' B' F1 F2 F3.
    rewrite <- (clock_read_back B'), <- (clock_read_back B).
    now rewrite F1, F2, F3, E1, E2, E3'.
Qed.

End StoredTime.

(** With ASCII built-ins, normalizing what [normalize_time] returned
    returns it again: the values a saved alarm puts in the form are
    saved unchanged when the form is submitted. *)
Lemma renormalizes_table :
  forallb (fun h => forallb (fun m => renormalizes h m true && renormalizes h m false)
                            (seq 0 60)) (seq 1 12) = true.
Proof. vm_compute. reflexivity. Qed.

Theorem normalize_time_idempotent (hour_str min_str ampm_str : pystr) :
  let '(H, Mi, AP, time12) :=
    @normalize_time ascii_runtime hour_str min_str ampm_str in
  @normalize_time ascii_runtime H Mi AP = (H, Mi, AP, time12).
Proof.
  unfold normalize_time at 1.
  set (h := Z.max 1 (Z.min 12 (@int_or ascii_runtime 7 hour_str))).
  set (m := Z.max 0 (Z.min 59 (@int_or ascii_runtime 0 min_str))).
  set (pm := str_eqb (@str_upper ascii_runtime (@str_strip ascii_runtime ampm_str))
                     (lit "PM")).
  assert (Hh : (1 <= h <= 12)%Z) by (subst h; lia).
  assert (Hm : (0 <= m <= 59)%Z) by (subst m; lia).
  pose proof renormalizes_table as T.
  rewrite forallb_forall in T. specialize (T (Z.to_nat h)).
  assert (I1 : In (Z.to_nat h) (seq 1 12)) by (apply in_seq; lia).
  specialize (T I1). rewrite forallb_forall in T. specialize (T (Z.to_nat m)).
  assert (I2 : In (Z.to_nat m) (seq 0 60)) by (apply in_seq; lia).
  specialize (T I2). apply andb_true_iff in T as [T1 T2].
  assert (K : renormalizes (Z.to_nat h) (Z.to_nat m) pm = true)
    by (destruct pm; assumption).
  unfold renormalizes in K. rewrite !Z2Nat.id in K by lia.
  replace (if negb pm then lit "AM" else lit "PM")
    with (if pm then lit "PM" else lit "AM") by (destruct pm; reflexivity).
  destruct (@normalize_time ascii_runtime (fmt02 h) (fmt02 m)
              (if pm then lit "PM" else lit "AM")) as [[[H' Mi'] AP'] t'].
  apply andb_true_iff in K as [K K4]. apply andb_true_iff in K as [K K3].
  apply andb_true_iff in K as [K1 K2].
  apply str_eqb_eq in K1, K2, K3, K4. now subst.
Qed.

(** ** From a saved alarm to the ringing alarm *)

Section SaveThenRing.
Context {RT : PyRuntime} {OS : OsPath}.
Variable cfg : config.


(** The [/save] handler, when the ringtone resolves and the file can be
    written. *)
Lemma do_GET_save_written (w : world) (params : query) (s : mstate)
      (tone_hit : pystr) :
  resolve_tone_path cfg w (param params (lit "ringtone") []) = Some tone_hit ->
  str_truthy tone_hit = true ->
  w_writable w = true ->
  let '(H, Mi, AP, time12) :=
    normalize_time (param params (lit "hour") (lit "07"))
                   (param params (lit "minute") (lit "00"))
                   (param params (lit "ampm") (lit "AM")) in
  do_GET cfg w (lit "/save") params s
  = (set_alarm_file
       (Content (Utf8.write_newlines linesep
                   (Json.dumps (alarm_data H Mi AP time12 tone_hit)))) s,
     inr (SavedPage time12 (basename tone_hit))).
Proof.
  intros R T W. unfold do_GET.
  change (str_eqb (lit "/save") (lit "/")) with false.
  change (str_eqb (lit "/save") (lit "/save")) with true. cbv iota.
  destruct (normalize_time _ _ _) as [[[H Mi] AP] time12].
  rewrite R, T, bind_eq.
  change (PyDict [(lit "hour", PyStr H); (lit "minute", PyStr Mi);
                  (lit "ampm", PyStr AP); (lit "time12", PyStr time12);
                  (lit "ringtone", PyStr tone_hit)])
    with (str_dict [(lit "hour", H); (lit "minute", Mi); (lit "ampm", AP);
                    (lit "time12", time12); (lit "ringtone", tone_hit)]).
  rewrite FileFacts.save_alarm_obj_str_dict, W. reflexivity.
Qed.

Lemma fmt02_nonempty (z : Z) : (0 <= z < 100)%Z -> str_truthy (fmt02 z) = true.
Proof.
  intros H. destruct (fmt02_two_digits H) as [L _].
  destruct (fmt02 z); [discriminate L|reflexivity].
Qed.

Lemma alarm_data_fields (H Mi AP time12 tone_hit : pystr) :
  field (alarm_data H Mi AP time12 tone_hit) (lit "hour") = Some (PyStr H)
  /\ field (alarm_data H Mi AP time12 tone_hit) (lit "minute") = Some (PyStr Mi)
  /\ field (alarm_data H Mi AP time12 tone_hit) (lit "ampm") = Some (PyStr AP)
  /\ field (alarm_data H Mi AP time12 tone_hit) (lit "ringtone")
     = Some (PyStr tone_hit).
Proof. repeat split; reflexivity. Qed.

(** A saved alarm rings.  After a [/save] request whose ringtone
    resolved and whose record was written, a tick at the minute the
    wall clock shows the saved hour, minute and meridiem starts looped
    playback, provided nothing is ringing, the minute is not
    suppressed, the saved path still resolves and the audio backend
    plays it. *)
Theorem saved_alarm_rings (w w2 : world) (params : query) (s : mstate)
        (tone_hit q : pystr) :
  resolve_tone_path cfg w (param params (lit "ringtone") []) = Some tone_hit ->
  tone_hit <> [] ->
  valid_text tone_hit = true ->
  w_writable w = true ->
  RINGING s = false ->
  suppression_seen w2 s <> Some (displayed_time w2) ->
  resolve_tone_path cfg w2 tone_hit = Some q ->
  q <> [] ->
  AUDIO_OK cfg = true ->
  w_music_ok w2 q = true ->
  let '(H, Mi, AP, time12) :=
    normalize_time (param params (lit "hour") (lit "07"))
                   (param params (lit "minute") (lit "00"))
                   (param params (lit "ampm") (lit "AM")) in
  strftime_I (w_now w2) = H ->
  strftime_M (w_now w2) = Mi ->
  strftime_p (w_now w2) = AP ->
  starts_playback
    (events_of (alarm_checker cfg w2)
       (fst (do_GET cfg w (lit "/save") params s))) = true.
Proof.
  intros R Hne V W HR HS R2 Hq HA HM.
  pose proof (@do_GET_save_written w params s tone_hit R) as D.
  pose proof (FileFacts.normalize_time_ascii
                (param params (lit "hour") (lit "07"))
                (param params (lit "minute") (lit "00"))
                (param params (lit "ampm") (lit "AM"))) as A.
  unfold normalize_time in *.
  set (h := Z.max 1 (Z.min 12 (int_or 7 (param params (lit "hour") (lit "07"))))) in *.
  set (m := Z.max 0 (Z.min 59 (int_or 0 (param params (lit "minute") (lit "00"))))) in *.
  set (AP := if negb (str_eqb (str_upper (str_strip (param params (lit "ampm") (lit "AM"))))
                        (lit "PM")) then lit "AM" else lit "PM") in *.
  assert (Hh : str_truthy (fmt02 h) = true) by (apply fmt02_nonempty; subst h; lia).
  assert (Hm : str_truthy (fmt02 m) = true) by (apply fmt02_nonempty; subst m; lia).
  assert (Ha : str_truthy AP = true) by (subst AP; destruct (negb _); reflexivity).
  assert (Ht : str_truthy tone_hit = true) by (now apply str_truthy_true).
  destruct A as (A1 & A2 & A3 & A4).
  intros E1 E2 E3.
  rewrite (D Ht W). clear D.
  rewrite tick_starts_eq. cbn [fst alarm_file set_alarm_file].
  rewrite alarm_data_stored;
    try (apply FileFacts.ascii_valid; assumption); [|exact V].
  change (RINGING (set_alarm_file ?f s)) with (RINGING s).
  change (suppression_seen w2 (set_alarm_file ?f s)) with (suppression_seen w2 s).
  rewrite HR.
  apply opt_str_eqb_false in HS. rewrite HS.
  destruct (alarm_data_fields (fmt02 h) (fmt02 m) AP
              (fmt02 h ++ lit ":" ++ fmt02 m ++ lit " " ++ AP) tone_hit)
    as (F1 & F2 & F3 & F4).
  unfold has_required_fields, field_set, time_matches, field_is,
    meridiem_matches, ringtone_playable.
  rewrite F1, F2, F3, F4. cbn [py_truthy py_eq_str].
  rewrite Hh, Hm, Ha, Ht, E1, E2, E3, !str_eqb_refl, R2.
  apply str_truthy_true in Hq. rewrite Hq, HA, HM. reflexivity.
Qed.

End SaveThenRing.

(** A saved alarm rings: 07:05 AM saved at 07:00 AM with the ringtone
    [a.mp3] of the music directory, and the tick at 07:05 AM. *)
Lemma saved_alarm_rings_witness :
  let present := [lit "/app/music/a.mp3"] in
  let w := Example.world_at 7 0 present true in
  let w2 := Example.world_at 7 5 present true in
  let params := [(lit "hour", (lit "7", [])); (lit "minute", (lit "5", []));
                 (lit "ampm", (lit "AM", []));
                 (lit "ringtone", (lit "a.mp3", []))] in
  @resolve_tone_path Example.os Example.cfg w (param params (lit "ringtone") [])
  = Some (lit "/app/music/a.mp3")
  /\ starts_playback
       (events_of (@alarm_checker ascii_runtime Example.os Example.cfg w2)
          (fst (@do_GET ascii_runtime Example.os Example.cfg w (lit "/save")
                  params (initial Missing)))) = true.
Proof.
  cbv zeta.
  assert (R : @resolve_tone_path Example.os Example.cfg
                (Example.world_at 7 0 [lit "/app/music/a.mp3"] true)
                (param [(lit "hour", (lit "7", [])); (lit "minute", (lit "5", []));
                        (lit "ampm", (lit "AM", []));
                        (lit "ringtone", (lit "a.mp3", []))] (lit "ringtone") [])
              = Some (lit "/app/music/a.mp3")) by (vm_compute; reflexivity).
  split; [exact R|].
  refine (@saved_alarm_rings ascii_runtime Example.os Example.cfg
            (Example.world_at 7 0 [lit "/app/music/a.mp3"] true)
            (Example.world_at 7 5 [lit "/app/music/a.mp3"] true)
            _ (initial Missing) (lit "/app/music/a.mp3") (lit "/app/music/a.mp3")
            R _ _ _ _ _ _ _ _ _ _ _ _);
    try reflexivity; try discriminate.
Defined.

Section Retry.
Context {RT : PyRuntime} {OS : OsPath}.
Variable cfg : config.


End Retry.


(** ** The page *)


Lemma insert_sorted_perm (x : pystr) (l : list pystr) :
  Permutation (insert_sorted x l) (x :: l).
Proof.
  induction l as [|y l IH]; simpl; [reflexivity|].
  destruct (str_leb x y); [reflexivity|].
  rewrite IH. apply perm_swap.
Qed.

Lemma sort_perm (l : list pystr) : Permutation (sort l) l.
Proof.
  induction l as [|x l IH]; simpl; [reflexivity|].
  rewrite insert_sorted_perm. now constructor.
Qed.








Section PageFacts.
Context {RT : PyRuntime} {LC : PyLowercase} {OS : OsPath}.
Variable cfg : config.



End PageFacts.

Lemma startswith_app (m x : pystr) : startswith (m ++ x) m = true.
Proof.
  induction m as [|c m IH]; [now destruct x|].
  simpl. now rewrite N.eqb_refl, IH.
Qed.

(** On a POSIX system, every path [list_ringtones] returns is accepted
    by [resolve_tone_path] for as long as the file exists: the path
    starts with the music directory, so it is the first candidate, and
    the result is its absolute normal form. *)
Theorem offered_ringtone_resolves {LC : PyLowercase} (cwd : pystr) (cfg : config)
        (names : list pystr) (w : world) (p : pystr) :
  MUSIC_DIR cfg <> [] ->
  (forall name, In name names -> startswith name [47%N] = false) ->
  In p (@list_ringtones LC (Posix.os_path cwd) cfg (Some names)) ->
  w_exists w p = true ->
  @resolve_tone_path (Posix.os_path cwd) cfg w p = Some (Posix.abspath cwd p).
Proof.
  intros Hm Hn Hp He.
  unfold list_ringtones in Hp.
  apply (Permutation_in _ (sort_perm _)) in Hp.
  apply in_map_iff in Hp as (name & E & Hin).
  apply filter_In in Hin as [Hin _].
  specialize (Hn name Hin).
  assert (S : startswith p (MUSIC_DIR cfg) = true).
  { subst p. cbn [path_join Posix.os_path]. unfold Posix.join.
    change [Posix.sep] with [47%N]. rewrite Hn.
    destruct (negb (str_truthy (MUSIC_DIR cfg)) || endswith (MUSIC_DIR cfg) [47%N]);
      apply startswith_app. }
  assert (Pne : str_truthy p = true).
  { destruct p as [|c p]; [|reflexivity].
    destruct (MUSIC_DIR cfg); [contradiction|discriminate S]. }
  unfold resolve_tone_path, candidates. rewrite Pne, S. cbn [negb find].
  rewrite He. reflexivity.
Qed.

(** The catalogue of a music directory holding [a.mp3], [notes.txt] and
    [B.WAV]: the path of [a.mp3] resolves. *)
Lemma offered_ringtone_resolves_witness :
  let names := [lit "a.mp3"; lit "notes.txt"; lit "B.WAV"] in
  let w := Example.world_at 7 5 [lit "/app/music/a.mp3"] true in
  let p := lit "/app/music/a.mp3" in
  MUSIC_DIR Example.cfg <> []
  /\ In p (@list_ringtones ascii_lowercase Example.os Example.cfg (Some names))
  /\ @resolve_tone_path Example.os Example.cfg w p = Some p.
Proof.
  cbv zeta. split; [discriminate|].
  assert (I : In (lit "/app/music/a.mp3")
                (@list_ringtones ascii_lowercase Example.os Example.cfg
                   (Some [lit "a.mp3"; lit "notes.txt"; lit "B.WAV"])))
    by (vm_compute; right; left; reflexivity).
  split; [exact I|].
  refine (@offered_ringtone_resolves ascii_lowercase (lit "/home/user") Example.cfg
            [lit "a.mp3"; lit "notes.txt"; lit "B.WAV"]
            (Example.world_at 7 5 [lit "/app/music/a.mp3"] true)
            (lit "/app/music/a.mp3") _ _ I _).
  - discriminate.
  - intros name [<-|[<-|[<-|[]]]]; reflexivity.
  - reflexivity.
Defined.

(** ** What each request can change *)

Section Frame.
Context {RT : PyRuntime} {OS : OsPath}.
Variable cfg : config.

(** Only [/stop] changes the playback state and only [/save] changes
    the settings file: a request for any other path leaves [RINGING]
    and [STOPPED_THIS_MINUTE], resp. the file, as they are; no request
    changes the minute key the checker keeps; and [/stop] always
    answers with its page. *)
Theorem requests_change_only_their_state (w : world) (path : pystr)
        (params : query) (s : mstate) :
  let r := do_GET cfg w path params s in
  (path <> lit "/stop" ->
   RINGING (fst r) = RINGING s
   /\ STOPPED_THIS_MINUTE (fst r) = STOPPED_THIS_MINUTE s)
  /\ (path <> lit "/save" -> alarm_file (fst r) = alarm_file s)
  /\ last_minute_seen (fst r) = last_minute_seen s
  /\ (path = lit "/stop" -> snd r = inr StoppedPage).
Proof.
  cbv zeta.
  assert (Stop : do_GET cfg w (lit "/stop") params s
                 = (fst (stop_playback cfg w s), inr StoppedPage)).
  { unfold do_GET.
    change (str_eqb (lit "/stop") (lit "/")) with false.
    change (str_eqb (lit "/stop") (lit "/save")) with false.
    change (str_eqb (lit "/stop") (lit "/stop")) with true. cbv iota.
    rewrite bind_eq, stop_playback_eq. reflexivity. }
  destruct (stop_playback_state cfg w s) as (_ & _ & S3 & _ & S5).
  split; [|split; [|split]].
  - intros Hp. apply str_eqb_neq in Hp.
    destruct (@do_GET_not_stop_shared _ _ cfg w path params s Hp) as (E1 & E2 & _).
    split; assumption.
  - intros Hp. apply str_eqb_neq in Hp.
    destruct (str_eqb path (lit "/stop")) eqn:Es.
    { apply str_eqb_eq in Es. subst path. rewrite Stop. exact S5. }
    destruct (str_eqb path (lit "/test")) eqn:Et.
    { apply str_eqb_eq in Et. subst path. rewrite do_GET_test_eq.
      destruct (stored_record (alarm_file s)) as [ | | | | | |d]; try reflexivity.
      cbv zeta. destruct (negb (py_truthy _)); [reflexivity|].
      destruct (AUDIO_OK cfg); [|reflexivity].
      destruct (match Dict.lookup d (lit "ringtone") with
                | Some x => x
                | None => PyStr []
                end) as [ | | | |p| | ]; try reflexivity.
      destruct (w_music_ok w p); [|reflexivity].
      destruct (w_stop_ok w); reflexivity. }
    unfold do_GET. rewrite Hp, Es, Et.
    destruct (str_eqb path (lit "/")); reflexivity.
  - destruct (str_eqb path (lit "/stop")) eqn:Es.
    + apply str_eqb_eq in Es. subst path. rewrite Stop. exact S3.
    + destruct (@do_GET_not_stop_shared _ _ cfg w path params s Es)
        as (_ & _ & E3 & _).
      exact E3.
  - intros ->. rewrite Stop. reflexivity.
Qed.

End Frame.
